(** * Auto-Agent-X: request orchestration, hybrid retrieval, intent
      classification and streaming, embedded from the Python sources

    - [backend/services/intent_service.py]    -> [Module IntentService]
    - [backend/services/retrieval_service.py] -> [Module RetrievalService]
    - [backend/services/rag_service.py]       -> [Module RAGService]
    - [backend/engine/pipeline.py]            -> [Module RAGPipeline]

    Python values that cross the JSON boundary are [json] terms, Python
    [float]s are binary64 primitive floats, dictionaries are [gmap]s and the
    [set] of seen contents is a [gset].  A coroutine or async generator is a
    computation in a writer monad: it returns a value or raises, and it
    leaves a trace of what it did to the outside world (collaborator
    invocations, prints, thought-process log entries, yielded events). *)

From Stdlib Require Import ZArith Uint63 Floats Ascii String.
From stdpp Require Import base option list gmap strings pretty.

#[local] Set Warnings "-inexact-float,-register-all,-clear-no-such-hyp".

(** ** Python values *)

Inductive json : Type :=
| JNull
| JBool (b : bool)
| JInt (n : Z)
| JFloat (f : float)
| JStr (s : string)
| JList (l : list json)
| JDict (m : gmap string json).

(** Python truth value testing ([not v] is [negb (truthy v)]). *)
Definition truthy (v : json) : bool :=
  match v with
  | JNull => false
  | JBool b => b
  | JInt n => negb (n =? 0)%Z
  | JFloat f => negb (PrimFloat.eqb f 0%float)
  | JStr s => negb (bool_decide (s = ""))
  | JList l => negb (bool_decide (l = []))
  | JDict m => negb (bool_decide (dom m = ∅))
  end.

(** [v == s] for a string literal [s]. *)
Definition eq_str (v : json) (s : string) : bool :=
  match v with
  | JStr s' => bool_decide (s' = s)
  | _ => false
  end.

Definition LF : string := String "010"%char EmptyString.

(** [s[:n]] on a string. *)
Definition slice_to (n : nat) (s : string) : string := substring 0 n s.

(** ** Exceptions and outcomes *)

Record exn : Type := Exn { exn_type : string; exn_str : string }.

Inductive result (A : Type) : Type :=
| Ok (a : A)
| Raise (e : exn).
Arguments Ok {A} a.
Arguments Raise {A} e.

#[global] Instance result_ret : MRet result := @Ok.
#[global] Instance result_bind : MBind result := fun A B k r =>
  match r with
  | Ok a => k a
  | Raise e => Raise e
  end.

(** ** Data crossing the module boundaries *)

(** [langchain_core.documents.Document] *)
Record Document : Type := mkDocument {
  page_content : string;
  metadata : gmap string json
}.

(** [ChatPromptTemplate.from_messages]: the (role, template text) pairs. *)
Definition ChatPromptTemplate : Type := list (string * string).

(** One server-sent event, the two arguments of [_format_sse]. *)
Record sse : Type := mkSse { event : string; data : json }.

Inductive PipelineStage : Type :=
| QUERY_PARSE
| INTENT_CLASSIFY
| RETRIEVE
| RERANK
| CONTEXT_BUILD
| PROMPT_ASSEMBLE
| GENERATE
| POST_PROCESS.

Definition PipelineStage_value (s : PipelineStage) : string :=
  match s with
  | QUERY_PARSE => "query_parse"
  | INTENT_CLASSIFY => "intent_classify"
  | RETRIEVE => "retrieve"
  | RERANK => "rerank"
  | CONTEXT_BUILD => "context_build"
  | PROMPT_ASSEMBLE => "prompt_assemble"
  | GENERATE => "generate"
  | POST_PROCESS => "post_process"
  end.

#[global] Instance PipelineStage_eq_dec : EqDecision PipelineStage.
Proof. solve_decision. Defined.

(** ** What a run does to the outside world *)

Inductive effect : Type :=
| EPrint (line : string)
    (* print(...) *)
| ELog (session_id step : string) (details : json)
    (* ThoughtProcessLogger.log(session_id, step, details) *)
| EIntentChain (query : string)
    (* IntentService.chain.ainvoke({"query": query}) *)
| ESource (i : nat) (query : string)
    (* retrievers[i].ainvoke(query) *)
| EGenerate (streaming : bool) (prompt : ChatPromptTemplate)
            (context question : string)
    (* (prompt | llm | StrOutputParser()).ainvoke / .astream *)
| ENode (stage : PipelineStage)
    (* nodes[stage](ctx) *)
| EBefore (i : nat) (stage : PipelineStage)
    (* middlewares[i].before_stage(stage, ctx) *)
| EAfter (i : nat) (stage : PipelineStage).
    (* middlewares[i].after_stage(stage, ctx) *)

(** What an async generator does: the same, or it yields an event. *)
Inductive step : Type :=
| Did (e : effect)
| Yield (ev : sse).

Class Trace (T : Type) : Type := inject : effect → T.
#[global] Instance effect_trace : Trace effect := fun e => e.
#[global] Instance step_trace : Trace step := Did.

(** ** The monad of coroutines and generators: a trace and an outcome

    [Co A] is an [async def] without [yield]; [Gen A] is an async
    generator, whose trace interleaves what it does with what it yields. *)

Definition W (T A : Type) : Type := (list T * result A)%type.
Abbreviation Co := (W effect).
Abbreviation Gen := (W step).

Definition ret {T A} (a : A) : W T A := ([], Ok a).
Definition raise {T A} (e : exn) : W T A := ([], Raise e).
Definition lift {T A} (r : result A) : W T A := ([], r).
Definition tell {T} `{Trace T} (e : effect) : W T unit := ([inject e], Ok tt).

Definition bind {T A B} (m : W T A) (k : A → W T B) : W T B :=
  match m with
  | (t, Ok a) => let '(t', r) := k a in (t ++ t', r)
  | (t, Raise e) => (t, Raise e)
  end.

(** [try: m  except Exception as e: h e] *)
Definition try_except {T A} (m : W T A) (h : exn → W T A) : W T A :=
  match m with
  | (t, Ok a) => (t, Ok a)
  | (t, Raise e) => let '(t', r) := h e in (t ++ t', r)
  end.

(** [await m] inside an async generator. *)
Definition await {A} (m : Co A) : Gen A := (Did <$> m.1, m.2).

#[global] Instance W_ret {T} : MRet (W T) := @ret T.
#[global] Instance W_bind {T} : MBind (W T) := fun A B k m => bind m k.

Definition trace {T A} (m : W T A) : list T := m.1.
Definition outcome {T A} (m : W T A) : result A := m.2.

Definition print {T} `{Trace T} (line : string) : W T unit := tell (EPrint line).
Definition log {T} `{Trace T} (session_id step : string) (details : json)
  : W T unit :=
  tell (ELog session_id step details).
Definition yield (ev : string) (d : json) : Gen unit := ([Yield (mkSse ev d)], Ok tt).

(** The events a generator yields, in order, and what it does besides. *)
Definition yields (t : list step) : list sse :=
  omap (fun s => match s with Yield ev => Some ev | Did _ => None end) t.
Definition effects (t : list step) : list effect :=
  omap (fun s => match s with Did e => Some e | Yield _ => None end) t.

(** ** Library behaviour the sources rely on but do not contain

    pydantic's field validation ([IntentResult(...)]), [str()] inside an
    f-string and [json.dumps] live in third-party packages.  They are
    taken as an interface; only what they do on values that already have
    the declared type is fixed. *)
Class Runtime : Type := {
  validate_float : json → option float;
  validate_bool : json → option bool;
  validate_dict : json → option (gmap string json);
  validate_str : json → option string;
  validation_error_str : list (string * json) → string;
  py_str : json → string;
  validate_float_float : ∀ f, validate_float (JFloat f) = Some f;
  validate_bool_bool : ∀ b, validate_bool (JBool b) = Some b;
  validate_dict_dict : ∀ m, validate_dict (JDict m) = Some m;
  validate_str_str : ∀ s, validate_str (JStr s) = Some s;
  py_str_str : ∀ s, py_str (JStr s) = s
}.

(** [type(v).__name__], as it shows up in exception messages. *)
Definition type_name (v : json) : string :=
  match v with
  | JNull => "NoneType"
  | JBool _ => "bool"
  | JInt _ => "int"
  | JFloat _ => "float"
  | JStr _ => "str"
  | JList _ => "list"
  | JDict _ => "dict"
  end.

(** [d.get(key, dflt)]; only a [dict] has the method. *)
Definition dict_get (d : json) (key : string) (dflt : json) : result json :=
  match d with
  | JDict m => Ok (default dflt (m !! key))
  | _ => Raise (Exn "AttributeError"
                    ("'" +:+ type_name d +:+ "' object has no attribute 'get'"))
  end.

(** Lists and dictionaries are unhashable: using one as a set element or as
    a dictionary key raises [TypeError]. *)
Definition unhashable (v : json) : exn :=
  Exn "TypeError" ("unhashable type: '" +:+ type_name v +:+ "'").

(** [v in d] for a dictionary [d] with string keys. *)
Definition in_dict {V} (v : json) (d : gmap string V) : result bool :=
  match v with
  | JStr s => Ok (bool_decide (is_Some (d !! s)))
  | JList _ | JDict _ => Raise (unhashable v)
  | _ => Ok false
  end.

(** [v not in s] for a set [s] of strings. *)
Definition not_in_set (v : json) (s : gset string) : result bool :=
  match v with
  | JStr x => Ok (negb (bool_decide (x ∈ s)))
  | JList _ | JDict _ => Raise (unhashable v)
  | _ => Ok true
  end.

(** * backend/services/intent_service.py *)
Module IntentService.

Inductive IntentType : Type :=
| CODE_SEARCH
| CODE_EXPLAIN
| CODE_REVIEW
| BUG_FIX
| REFACTOR
| GENERAL_QA
| CASUAL_CHAT
| CLARIFICATION.

#[global] Instance IntentType_eq_dec : EqDecision IntentType.
Proof. solve_decision. Defined.

Definition IntentType_value (i : IntentType) : string :=
  match i with
  | CODE_SEARCH => "code_search"
  | CODE_EXPLAIN => "code_explain"
  | CODE_REVIEW => "code_review"
  | BUG_FIX => "bug_fix"
  | REFACTOR => "refactor"
  | GENERAL_QA => "general_qa"
  | CASUAL_CHAT => "casual_chat"
  | CLARIFICATION => "clarification"
  end.

Definition IntentType_members : list IntentType :=
  [CODE_SEARCH; CODE_EXPLAIN; CODE_REVIEW; BUG_FIX; REFACTOR; GENERAL_QA;
   CASUAL_CHAT; CLARIFICATION].

Definition _value2member_map_ : gmap string IntentType :=
  list_to_map ((fun i => (IntentType_value i, i)) <$> IntentType_members).

(** [IntentType(v)] *)
Definition IntentType_call (v : json) : result IntentType :=
  match v with
  | JStr s =>
      match _value2member_map_ !! s with
      | Some i => Ok i
      | None => Raise (Exn "ValueError" ("'" +:+ s +:+ "' is not a valid IntentType"))
      end
  | _ => Raise (Exn "ValueError" "not a valid IntentType")
  end.

Record IntentResult : Type := mkIntentResult {
  intent : IntentType;
  confidence : float;
  entities : gmap string json;
  suggested_prompt_template : string;
  requires_clarification : bool
}.

(** [IntentResult.dict()] *)
Definition IntentResult_dict (r : IntentResult) : json :=
  JDict (list_to_map
    [("intent", JStr (IntentType_value (intent r)));
     ("confidence", JFloat (confidence r));
     ("entities", JDict (entities r));
     ("suggested_prompt_template", JStr (suggested_prompt_template r));
     ("requires_clarification", JBool (requires_clarification r))]).

(** The instance state that matters: [self.chain], the composed
    prompt | model | JSON parser, as the outcome of [ainvoke] per query. *)
Record service : Type := mkService {
  chain : string → result json
}.

Definition allowed_template_ids : gset string :=
  {[ "default_v1"; "code_search_v1"; "code_explain_v1"; "code_review_v1";
     "bug_fix_v1"; "refactor_v1"; "general_qa_v1"; "casual_chat_v1" ]}.

Definition template_map : gmap string string :=
  list_to_map
    [("code_search", "code_search_v1");
     ("code_explain", "code_explain_v1");
     ("code_review", "code_review_v1");
     ("bug_fix", "bug_fix_v1");
     ("refactor", "refactor_v1");
     ("general_qa", "general_qa_v1");
     ("casual_chat", "casual_chat_v1")].

(** [template_map.get(intent, "default_v1")] *)
Definition _match_template (intent : json) : result string :=
  match intent with
  | JStr s => Ok (default "default_v1" (template_map !! s))
  | JList _ | JDict _ => Raise (unhashable intent)
  | _ => Ok "default_v1"
  end.

(** The [except] branch's return value. *)
Definition fallback_result : IntentResult :=
  {| intent := GENERAL_QA;
     confidence := 0.5%float;
     entities := ∅;
     suggested_prompt_template := "general_qa_v1";
     requires_clarification := false |}.

Section with_runtime.
Context `{Runtime}.

(** [IntentResult(intent=.., confidence=.., entities=.., ...)]: pydantic
    validates every field and raises when one does not fit. *)
Definition IntentResult_init (intent_enum : IntentType)
    (conf ents template_id clar : json) : result IntentResult :=
  match validate_float conf, validate_dict ents,
        validate_str template_id, validate_bool clar with
  | Some c, Some e, Some t, Some r =>
      Ok {| intent := intent_enum; confidence := c; entities := e;
            suggested_prompt_template := t; requires_clarification := r |}
  | _, _, _, _ =>
      Raise (Exn "ValidationError"
               (validation_error_str
                  [("confidence", conf); ("entities", ents);
                   ("suggested_prompt_template", template_id);
                   ("requires_clarification", clar)]))
  end.

(** What the [try] block of [classify] does with the parsed output of the
    chain ("Post-process to ensure type safety and defaults"). *)
Definition post_process (parsed : json) : result IntentResult :=
  intent_str ← dict_get parsed "intent" (JStr "general_qa");
  (* Map string to Enum safely *)
  known ← in_dict intent_str _value2member_map_;
  intent_enum ← (if known : bool
                 then IntentType_call intent_str
                 else Ok GENERAL_QA);
  (* Determine template if not provided by LLM or validate it *)
  template_id ← dict_get parsed "suggested_prompt_template" JNull;
  replace ← (if negb (truthy template_id) then Ok true
             else if eq_str template_id "template_id" then Ok true
             else not_in_set template_id allowed_template_ids);
  template_id ← (if replace : bool
                 then t ← _match_template intent_str; Ok (JStr t)
                 else Ok template_id);
  conf ← dict_get parsed "confidence" (JFloat 0.0%float);
  ents ← dict_get parsed "entities" (JDict ∅);
  clar ← dict_get parsed "requires_clarification" (JBool false);
  IntentResult_init intent_enum conf ents template_id clar.

(** The body of the [try] block of [classify]. *)
Definition classify_try (self : service) (query : string) : Co IntentResult :=
  tell (EIntentChain query);;
  parsed ← lift (chain self query);
  lift (post_process parsed).

Definition classify (self : service) (query : string) : Co IntentResult :=
  try_except (classify_try self query)
    (fun e =>
       print ("Intent classification error: " +:+ exn_str e);;
       ret fallback_result).

End with_runtime.
End IntentService.

(** * backend/services/retrieval_service.py *)
Module RetrievalService.

(** A retriever is used through [ainvoke(query)] only: it hands back a list
    of documents or raises. *)
Definition BaseRetriever : Type := string → result (list Document).

Record EnsembleRetriever : Type := mkEnsembleRetriever {
  retrievers : list BaseRetriever;
  weights : list float
}.

(** One turn of the loop of [_rerank]; the state is [(seen, unique_docs)]. *)
Definition rerank_step (st : gset string * list Document) (doc : Document)
  : gset string * list Document :=
  if bool_decide (page_content doc ∉ st.1)
  then ({[ page_content doc ]} ∪ st.1, st.2 ++ [doc])
  else st.

Definition _rerank (docs : list Document) : list Document :=
  (foldl rerank_step (∅, []) docs).2.

(** [asyncio.gather] with [return_exceptions=True]: every retriever is
    invoked, and the outcomes come back in the order of the tasks, an
    exception taking the place of the result of the task that raised. *)
Definition gather (rs : list BaseRetriever) (query : string)
  : Co (list (result (list Document))) :=
  (imap (fun i _ => ESource i query) rs, Ok ((fun r => r query) <$> rs)).

(** One turn of the loop over [enumerate(results)]. *)
Definition extend_step (all_docs : list Document) (res : result (list Document))
  : list Document :=
  match res with
  | Ok docs => all_docs ++ docs   (* isinstance(res, list) *)
  | Raise _ => all_docs
  end.

Definition _aget_relevant_documents (self : EnsembleRetriever) (query : string)
  : Co (list Document) :=
  results ← gather (retrievers self) query;
  let all_docs := foldl extend_step [] results in
  ret (_rerank all_docs).

Definition float_of_nat (i : nat) : float :=
  PrimFloat.of_uint63 (Uint63.of_Z (Z.of_nat i)).

(** [MockVectorRetriever(k=k)] *)
Definition MockVectorRetriever (k : nat) : BaseRetriever := fun query =>
  Ok ((fun i =>
         {| page_content :=
              "Vector result for " +:+ query +:+
              ": This is relevant content chunk " +:+ pretty i;
            metadata := list_to_map
              [("source", JStr ("doc_" +:+ pretty i +:+ ".py"));
               ("type", JStr "vector");
               ("score", JFloat (0.9 - float_of_nat i * 0.1)%float)] |})
      <$> seq 0 k).

(** [MockKeywordRetriever(k=k)] *)
Definition MockKeywordRetriever (k : nat) : BaseRetriever := fun query =>
  Ok ((fun i =>
         {| page_content :=
              "Keyword result for " +:+ query +:+
              ": Function definition and usage " +:+ pretty i;
            metadata := list_to_map
              [("source", JStr ("utils_" +:+ pretty i +:+ ".py"));
               ("type", JStr "keyword");
               ("score", JFloat (0.8 - float_of_nat i * 0.1)%float)] |})
      <$> seq 0 k).

Record service : Type := mkService {
  ensemble_retriever : EnsembleRetriever
}.

(** [RetrievalService()] *)
Definition __init__ : service :=
  {| ensemble_retriever :=
       {| retrievers := [MockVectorRetriever 5; MockKeywordRetriever 5];
          weights := [0.7%float; 0.3%float] |} |}.

Definition retrieve (self : service) (query : string) : Co (list Document) :=
  _aget_relevant_documents (ensemble_retriever self) query.

(** The merge as the specification words it: the head of the flattened
    list is kept, and every later document with the head's content is
    dropped from what the rest contributes. *)
Fixpoint first_occurrence_wins (docs : list Document) : list Document :=
  match docs with
  | [] => []
  | d :: rest =>
      d :: filter (fun d' => page_content d' ≠ page_content d)
             (first_occurrence_wins rest)
  end.

(** The documents of the sources that did not fail, flattened in the
    order in which the sources were registered. *)
Definition successful_docs (rs : list BaseRetriever) (query : string)
  : list Document :=
  mjoin ((fun r => match r query with Ok docs => docs | Raise _ => [] end) <$> rs).

End RetrievalService.

(** [sep.join(parts)] *)
Fixpoint join (sep : string) (parts : list string) : string :=
  match parts with
  | [] => ""
  | [p] => p
  | p :: rest => p +:+ sep +:+ join sep rest
  end.

(** [d[key]] *)
Definition getitem {V} (d : gmap string V) (key : string) : result V :=
  match d !! key with
  | Some v => Ok v
  | None => Raise (Exn "KeyError" ("'" +:+ key +:+ "'"))
  end.

Definition dict (kvs : list (string * json)) : json := JDict (list_to_map kvs).

(** * backend/services/rag_service.py *)
Module RAGService.
Import IntentService.

(** The collaborators held by the instance: the intent service, the
    [retrieve] coroutine of the retrieval service, and the generation chain
    [prompt_template | self.llm | StrOutputParser()] as the outcome of
    [ainvoke] and of [astream] (the chunks it delivers and, possibly, the
    exception that ends the iteration) for a template and its inputs. *)
Record service : Type := mkService {
  intent_service : IntentService.service;
  retrieval_service : string → Co (list Document);
  llm_ainvoke : ChatPromptTemplate → string → string → result string;
  llm_astream : ChatPromptTemplate → string → string → list string * option exn
}.

Definition default_v1 : ChatPromptTemplate :=
  [("system", "You are a professional code assistant.
Answer the question based ONLY on the following context.
If the answer is not in the context, say you don't know.

Context:
{context}");
   ("user", "{question}")].

Definition code_search_v1 : ChatPromptTemplate :=
  [("system", "You are a code search expert.
Based on the context provided, locate and explain the code relevant to the user's query.
Highlight file paths and line numbers if available.

Context:
{context}");
   ("user", "{question}")].

Definition code_explain_v1 : ChatPromptTemplate :=
  [("system", "You are a code explanation expert.
Explain the functionality of the code provided in the context.
Break down complex logic into simple steps.

Context:
{context}");
   ("user", "{question}")].

Definition general_qa_v1 : ChatPromptTemplate :=
  [("system", "You are a helpful technical assistant.
Answer the question using the provided context as a reference.

Context:
{context}");
   ("user", "{question}")].

Definition casual_chat_v1 : ChatPromptTemplate :=
  [("system", "You are a helpful technical assistant.
Answer the user's question directly and concisely.");
   ("user", "{question}")].

Definition prompt_templates : gmap string ChatPromptTemplate :=
  list_to_map
    [("default_v1", default_v1);
     ("code_search_v1", code_search_v1);
     ("code_explain_v1", code_explain_v1);
     ("general_qa_v1", general_qa_v1);
     ("casual_chat_v1", casual_chat_v1)].

(** [self.prompt_templates.get(template_id, self.prompt_templates["default_v1"])] *)
Definition select_prompt (template_id : string) : result ChatPromptTemplate :=
  match getitem prompt_templates "default_v1" with
  | Ok fallback => Ok (default fallback (prompt_templates !! template_id))
  | Raise e => Raise e
  end.

Record Citation : Type := mkCitation {
  cite_source : json;
  cite_content : string;
  cite_relevance : json
}.

(** One element of the [citations] comprehension of [chat] and
    [chat_stream]. *)
Definition citation_of (d : Document) : Citation :=
  {| cite_source := default JNull (metadata d !! "source");
     cite_content := slice_to 100 (page_content d) +:+ "...";
     cite_relevance := default (JFloat 0.0%float) (metadata d !! "score") |}.

Definition Citation_json (c : Citation) : json :=
  dict [("source", cite_source c);
        ("content", JStr (cite_content c));
        ("relevance", cite_relevance c)].

(** [[d.metadata.get("source") for d in docs]] *)
Definition sources_of (docs : list Document) : json :=
  JList ((fun d => default JNull (metadata d !! "source")) <$> docs).

(** The dictionary returned by [chat]. *)
Record ChatResult : Type := mkChatResult {
  res_session_id : string;
  res_response : string;
  res_intent : json;
  res_citations : list Citation;
  res_metadata : gmap string json
}.

Section with_runtime.
Context `{Runtime}.

Definition _format_docs (docs : list Document) : string :=
  join (LF +:+ LF)
    ((fun d =>
        "Source: " +:+ py_str (default (JStr "Unknown") (metadata d !! "source"))
        +:+ LF +:+ "Content: " +:+ page_content d) <$> docs).

(** The [LLM_INPUT] log entry, common to both entry points. *)
Definition log_llm_input {T} `{Trace T}
    (session_id template_id context_str query : string) : W T unit :=
  log session_id "LLM_INPUT"
    (dict [("template_id", JStr template_id);
           ("context_preview",
            JStr (if bool_decide (500 < String.length context_str)
                  then slice_to 500 context_str +:+ "..."
                  else context_str));
           ("question", JStr query)]).

Definition log_retrieval_success {T} `{Trace T}
    (session_id : string) (docs : list Document) : W T unit :=
  log session_id "RETRIEVAL_SUCCESS"
    (dict [("count", JInt (Z.of_nat (length docs)));
           ("sources", sources_of docs)]).

(** Step 2 of [chat]: retrieval, skipped for casual chat, and an empty
    list when the retrieval service raises. *)
Definition chat_retrieval (self : service) (query session_id : string)
    (intent_result : IntentResult) : Co (list Document) :=
  if bool_decide (intent intent_result ≠ CASUAL_CHAT)
  then try_except
         (docs ← retrieval_service self query;
          log_retrieval_success session_id docs;;
          ret docs)
         (fun e =>
            print ("Retrieval failed: " +:+ exn_str e);;
            log session_id "RETRIEVAL_FAILED" (dict [("error", JStr (exn_str e))]);;
            (* Proceed with empty docs *)
            ret [])
  else log session_id "RETRIEVAL_SKIPPED"
         (dict [("reason", JStr "casual_chat intent")]);;
       ret [].

(** Steps 3 to 5 of [chat] and the returned dictionary. *)
Definition chat_generation (self : service) (query session_id : string)
    (intent_result : IntentResult) (docs : list Document) : Co ChatResult :=
  (* 3. Select Prompt *)
  let template_id := suggested_prompt_template intent_result in
  prompt_template ← lift (select_prompt template_id);
  log session_id "PROMPT_SELECTED" (dict [("template_id", JStr template_id)]);;
  (* 4./5. Build and execute the chain *)
  let context_str := _format_docs docs in
  log_llm_input session_id template_id context_str query;;
  tell (EGenerate false prompt_template context_str query);;
  response_text ← lift (llm_ainvoke self prompt_template context_str query);
  log session_id "LLM_OUTPUT" (dict [("response", JStr response_text)]);;
  ret {| res_session_id := session_id;
         res_response := response_text;
         res_intent := IntentResult_dict intent_result;
         res_citations := citation_of <$> docs;
         res_metadata := {[ "template_used" := JStr template_id ]} |}.

Definition chat (self : service) (query session_id : string) : Co ChatResult :=
  (* 0. Log Start *)
  log session_id "START_REQUEST" (dict [("query", JStr query)]);;
  (* 1. Intent Classification *)
  intent_result ← classify (intent_service self) query;
  log session_id "INTENT_CLASSIFIED" (IntentResult_dict intent_result);;
  (* 2. Retrieval *)
  docs ← chat_retrieval self query session_id intent_result;
  (* 3.-5. *)
  chat_generation self query session_id intent_result docs.

(** The [async for chunk in chain.astream(...)] loop: [full_response]
    grows and one [token] event is yielded per chunk. *)
Fixpoint stream_chunks (chunks : list string) (full_response : string)
  : Gen string :=
  match chunks with
  | [] => ret full_response
  | chunk :: rest =>
      yield "token" (dict [("content", JStr chunk)]);;
      stream_chunks rest (full_response +:+ chunk)
  end.

(** Step 2 of [chat_stream]: as in [chat], but a failure of the retrieval
    service is also reported to the consumer as an [error] event. *)
Definition stream_retrieval (self : service) (query session_id : string)
    (intent_result : IntentResult) : Gen (list Document) :=
  if bool_decide (intent intent_result ≠ CASUAL_CHAT)
  then try_except
         (docs ← await (retrieval_service self query);
          log_retrieval_success session_id docs;;
          ret docs)
         (fun e =>
            print ("Retrieval failed: " +:+ exn_str e);;
            log session_id "RETRIEVAL_FAILED" (dict [("error", JStr (exn_str e))]);;
            yield "error"
              (dict [("message", JStr ("Retrieval failed: " +:+ exn_str e))]);;
            (* Proceed with empty docs *)
            ret [])
  else log session_id "RETRIEVAL_SKIPPED"
         (dict [("reason", JStr "casual_chat intent")]);;
       ret [].

(** Steps 3 to 6 of [chat_stream]. *)
Definition stream_generation (self : service) (query session_id : string)
    (intent_result : IntentResult) (docs : list Document) : Gen unit :=
  (* 3. Select Prompt *)
  let template_id := suggested_prompt_template intent_result in
  prompt_template ← lift (select_prompt template_id);
  log session_id "PROMPT_SELECTED" (dict [("template_id", JStr template_id)]);;
  (* 5. Stream Generation *)
  yield "status" (dict [("stage", JStr "generating")]);;
  let context_str := _format_docs docs in
  log_llm_input session_id template_id context_str query;;
  tell (EGenerate true prompt_template context_str query);;
  let '(chunks, failure) := llm_astream self prompt_template context_str query in
  full_response ← stream_chunks chunks "";
  (match failure with
   | Some e => raise e
   | None => ret tt
   end);;
  log session_id "LLM_OUTPUT_STREAM_COMPLETE"
    (dict [("response_length", JInt (Z.of_nat (String.length full_response)))]);;
  (* 6. Completion *)
  yield "done"
    (dict [("session_id", JStr session_id);
           ("citations", JList (Citation_json <$> (citation_of <$> docs)))]).

Definition chat_stream (self : service) (query session_id : string) : Gen unit :=
  (* 0. Log Start *)
  log session_id "START_REQUEST_STREAM" (dict [("query", JStr query)]);;
  (* 1. Intent Classification (Yield status) *)
  yield "status" (dict [("stage", JStr "intent_classify")]);;
  intent_result ← await (classify (intent_service self) query);
  log session_id "INTENT_CLASSIFIED" (IntentResult_dict intent_result);;
  (if requires_clarification intent_result
   then yield "clarification"
          (dict [("message", JStr "Clarification needed");
                 ("suggestions", JList [])])
   else ret tt);;
  (* 2. Retrieval (Yield status) *)
  yield "status" (dict [("stage", JStr "retrieving")]);;
  docs ← stream_retrieval self query session_id intent_result;
  yield "retrieval"
    (dict [("found", JInt (Z.of_nat (length docs)));
           ("sources", sources_of docs)]);;
  (* 3.-6. *)
  stream_generation self query session_id intent_result docs.

End with_runtime.

(** [RAGService()] wires the real retrieval service; the language model
    behind both chains stays a parameter. *)
Definition __init__ (intent_chain : string → result json)
    (ainvoke : ChatPromptTemplate → string → string → result string)
    (astream : ChatPromptTemplate → string → string → list string * option exn)
  : service :=
  {| intent_service := IntentService.mkService intent_chain;
     retrieval_service := RetrievalService.retrieve RetrievalService.__init__;
     llm_ainvoke := ainvoke;
     llm_astream := astream |}.

End RAGService.

(** [_format_sse], the same method in [RAGService] and [RAGPipeline]: the
    wire text of one event, [json.dumps] being the library's. *)
Definition _format_sse (json_dumps : json → string) (ev : sse) : string :=
  "event: " +:+ event ev +:+ LF +:+ "data: " +:+ json_dumps (data ev) +:+ LF +:+ LF.

(** * backend/engine/pipeline.py *)
Module RAGPipeline.
Import IntentService.

Definition PipelineStage_code (s : PipelineStage) : nat :=
  match s with
  | QUERY_PARSE => 0 | INTENT_CLASSIFY => 1 | RETRIEVE => 2 | RERANK => 3
  | CONTEXT_BUILD => 4 | PROMPT_ASSEMBLE => 5 | GENERATE => 6
  | POST_PROCESS => 7
  end.

Definition PipelineStage_decode (n : nat) : PipelineStage :=
  match n with
  | 0 => QUERY_PARSE | 1 => INTENT_CLASSIFY | 2 => RETRIEVE | 3 => RERANK
  | 4 => CONTEXT_BUILD | 5 => PROMPT_ASSEMBLE | 6 => GENERATE
  | _ => POST_PROCESS
  end.

#[global] Instance PipelineStage_countable : Countable PipelineStage.
Proof.
  apply (inj_countable' PipelineStage_code PipelineStage_decode).
  intros []; reflexivity.
Defined.

(** What the pipeline reads of a retrieval result: [r.content], [r.score]
    and [r.metadata]. *)
Record RetrievedDocument : Type := mkRetrievedDocument {
  content : string;
  score : float;
  doc_metadata : gmap string json
}.

Record PipelineContext : Type := mkPipelineContext {
  ctx_query : string;
  ctx_session_id : string;
  ctx_user_id : option string;
  ctx_intent : option IntentResult;
  ctx_retrieval_results : option (list RetrievedDocument);
  ctx_context : option json;
  ctx_prompt : option json;
  ctx_response : option string;
  ctx_metadata : gmap string json
}.

(** The keyword arguments handed on to the dataclass constructor. *)
Record kwargs : Type := mkKwargs {
  kw_session_id : option string;
  kw_user_id : option string;
  kw_intent : option IntentResult;
  kw_retrieval_results : option (list RetrievedDocument);
  kw_context : option json;
  kw_prompt : option json;
  kw_response : option string;
  kw_metadata : option (gmap string json)
}.

(** [PipelineContext(query=query, **kwargs)] with [__post_init__]. *)
Definition PipelineContext_init (query : string) (kw : kwargs)
  : result PipelineContext :=
  match kw_session_id kw with
  | None =>
      Raise (Exn "TypeError"
        "PipelineContext.__init__() missing 1 required positional argument: 'session_id'")
  | Some sid =>
      Ok {| ctx_query := query;
            ctx_session_id := sid;
            ctx_user_id := kw_user_id kw;
            ctx_intent := kw_intent kw;
            ctx_retrieval_results := kw_retrieval_results kw;
            ctx_context := kw_context kw;
            ctx_prompt := kw_prompt kw;
            ctx_response := kw_response kw;
            ctx_metadata := default ∅ (kw_metadata kw) |}
  end.

Definition set_response (ctx : PipelineContext) (r : string) : PipelineContext :=
  {| ctx_query := ctx_query ctx;
     ctx_session_id := ctx_session_id ctx;
     ctx_user_id := ctx_user_id ctx;
     ctx_intent := ctx_intent ctx;
     ctx_retrieval_results := ctx_retrieval_results ctx;
     ctx_context := ctx_context ctx;
     ctx_prompt := ctx_prompt ctx;
     ctx_response := Some r;
     ctx_metadata := ctx_metadata ctx |}.

(** A registered node, sync or async: it hands back a context or raises. *)
Definition Node : Type := PipelineContext → result PipelineContext.

(** A middleware has a [before_stage] hook, an [after_stage] hook, both or
    neither ([hasattr]). *)
Record Middleware : Type := mkMiddleware {
  before_stage : option (PipelineStage → PipelineContext → result PipelineContext);
  after_stage : option (PipelineStage → PipelineContext → result PipelineContext)
}.

Record pipeline : Type := mkPipeline {
  config : gmap string json;
  nodes : gmap PipelineStage Node;
  middlewares : list Middleware
}.

Definition __init__ (cfg : gmap string json) : pipeline :=
  {| config := cfg; nodes := ∅; middlewares := [] |}.

Definition register_node (self : pipeline) (stage : PipelineStage) (node : Node)
  : pipeline :=
  {| config := config self;
     nodes := <[stage := node]> (nodes self);
     middlewares := middlewares self |}.

Definition add_middleware (self : pipeline) (middleware : Middleware) : pipeline :=
  {| config := config self;
     nodes := nodes self;
     middlewares := middlewares self ++ [middleware] |}.

(** [for middleware in self.middlewares: if hasattr(middleware,
    'before_stage'): ctx = await middleware.before_stage(stage, ctx)];
    [i] is the position of the head of [ms] in [self.middlewares]. *)
Fixpoint run_before (ms : list Middleware) (i : nat) (stage : PipelineStage)
    (ctx : PipelineContext) : Co PipelineContext :=
  match ms with
  | [] => ret ctx
  | m :: rest =>
      ctx ← (match before_stage m with
             | Some hook => tell (EBefore i stage);; lift (hook stage ctx)
             | None => ret ctx
             end);
      run_before rest (S i) stage ctx
  end.

Fixpoint run_after (ms : list Middleware) (i : nat) (stage : PipelineStage)
    (ctx : PipelineContext) : Co PipelineContext :=
  match ms with
  | [] => ret ctx
  | m :: rest =>
      ctx ← (match after_stage m with
             | Some hook => tell (EAfter i stage);; lift (hook stage ctx)
             | None => ret ctx
             end);
      run_after rest (S i) stage ctx
  end.

Definition _execute_stage (self : pipeline) (stage : PipelineStage)
    (ctx : PipelineContext) : Co PipelineContext :=
  match nodes self !! stage with
  | None => ret ctx
  | Some node =>
      ctx ← run_before (middlewares self) 0 stage ctx;
      tell (ENode stage);;
      ctx ← lift (node ctx);
      run_after (middlewares self) 0 stage ctx
  end.

(** [ctx.intent and ctx.intent.requires_clarification] *)
Definition needs_clarification (ctx : PipelineContext) : bool :=
  match ctx_intent ctx with
  | Some i => requires_clarification i
  | None => false
  end.

Definition clarification_response : string :=
  "I need more information to understand your question...".

Definition execute (self : pipeline) (query : string) (kw : kwargs)
  : Co PipelineContext :=
  ctx ← lift (PipelineContext_init query kw);
  (* Stage 1: Query Parse *)
  ctx ← _execute_stage self QUERY_PARSE ctx;
  (* Stage 2: Intent Classification *)
  ctx ← _execute_stage self INTENT_CLASSIFY ctx;
  (* If clarification needed, return early *)
  if needs_clarification ctx
  then ret (set_response ctx clarification_response)
  else
    ctx ← _execute_stage self RETRIEVE ctx;
    ctx ← _execute_stage self RERANK ctx;
    ctx ← _execute_stage self CONTEXT_BUILD ctx;
    ctx ← _execute_stage self PROMPT_ASSEMBLE ctx;
    ctx ← _execute_stage self GENERATE ctx;
    ctx ← _execute_stage self POST_PROCESS ctx;
    ret ctx.

(** The tokens yielded by [_execute_stream_stage]. *)
Definition _execute_stream_stage (self : pipeline) (ctx : PipelineContext)
  : list string :=
  match nodes self !! GENERATE with
  | None => [""]
  | Some _ => ["This "; "is "; "a "; "streaming "; "response."]
  end.

Definition citation_json (r : RetrievedDocument) : json :=
  dict [("source", default JNull (doc_metadata r !! "source"));
        ("content", JStr (slice_to 100 (content r) +:+ "..."));
        ("relevance", JFloat (score r))].

Definition _extract_citations (ctx : PipelineContext) : list json :=
  match ctx_retrieval_results ctx with
  | None | Some [] => []
  | Some rs => citation_json <$> rs
  end.

Fixpoint yield_tokens (tokens : list string) : Gen unit :=
  match tokens with
  | [] => ret tt
  | token :: rest =>
      yield "token" (dict [("content", JStr token)]);;
      yield_tokens rest
  end.

Definition execute_stream (self : pipeline) (query : string) (kw : kwargs)
  : Gen unit :=
  ctx ← lift (PipelineContext_init query kw);
  (* Send status update *)
  yield "status" (dict [("stage", JStr "intent_classify")]);;
  (* Intent Classification *)
  ctx ← await (_execute_stage self INTENT_CLASSIFY ctx);
  if needs_clarification ctx
  then yield "clarification"
         (dict [("message", JStr "Clarification needed");
                ("suggestions", JList [])])
  else
    (* Retrieval Stage *)
    yield "status" (dict [("stage", JStr "retrieving")]);;
    ctx ← await (_execute_stage self RETRIEVE ctx);
    yield "retrieval"
      (dict [("found",
              JInt (match ctx_retrieval_results ctx with
                    | None | Some [] => 0
                    | Some rs => Z.of_nat (length rs)
                    end));
             ("sources",
              JList (match ctx_retrieval_results ctx with
                     | None | Some [] => []
                     | Some rs =>
                         (fun r => default JNull (doc_metadata r !! "source")) <$> rs
                     end))]);;
    (* Generation Stage (Streaming) *)
    yield "status" (dict [("stage", JStr "generating")]);;
    yield_tokens (_execute_stream_stage self ctx);;
    (* Completion *)
    yield "done"
      (dict [("session_id", JStr (ctx_session_id ctx));
             ("citations", JList (_extract_citations ctx))]).

End RAGPipeline.

(** * A reference runtime

    An instance of the library interface for closed examples: a field
    validates exactly when the value already has the declared type. *)
#[export] Instance strict_runtime : Runtime := {|
  validate_float v := match v with JFloat f => Some f | _ => None end;
  validate_bool v := match v with JBool b => Some b | _ => None end;
  validate_dict v := match v with JDict m => Some m | _ => None end;
  validate_str v := match v with JStr s => Some s | _ => None end;
  validation_error_str fields := "validation error for IntentResult";
  py_str v := match v with JStr s => s | _ => type_name v end;
  validate_float_float _ := eq_refl;
  validate_bool_bool _ := eq_refl;
  validate_dict_dict _ := eq_refl;
  validate_str_str _ := eq_refl;
  py_str_str _ := eq_refl
|}.

(** * Notions of the specification and closed examples *)
(* to defs *)
Module Claims.
Import IntentService.

(** The category a reported label is mapped to ("Map string to Enum
    safely"). *)
Definition intent_of_label (label : json) : IntentType :=
  match label with
  | JStr s => default GENERAL_QA (_value2member_map_ !! s)
  | _ => GENERAL_QA
  end.

(** The entry of the fixed lookup table for an intent category. *)
Definition table_entry (i : IntentType) : string :=
  default "default_v1" (template_map !! IntentType_value i).

(** What the classifier reported, read as [classify] reads it: each
    field with the default of its [result.get]. *)
Definition reported_label (m : gmap string json) : json :=
  default (JStr "general_qa") (m !! "intent").
Definition reported_template (m : gmap string json) : json :=
  default JNull (m !! "suggested_prompt_template").
Definition reported_confidence (m : gmap string json) : json :=
  default (JFloat 0.0%float) (m !! "confidence").
Definition reported_entities (m : gmap string json) : json :=
  default (JDict ∅) (m !! "entities").
Definition reported_flag (m : gmap string json) : json :=
  default (JBool false) (m !! "requires_clarification").

(** A value that can be an element of a set or a key of a dictionary:
    anything but a list or a dictionary. *)
Definition hashable (v : json) : bool :=
  match v with
  | JList _ | JDict _ => false
  | _ => true
  end.

(** The entry of the fixed lookup table under a reported label; a label
    the table does not hold, a string or not, gives the default. *)
Definition table_lookup (label : json) : string :=
  match label with
  | JStr s => default "default_v1" (template_map !! s)
  | _ => "default_v1"
  end.

(** A suggested template id that is missing ([None]), the placeholder, or
    anything else that is not a string of the allow-list. *)
Definition invalid_template_id (tid : json) : Prop :=
  ∀ s, tid = JStr s → s ∉ allowed_template_ids.

(** C1 as the specification words it. *)
Definition clarification_forced_below_threshold : Prop :=
  ∀ (R : Runtime) (self : service) (query : string) (r : IntentResult),
    outcome (classify self query) = Ok r →
    PrimFloat.ltb (confidence r) 0.7%float = true →
    requires_clarification r = true.

(** C7 as the specification words it. *)
Definition template_follows_category : Prop :=
  ∀ (R : Runtime) (self : service) (query : string) m (r : IntentResult),
    chain self query = Ok (JDict m) →
    invalid_template_id (default JNull (m !! "suggested_prompt_template")) →
    outcome (classify self query) = Ok r →
    suggested_prompt_template r = table_entry (intent r).

(** A classifier that is unsure and does not ask for clarification. *)
Definition unsure_fields : gmap string json :=
  list_to_map
    [("intent", JStr "general_qa");
     ("confidence", JFloat 0.69%float);
     ("entities", JDict ∅);
     ("suggested_prompt_template", JStr "general_qa_v1");
     ("requires_clarification", JBool false)].

(** A classifier that answers with a label and a template id the service
    does not know. *)
Definition unknown_label_fields : gmap string json :=
  list_to_map
    [("intent", JStr "deploy_help");
     ("confidence", JFloat 0.95%float);
     ("entities", JDict ∅);
     ("suggested_prompt_template", JStr "nonexistent_v1");
     ("requires_clarification", JBool false)].

(** The test of the specification: [bug_fix] with [nonexistent_v1]. *)
Definition bug_fix_fields : gmap string json :=
  list_to_map
    [("intent", JStr "bug_fix");
     ("confidence", JFloat 0.95%float);
     ("entities", JDict ∅);
     ("suggested_prompt_template", JStr "nonexistent_v1");
     ("requires_clarification", JBool false)].

Definition answering (fields : gmap string json) : service :=
  {| chain := fun _ => Ok (JDict fields) |}.

Definition failing (e : exn) : service :=
  {| chain := fun _ => Raise e |}.

End Claims.

(** Spec-side notions for the hybrid retriever. *)
Module RetrievalClaims.
Import RetrievalService.

(** Whether a source call came back with documents. *)
Definition succeeded {A} (res : result A) : bool :=
  match res with
  | Ok _ => true
  | Raise _ => false
  end.

(** The configured sources that do not fail on [query]. *)
Definition surviving (rs : list BaseRetriever) (query : string)
  : list BaseRetriever :=
  filter (λ r, succeeded (r query) = true) rs.

(** Three sources for closed examples: the second one is down, the third
    one repeats a document of the first. *)
Definition doc (text src : string) : Document :=
  {| page_content := text; metadata := {[ "source" := JStr src ]} |}.

Definition sample_sources : list BaseRetriever :=
  [ (λ _, Ok [doc "def parse(x)" "a.py"; doc "class Lexer" "b.py"]);
    (λ _, Raise (Exn "TimeoutError" "vector index timed out"));
    (λ _, Ok [doc "class Lexer" "c.py"; doc "import re" "d.py"]) ].

Definition sample_service : service :=
  {| ensemble_retriever :=
       {| retrievers := sample_sources; weights := [0.7%float; 0.3%float] |} |}.

End RetrievalClaims.

(** Spec-side notions for the service entry points. *)
Module ServiceClaims.
Import IntentService RAGService.

(** The final retrieved-document set of a request: nothing for casual
    chat or when the retrieval service raises, else what it returned. *)
Definition retrieved (self : service) (query : string) (ir : IntentResult)
  : list Document :=
  if bool_decide (intent ir ≠ CASUAL_CHAT)
  then match outcome (retrieval_service self query) with
       | Ok docs => docs
       | Raise _ => []
       end
  else [].

(** The template generation runs with for a suggested template id. *)
Definition selected_template (template_id : string) : ChatPromptTemplate :=
  default default_v1 (prompt_templates !! template_id).

Definition is_source_call (e : effect) : bool :=
  match e with
  | ESource _ _ => true
  | _ => false
  end.

Definition with_retrieval (self : service)
    (retrieval : string → Co (list Document)) : service :=
  {| intent_service := intent_service self;
     retrieval_service := retrieval;
     llm_ainvoke := llm_ainvoke self;
     llm_astream := llm_astream self |}.

(** ** Orderings of a stream of events *)

Definition generating_event : sse :=
  mkSse "status" (dict [("stage", JStr "generating")]).







End ServiceClaims.

(** The shape of what [chat] and [chat_stream] leave behind, in terms of
    what the collaborators answered. *)
Module StreamShape.
Import IntentService RAGService ServiceClaims.
Section with_runtime.
Context `{Runtime}.

(** What [chat_generation] leaves behind before the model answers. *)
Definition generation_prefix (streaming : bool) (query sid : string)
    (ir : IntentResult) (docs : list Document) : list effect :=
  [ELog sid "PROMPT_SELECTED"
     (dict [("template_id", JStr (suggested_prompt_template ir))])]
  ++ trace (log_llm_input (T:=effect) sid (suggested_prompt_template ir)
              (_format_docs docs) query)
  ++ [EGenerate streaming (selected_template (suggested_prompt_template ir))
        (_format_docs docs) query].


Definition token_event (chunk : string) : sse :=
  mkSse "token" (dict [("content", JStr chunk)]).

Definition error_event (e : exn) : sse :=
  mkSse "error" (dict [("message", JStr ("Retrieval failed: " +:+ exn_str e))]).

Definition retrieval_event (docs : list Document) : sse :=
  mkSse "retrieval"
    (dict [("found", JInt (Z.of_nat (length docs)));
           ("sources", sources_of docs)]).

Definition done_event (sid : string) (docs : list Document) : sse :=
  mkSse "done"
    (dict [("session_id", JStr sid);
           ("citations", JList (Citation_json <$> (citation_of <$> docs)))]).

Definition clarification_event : sse :=
  mkSse "clarification"
    (dict [("message", JStr "Clarification needed"); ("suggestions", JList [])]).

(** The [error] event of a failed retrieval, if there is one. *)
Definition retrieval_error_events (self : service) (query : string)
    (ir : IntentResult) : list sse :=
  if bool_decide (intent ir ≠ CASUAL_CHAT)
  then match outcome (retrieval_service self query) with
       | Ok _ => []
       | Raise e => [error_event e]
       end
  else [].

(** What the generation chain streams for this request. *)
Definition streamed (self : service) (query : string) (ir : IntentResult)
  : list string * option exn :=
  llm_astream self (selected_template (suggested_prompt_template ir))
    (_format_docs (retrieved self query ir)) query.

(** The events of [chat_stream], in order: those before generation
    starts, the [status] event that announces it, and those after. *)
Definition before_generation (self : service) (query : string)
    (ir : IntentResult) : list sse :=
  mkSse "status" (dict [("stage", JStr "intent_classify")])
  :: (if requires_clarification ir then [clarification_event] else [])
  ++ mkSse "status" (dict [("stage", JStr "retrieving")])
  :: retrieval_error_events self query ir
  ++ [retrieval_event (retrieved self query ir)].

Definition generation_events (self : service) (query sid : string)
    (ir : IntentResult) : list sse :=
  (token_event <$> (streamed self query ir).1)
  ++ match (streamed self query ir).2 with
     | None => [done_event sid (retrieved self query ir)]
     | Some _ => []
     end.

Definition stream_events (self : service) (query sid : string)
    (ir : IntentResult) : list sse :=
  before_generation self query ir
  ++ generating_event :: generation_events self query sid ir.

End with_runtime.
End StreamShape.

(** The shape of what [execute_stream] yields. *)
Module PipelineShape.
Import RAGPipeline ServiceClaims StreamShape.





End PipelineShape.

(** Closed examples: services and pipelines to run the claims on. *)
Module Samples.
Import IntentService RAGService RAGPipeline Claims.

Definition explain_fields : gmap string json :=
  list_to_map
    [("intent", JStr "code_explain");
     ("confidence", JFloat 0.95%float);
     ("entities", JDict ∅);
     ("suggested_prompt_template", JStr "code_explain_v1");
     ("requires_clarification", JBool false)].

Definition explain_result : IntentResult :=
  {| intent := CODE_EXPLAIN; confidence := 0.95%float; entities := ∅;
     suggested_prompt_template := "code_explain_v1";
     requires_clarification := false |}.

Definition greeting_fields : gmap string json :=
  list_to_map
    [("intent", JStr "casual_chat");
     ("confidence", JFloat 0.99%float);
     ("entities", JDict ∅);
     ("suggested_prompt_template", JStr "casual_chat_v1");
     ("requires_clarification", JBool false)].

Definition greeting_result : IntentResult :=
  {| intent := CASUAL_CHAT; confidence := 0.99%float; entities := ∅;
     suggested_prompt_template := "casual_chat_v1";
     requires_clarification := false |}.

Definition bug_fix_result : IntentResult :=
  {| intent := BUG_FIX; confidence := 0.95%float; entities := ∅;
     suggested_prompt_template := "bug_fix_v1";
     requires_clarification := false |}.

Definition vague_fields : gmap string json :=
  list_to_map
    [("intent", JStr "general_qa");
     ("confidence", JFloat 0.4%float);
     ("entities", JDict ∅);
     ("suggested_prompt_template", JStr "general_qa_v1");
     ("requires_clarification", JBool true)].

Definition vague_result : IntentResult :=
  {| intent := GENERAL_QA; confidence := 0.4%float; entities := ∅;
     suggested_prompt_template := "general_qa_v1";
     requires_clarification := true |}.

Definition retrieval_down : string → Co (list Document) := fun query =>
  ([ESource 0 query],
   Raise (Exn "ConnectionError" "vector store unreachable")).

Definition answer_chunks : list string := ["It "; "parses "; "the input."].

(** A service over the in-repository retrieval service. *)
Definition sample_service (fields : gmap string json) : RAGService.service :=
  RAGService.__init__ (fun _ => Ok (JDict fields))
    (fun _ _ _ => Ok "It parses the input.")
    (fun _ _ _ => (answer_chunks, None)).



(** The same with a retrieval service that raises. *)
Definition degraded_service (fields : gmap string json) : RAGService.service :=
  ServiceClaims.with_retrieval (sample_service fields) retrieval_down.

Definition sample_kwargs : kwargs :=
  {| kw_session_id := Some "s-1"; kw_user_id := None; kw_intent := None;
     kw_retrieval_results := None; kw_context := None; kw_prompt := None;
     kw_response := None; kw_metadata := None |}.

Definition set_intent (ir : IntentResult) : Node := fun ctx =>
  Ok {| ctx_query := ctx_query ctx;
        ctx_session_id := ctx_session_id ctx;
        ctx_user_id := ctx_user_id ctx;
        ctx_intent := Some ir;
        ctx_retrieval_results := ctx_retrieval_results ctx;
        ctx_context := ctx_context ctx;
        ctx_prompt := ctx_prompt ctx;
        ctx_response := ctx_response ctx;
        ctx_metadata := ctx_metadata ctx |}.

Definition set_results (rs : list RetrievedDocument) : Node := fun ctx =>
  Ok {| ctx_query := ctx_query ctx;
        ctx_session_id := ctx_session_id ctx;
        ctx_user_id := ctx_user_id ctx;
        ctx_intent := ctx_intent ctx;
        ctx_retrieval_results := Some rs;
        ctx_context := ctx_context ctx;
        ctx_prompt := ctx_prompt ctx;
        ctx_response := ctx_response ctx;
        ctx_metadata := ctx_metadata ctx |}.

Definition two_results : list RetrievedDocument :=
  [ {| content := "def parse(x): return tokens(x)"; score := 0.9%float;
       doc_metadata := {[ "source" := JStr "parser.py" ]} |};
    {| content := "class Lexer: pass"; score := 0.7%float;
       doc_metadata := {[ "source" := JStr "lexer.py" ]} |} ].

Definition broken_node : Node := fun _ =>
  Raise (Exn "RuntimeError" "this stage must not run").

(** A pipeline whose intent node answers [ir], with every later stage
    registered. *)
Definition sample_pipeline (ir : IntentResult) : pipeline :=
  register_node
    (register_node
       (register_node (RAGPipeline.__init__ ∅) INTENT_CLASSIFY (set_intent ir))
       RETRIEVE (set_results two_results))
    GENERATE (fun ctx => Ok ctx).

(** The same, but every stage after intent classification raises when it
    is run. *)
Definition guarded_pipeline (ir : IntentResult) : pipeline :=
  foldl (fun p stage => register_node p stage broken_node)
    (register_node (RAGPipeline.__init__ ∅) INTENT_CLASSIFY (set_intent ir))
    [RETRIEVE; RERANK; CONTEXT_BUILD; PROMPT_ASSEMBLE; GENERATE; POST_PROCESS].

End Samples.

(** Spec-side notions for citations and templates. *)
Module CitationClaims.
Import IntentService RAGService RAGPipeline.

(** C9 as the specification words it: the preview carried by a citation
    is at most 100 characters long. *)
Definition preview_within_100 : Prop :=
  ∀ d : Document, String.length (cite_content (citation_of d)) ≤ 100.

(** A source line of 122 characters. *)
Definition long_line : string :=
  "def normalize_whitespace(text): return ' '.join(part for part in text.replace('\t', ' ').split(' ') if part)  # noqa: E501".

Definition long_document : Document :=
  {| page_content := long_line;
     metadata := list_to_map [("source", JStr "text_utils.py");
                              ("score", JFloat 0.9%float)] |}.

(** The retrieved documents a context holds, none when the field is unset. *)
Definition context_documents (ctx : PipelineContext) : list RetrievedDocument :=
  default [] (ctx_retrieval_results ctx).

End CitationClaims.

(** Spec-side notions for the short circuit on clarification. *)
Module ClarificationClaims.
Import IntentService RAGService RAGPipeline ServiceClaims.

(** The stage a pipeline effect belongs to. *)
Definition effect_stage (e : effect) : option PipelineStage :=
  match e with
  | ENode stage | EBefore _ stage | EAfter _ stage => Some stage
  | _ => None
  end.

Definition is_generate_call (e : effect) : bool :=
  match e with
  | EGenerate _ _ _ _ => true
  | _ => false
  end.

(** A call of a model: the intent chain or the generation chain. *)
Definition is_model_call (e : effect) : bool :=
  match e with
  | EIntentChain _ | EGenerate _ _ _ _ => true
  | _ => false
  end.

Definition later_stages : list PipelineStage :=
  [RETRIEVE; RERANK; CONTEXT_BUILD; PROMPT_ASSEMBLE; GENERATE; POST_PROCESS].

(** C3 as the specification words it, read on the complete execution of
    the service: a request that needs clarification reaches neither
    retrieval nor generation. *)
Definition chat_short_circuits_on_clarification : Prop :=
  ∀ (R : Runtime) (self : RAGService.service) (query sid : string) ir,
    outcome (classify (intent_service self) query) = Ok ir →
    requires_clarification ir = true →
    Forall (λ e, is_source_call e = false ∧ is_generate_call e = false)
      (trace (chat self query sid)).

End ClarificationClaims.


(** * backend/services/retrieval_service.py, the synchronous path *)
Module SyncRetrieval.
Import RetrievalService.

(** The loop of [EnsembleRetriever._get_relevant_documents]: each
    retriever is invoked in turn inside [try ... except Exception: pass];
    [i] is the position of the head of [rs] in [self.retrievers].  A
    retriever is the same outcome function as on the asynchronous path:
    [BaseRetriever.ainvoke] of a retriever that only defines the
    synchronous method, as both mock retrievers do, runs that method. *)
Fixpoint invoke_all (rs : list BaseRetriever) (i : nat) (query : string)
    (all_docs : list Document) : Co (list Document) :=
  match rs with
  | [] => ret all_docs
  | retriever :: rest =>
      all_docs ← try_except
                   (tell (ESource i query);;
                    docs ← lift (retriever query);
                    ret (all_docs ++ docs))
                   (fun _ => ret all_docs);
      invoke_all rest (S i) query all_docs
  end.

Definition _get_relevant_documents (self : EnsembleRetriever) (query : string)
  : Co (list Document) :=
  all_docs ← invoke_all (retrievers self) 0 query [];
  ret (_rerank all_docs).

End SyncRetrieval.

(** * backend/engine/pipeline.py, the calls a stage is made of *)
Module StageCalls.
Import RAGPipeline.

(** The [before_stage] hooks a stage calls when nothing fails: one per
    middleware that has the hook, in the order of [self.middlewares];
    [i] is the position of the head of [ms]. *)
Fixpoint before_calls (ms : list Middleware) (i : nat) (stage : PipelineStage)
  : list effect :=
  match ms with
  | [] => []
  | m :: rest =>
      match before_stage m with
       | Some _ => [EBefore i stage]
       | None => []
       end
      ++ before_calls rest (S i) stage
  end.

Fixpoint after_calls (ms : list Middleware) (i : nat) (stage : PipelineStage)
  : list effect :=
  match ms with
  | [] => []
  | m :: rest =>
      match after_stage m with
       | Some _ => [EAfter i stage]
       | None => []
       end
      ++ after_calls rest (S i) stage
  end.

(** All the calls of one stage: nothing when no node is registered for
    it, else the before hooks, the node, the after hooks. *)
Definition stage_calls (self : pipeline) (stage : PipelineStage) : list effect :=
  match nodes self !! stage with
  | None => []
  | Some _ =>
      before_calls (middlewares self) 0 stage
      ++ ENode stage :: after_calls (middlewares self) 0 stage
  end.

(** The calls of a list of stages, one stage after the other. *)
Definition schedule (self : pipeline) (stages : list PipelineStage)
  : list effect :=
  mjoin (stage_calls self <$> stages).

Definition all_stages : list PipelineStage :=
  [QUERY_PARSE; INTENT_CLASSIFY; RETRIEVE; RERANK; CONTEXT_BUILD;
   PROMPT_ASSEMBLE; GENERATE; POST_PROCESS].

End StageCalls.

(** * backend/models/schemas/chat.py *)
Module Schemas.
Import IntentService RAGService.

Record ChatRequest : Type := mkChatRequest {
  req_query : string;
  req_session_id : option string;
  req_context : option (gmap string json);
  req_stream : bool
}.

Record IntentInfo : Type := mkIntentInfo {
  info_intent : string;
  info_confidence : float;
  info_entities : gmap string json;
  info_requires_clarification : bool
}.

Record Citation : Type := mkCitation {
  schema_source : string;
  schema_content : string;
  schema_relevance : float
}.

Record ChatResponse : Type := mkChatResponse {
  resp_session_id : string;
  resp_response : string;
  resp_intent : option IntentInfo;
  resp_citations : list Citation;
  resp_metadata : gmap string json
}.

Section with_runtime.
Context `{Runtime}.

(** The model [Citation] built from one element of the citations: [source]
    must validate as a [str] and [relevance] as a [float]. *)
Definition Citation_validate (c : RAGService.Citation) : option Citation :=
  s ← validate_str (cite_source c);
  r ← validate_float (cite_relevance c);
  Some {| schema_source := s;
          schema_content := cite_content c;
          schema_relevance := r |}.

(** The field [intent: Optional[IntentInfo]]: [None] is accepted, a
    dictionary is validated field by field, keys that are not declared
    are ignored. *)
Definition IntentInfo_validate (v : json) : option (option IntentInfo) :=
  match v with
  | JNull => Some None
  | JDict m =>
      i ← m !! "intent" ≫= validate_str;
      c ← m !! "confidence" ≫= validate_float;
      e ← m !! "entities" ≫= validate_dict;
      r ← m !! "requires_clarification" ≫= validate_bool;
      Some (Some {| info_intent := i;
                    info_confidence := c;
                    info_entities := e;
                    info_requires_clarification := r |})
  | _ => None
  end.

(** The model [ChatResponse] built from the dictionary returned by
    [RAGService.chat]. *)
Definition ChatResponse_init (res : ChatResult) : result ChatResponse :=
  match IntentInfo_validate (res_intent res),
        mapM Citation_validate (res_citations res) with
  | Some info, Some cits =>
      Ok {| resp_session_id := res_session_id res;
            resp_response := res_response res;
            resp_intent := info;
            resp_citations := cits;
            resp_metadata := res_metadata res |}
  | _, _ =>
      Raise (Exn "ValidationError"
               (validation_error_str
                  [("intent", res_intent res);
                   ("citations", JList (Citation_json <$> res_citations res))]))
  end.

End with_runtime.
End Schemas.

(** * backend/api/chat.py *)
Module ChatAPI.
Import IntentService RAGService Schemas.

(** What a handler hands to the framework: the response model, or the
    [HTTPException] it raises. *)
Inductive reply : Type :=
| Responded (r : ChatResponse)
| HTTPException (status_code : Z) (detail : string).

(** [request.session_id or str(uuid.uuid4())]; [uuid4] is the identifier
    the call would draw. *)
Definition session_id_of (request : ChatRequest) (uuid4 : string) : string :=
  match req_session_id request with
  | Some s => if bool_decide (s = "") then uuid4 else s
  | None => uuid4
  end.

Section with_runtime.
Context `{Runtime}.

(** [POST /] *)
Definition chat (service : RAGService.service) (request : ChatRequest)
    (uuid4 : string) : Co reply :=
  let session_id := session_id_of request uuid4 in
  (if req_stream request then ret tt else ret tt);;
  try_except
    (res ← RAGService.chat service (req_query request) session_id;
     r ← lift (ChatResponse_init res);
     ret (Responded r))
    (fun e => ret (HTTPException 500 (exn_str e))).

(** [POST /stream]: the generator handed to [StreamingResponse] and the
    media type. *)
Definition chat_stream (service : RAGService.service) (request : ChatRequest)
    (uuid4 : string) : Gen unit * string :=
  let session_id := session_id_of request uuid4 in
  (RAGService.chat_stream service (req_query request) session_id,
   "text/event-stream").

End with_runtime.
End ChatAPI.

(** * backend/infrastructure/bailian_llm.py *)
Module BailianLLM.

(** [needle in s] on strings. *)
Fixpoint contains (needle s : string) : bool :=
  String.prefix needle s
  || match s with
     | EmptyString => false
     | String _ rest => contains needle rest
     end.

Definition invalid_response_message : string :=
  "Aliyun Bailian API returned an invalid response. This usually means authentication failed or the model is incorrect. Please check your API Key, Model Name, and permissions in Bailian Console.".

(** [_handle_bailian_error]; the trace holds the lines given to
    [logger.error]. *)
Definition _handle_bailian_error (e : exn) : W string unit :=
  let error_str := exn_str e in
  if contains "No generation chunks were returned" error_str
     || contains "null value for 'choices'" error_str
  then (["Bailian API Error detected: " +:+ error_str], Ok tt);;
       raise (Exn "ValueError" invalid_response_message)
  else ret tt.

(** [_generate] and [_agenerate]: [super_result] is the outcome of the
    method of [ChatOpenAI]. *)
Definition _agenerate {A} (super_result : result A) : W string A :=
  try_except (lift super_result)
    (fun e => _handle_bailian_error e;; raise e).

(** [_stream] and [_astream]: the chunks of the parent's iterator are
    yielded as they come; the exception that ends it, if any, goes
    through the handler. *)
Definition _astream {A} (super_stream : list A * option exn)
  : list string * (list A * option exn) :=
  match super_stream.2 with
  | None => ([], (super_stream.1, None))
  | Some e =>
      let m : W string unit := _handle_bailian_error e;; raise e in
      (m.1, (super_stream.1,
             match m.2 with
             | Raise e' => Some e'
             | Ok _ => None
             end))
  end.

End BailianLLM.

(** * backend/services/prompt_service.py *)
Module PromptService.
Section with_runtime.
Context `{Runtime}.

(** [_format_history]: a message is a dictionary with the keys [role] and
    [content]. *)
Definition _format_history (history : list (gmap string json)) : result string :=
  formatted ← mapM (fun msg =>
                      role_value ← getitem msg "role";
                      let role := if eq_str role_value "user"
                                  then "User" else "Assistant" in
                      content_value ← getitem msg "content";
                      Ok (role +:+ ": " +:+ py_str content_value))
                 (drop (length history - 5) history);
  Ok (join LF formatted).

End with_runtime.

(** [optimize_for_token_limit]: [prompt] is the dictionary in insertion
    order, [encode] is [tokenizer.encode]. *)
Definition optimize_for_token_limit (prompt : list (string * string))
    (max_tokens : Z) (encode : string → result (list Z))
  : result (list (string * string)) :=
  counts ← mapM (fun p => tokens ← encode p.2; Ok (length tokens)) prompt;
  let total_tokens := sum_list counts in
  if bool_decide (Z.of_nat total_tokens ≤ max_tokens)%Z
  then Ok prompt
  else
    (* Need compression: nothing is implemented *)
    Ok prompt.

End PromptService.

(** The reply of [POST /] in terms of what the collaborators answer. *)
Module ReplyShape.
Import IntentService RAGService ServiceClaims Schemas ChatAPI.
Section with_runtime.
Context `{Runtime}.

Definition reply_of (service : RAGService.service) (request : ChatRequest)
    (uuid4 : string) (ir : IntentResult) : reply :=
  match llm_ainvoke service (selected_template (suggested_prompt_template ir))
          (_format_docs (retrieved service (req_query request) ir))
          (req_query request) with
  | Raise e => HTTPException 500 (exn_str e)
  | Ok text =>
      match mapM Citation_validate
              (citation_of <$> retrieved service (req_query request) ir) with
      | Some cits =>
          Responded
            {| resp_session_id := session_id_of request uuid4;
               resp_response := text;
               resp_intent :=
                 Some {| info_intent := IntentType_value (intent ir);
                         info_confidence := confidence ir;
                         info_entities := entities ir;
                         info_requires_clarification :=
                           requires_clarification ir |};
               resp_citations := cits;
               resp_metadata :=
                 {[ "template_used" := JStr (suggested_prompt_template ir) ]} |}
      | None =>
          HTTPException 500
            (validation_error_str
               [("intent", IntentResult_dict ir);
                ("citations",
                 JList (Citation_json <$>
                          (citation_of <$>
                             retrieved service (req_query request) ir)))])
      end
  end.

End with_runtime.
End ReplyShape.

(** Event names without a line feed, as all the names the services use. *)
Module Framing.

Fixpoint no_newline (s : string) : bool :=
  match s with
  | EmptyString => true
  | String c rest => negb (Ascii.eqb c "010"%char) && no_newline rest
  end.

Definition event_kinds : list string :=
  ["status"; "clarification"; "retrieval"; "error"; "token"; "done"].

End Framing.


(** * Facts about the monad *)

Section monad_facts.
Context {T A B : Type}.

Lemma bind_ok (t : list T) (a : A) (k : A → W T B) :
  bind (t, Ok a) k = (t ++ (k a).1, (k a).2).
Proof. unfold bind. by destruct (k a). Qed.

Lemma bind_raise (t : list T) (e : exn) (k : A → W T B) :
  bind (t, Raise e) k = (t, Raise e).
Proof. reflexivity. Qed.

Lemma trace_bind_prefix (m : W T A) (k : A → W T B) :
  trace m `prefix_of` trace (m ≫= k).
Proof.
  destruct m as [t [a|e]]; unfold mbind, W_bind, trace.
  - rewrite bind_ok. by apply prefix_app_r.
  - done.
Qed.

End monad_facts.

(** * Intent classification *)

Section intent_facts.
Import IntentService.
Context `{Runtime}.

Lemma classify_try_eq self query :
  classify_try self query = ([EIntentChain query], chain self query ≫= post_process).
Proof.
  unfold classify_try, mbind, W_bind, tell, lift, inject, effect_trace.
  destruct (chain self query) as [parsed|e]; cbn; [|done].
  by destruct (post_process parsed).
Qed.

Lemma classify_eq self query :
  classify self query =
    match chain self query ≫= post_process with
    | Ok r => ([EIntentChain query], Ok r)
    | Raise e =>
        ([EIntentChain query;
          EPrint ("Intent classification error: " +:+ exn_str e)],
         Ok fallback_result)
    end.
Proof.
  unfold classify. rewrite classify_try_eq.
  by destruct (chain self query ≫= post_process).
Qed.

Lemma classify_total self query :
  ∃ r, outcome (classify self query) = Ok r.
Proof.
  rewrite classify_eq. destruct (chain self query ≫= post_process); eauto.
Qed.

Lemma template_map_allowed s t :
  template_map !! s = Some t → t ∈ allowed_template_ids.
Proof.
  revert s t. change (map_Forall (λ _ t, t ∈ allowed_template_ids) template_map).
  apply (bool_decide_unpack _). vm_compute. exact I.
Qed.

Lemma _match_template_allowed label t :
  _match_template label = Ok t → t ∈ allowed_template_ids.
Proof.
  assert (Hd : "default_v1" ∈ allowed_template_ids)
    by (apply (bool_decide_unpack _); vm_compute; exact I).
  unfold _match_template.
  destruct label as [| | | |s| |]; intros Heq; simplify_eq; try done.
  destruct (template_map !! s) eqn:E; [by eapply template_map_allowed|done].
Qed.

End intent_facts.

Section intent_facts2.
Import IntentService Claims.
Context `{Runtime}.

Lemma result_bind_ok {A B} (r : result A) (k : A → result B) b :
  r ≫= k = Ok b → ∃ a, r = Ok a ∧ k a = Ok b.
Proof. destruct r as [a|e]; cbn; [eauto | done]. Qed.

Lemma intent_enum_inv label i :
  (in_dict label _value2member_map_ ≫= λ known : bool,
     if known then IntentType_call label else Ok GENERAL_QA) = Ok i →
  i = intent_of_label label.
Proof.
  unfold in_dict, IntentType_call, intent_of_label.
  destruct label as [| | | |s| |]; cbn [mbind result_bind]; try congruence.
  destruct (_value2member_map_ !! s) as [j|] eqn:E.
  - rewrite bool_decide_eq_true_2 by eauto. cbn. congruence.
  - rewrite bool_decide_eq_false_2 by (intros [? ?]; done). cbn. congruence.
Qed.

Lemma placeholder_not_allowed : "template_id" ∉ allowed_template_ids.
Proof. apply (bool_decide_unpack _). vm_compute. exact I. Qed.

Lemma empty_not_allowed : "" ∉ allowed_template_ids.
Proof. apply (bool_decide_unpack _). vm_compute. exact I. Qed.

Lemma template_choice_inv tid label tpl :
  ((if negb (truthy tid) then Ok true
    else if eq_str tid "template_id" then Ok true
    else not_in_set tid allowed_template_ids)
   ≫= λ replace : bool,
     if replace then _match_template label ≫= λ t : string, Ok (JStr t)
     else Ok tid) = Ok tpl →
  ((∀ s, tid = JStr s → s ∉ allowed_template_ids) →
     ∃ t, _match_template label = Ok t ∧ tpl = JStr t)
  ∧ (∀ s, tid = JStr s → s ∈ allowed_template_ids → tpl = JStr s).
Proof.
  intros Hb. apply result_bind_ok in Hb as (replace & Hc & Hk).
  destruct replace.
  - apply result_bind_ok in Hk as (t & Ht & [= <-]). split; [by eauto|].
    intros s -> Hs. exfalso. revert Hc. cbn.
    destruct (bool_decide (s = "")) eqn:E1; cbn.
    { apply bool_decide_eq_true_1 in E1 as ->. by destruct empty_not_allowed. }
    destruct (bool_decide (s = "template_id")) eqn:E2; cbn.
    { apply bool_decide_eq_true_1 in E2 as ->. by destruct placeholder_not_allowed. }
    rewrite bool_decide_eq_true_2 by done. done.
  - injection Hk as <-. split.
    + intros Hinv. exfalso. revert Hc.
      destruct (negb (truthy tid)); [done|].
      destruct (eq_str tid "template_id"); [done|].
      destruct tid as [| | | |s| |]; cbn; try done.
      rewrite bool_decide_eq_false_2 by eauto. done.
    + by intros s ->.
Qed.

Lemma IntentResult_init_inv i conf ents tpl clar r :
  IntentResult_init i conf ents tpl clar = Ok r →
  intent r = i
  ∧ validate_float conf = Some (confidence r)
  ∧ validate_dict ents = Some (entities r)
  ∧ validate_str tpl = Some (suggested_prompt_template r)
  ∧ validate_bool clar = Some (requires_clarification r).
Proof.
  unfold IntentResult_init.
  destruct (validate_float conf), (validate_dict ents), (validate_str tpl),
    (validate_bool clar); intros [= <-]; done.
Qed.

Lemma post_process_inv m r :
  post_process (JDict m) = Ok r →
  let label := default (JStr "general_qa") (m !! "intent") in
  let tid := default JNull (m !! "suggested_prompt_template") in
  validate_float (default (JFloat 0.0%float) (m !! "confidence")) = Some (confidence r)
  ∧ validate_dict (default (JDict ∅) (m !! "entities")) = Some (entities r)
  ∧ validate_bool (default (JBool false) (m !! "requires_clarification"))
      = Some (requires_clarification r)
  ∧ intent r = intent_of_label label
  ∧ ((∀ s, tid = JStr s → s ∉ allowed_template_ids) →
     _match_template label = Ok (suggested_prompt_template r))
  ∧ (∀ s, tid = JStr s → s ∈ allowed_template_ids →
     suggested_prompt_template r = s).
Proof.
  intros Hpp label tid. revert Hpp.
  unfold post_process, dict_get. cbn [mbind result_bind].
  fold label. fold tid. intros Hpp.
  destruct (in_dict label _value2member_map_ ≫= λ known : bool,
     if known then IntentType_call label else Ok GENERAL_QA) as [i|e] eqn:Hi.
  2: { destruct (in_dict label _value2member_map_) as [k|]; cbn in *; [|done].
       by rewrite Hi in Hpp. }
  assert (Hpp' :
    ((if negb (truthy tid) then Ok true
      else if eq_str tid "template_id" then Ok true
      else not_in_set tid allowed_template_ids)
     ≫= λ replace : bool,
       (if replace then _match_template label ≫= λ t : string, Ok (JStr t)
        else Ok tid))
    ≫= (λ template_id,
       IntentResult_init i (default (JFloat 0.0%float) (m !! "confidence"))
         (default (JDict ∅) (m !! "entities")) template_id
         (default (JBool false) (m !! "requires_clarification"))) = Ok r).
  { destruct (in_dict label _value2member_map_) as [k|]; cbn in *; [|done].
    rewrite Hi in Hpp. cbn in Hpp.
    destruct (if negb (truthy tid) then Ok true
      else if eq_str tid "template_id" then Ok true
      else not_in_set tid allowed_template_ids) as [rep|]; cbn in *; [|done].
    destruct (if rep then _ else _); cbn in *; done. }
  clear Hpp. apply intent_enum_inv in Hi as ->.
  apply result_bind_ok in Hpp' as (tpl & Hc & Hinit).
  apply IntentResult_init_inv in Hinit as (Hint & Hf & Hd & Hs & Hb).
  apply template_choice_inv in Hc as [Hrec Hkeep].
  repeat split; try done.
  - intros Hinv. destruct (Hrec Hinv) as (t & Ht & ->).
    rewrite validate_str_str in Hs. congruence.
  - intros s Hs1 Hs2. rewrite (Hkeep s Hs1 Hs2), validate_str_str in Hs. congruence.
Qed.
End intent_facts2.

(** * When post-processing goes through *)

Section intent_accepted.
Import IntentService Claims.
Context `{Runtime}.

Lemma in_dict_hashable label :
  hashable label = true →
  ∃ known : bool,
    in_dict label _value2member_map_ = Ok known
    ∧ (if known then IntentType_call label else Ok GENERAL_QA)
      = Ok (intent_of_label label).
Proof.
  destruct label as [| | | |s| |]; intros Hh; try discriminate Hh;
    try (exists false; split; reflexivity).
  unfold in_dict, IntentType_call, intent_of_label.
  destruct (_value2member_map_ !! s) as [i|] eqn:E.
  - exists true. split; [|reflexivity]. by rewrite bool_decide_eq_true_2 by eauto.
  - exists false. split; [|reflexivity].
    by rewrite bool_decide_eq_false_2 by (intros [? ?]; done).
Qed.

Lemma _match_template_hashable label :
  hashable label = true → _match_template label = Ok (table_lookup label).
Proof. destruct label; intros Hh; try discriminate Hh; reflexivity. Qed.

Lemma template_choice_hashable label tid :
  hashable label = true →
  truthy tid = false ∨ hashable tid = true →
  ∃ (replace : bool) (t : string),
    (if negb (truthy tid) then Ok true
     else if eq_str tid "template_id" then Ok true
     else not_in_set tid allowed_template_ids) = Ok replace
    ∧ (if replace then _match_template label ≫= λ t : string, Ok (JStr t)
       else Ok tid) = Ok (JStr t)
    ∧ (invalid_template_id tid → t = table_lookup label)
    ∧ (∀ s, tid = JStr s → s ∈ allowed_template_ids → t = s).
Proof.
  intros Hl Ht. pose proof (_match_template_hashable label Hl) as Hm.
  assert (Hrep : (_match_template label ≫= λ t : string, Ok (JStr t))
                 = Ok (JStr (table_lookup label))) by (by rewrite Hm).
  destruct (truthy tid) eqn:Etr; cbn [negb].
  2: { exists true, (table_lookup label). split; [reflexivity|].
       split; [exact Hrep|]. split; [done|].
       intros s -> Hs. exfalso. cbn [truthy] in Etr.
       apply negb_false_iff, bool_decide_eq_true_1 in Etr as ->.
       by destruct empty_not_allowed. }
  destruct Ht as [Ht|Ht]; [discriminate Ht|].
  destruct (eq_str tid "template_id") eqn:Eeq.
  { exists true, (table_lookup label). split; [reflexivity|].
    split; [exact Hrep|]. split; [done|].
    intros s -> Hs. exfalso. cbn [eq_str] in Eeq.
    apply bool_decide_eq_true_1 in Eeq as ->.
    by destruct placeholder_not_allowed. }
  destruct tid as [|bb|n|f|s|l|d]; try discriminate Ht.
  1-4: (exists true, (table_lookup label); split; [reflexivity|];
        split; [exact Hrep|]; split; [done|]; intros ? [=]).
  cbn [not_in_set]. destruct (decide (s ∈ allowed_template_ids)) as [Hs|Hs].
  - exists false, s. rewrite bool_decide_eq_true_2 by done.
    split; [reflexivity|]. split; [reflexivity|]. split.
    + intros Hinv. by destruct (Hinv s eq_refl).
    + by intros ? [= <-].
  - exists true, (table_lookup label). rewrite bool_decide_eq_false_2 by done.
    split; [reflexivity|]. split; [exact Hrep|]. split; [done|].
    intros ? [= <-] Hin. done.
Qed.

Lemma post_process_accepted m c e b :
  hashable (reported_label m) = true →
  truthy (reported_template m) = false ∨ hashable (reported_template m) = true →
  validate_float (reported_confidence m) = Some c →
  validate_dict (reported_entities m) = Some e →
  validate_bool (reported_flag m) = Some b →
  ∃ t,
    post_process (JDict m) =
      Ok {| intent := intent_of_label (reported_label m);
            confidence := c;
            entities := e;
            suggested_prompt_template := t;
            requires_clarification := b |}
    ∧ (invalid_template_id (reported_template m) →
       t = table_lookup (reported_label m))
    ∧ (∀ s, reported_template m = JStr s → s ∈ allowed_template_ids → t = s).
Proof.
  unfold reported_label, reported_template, reported_confidence,
    reported_entities, reported_flag.
  intros Hl Ht Hc He Hb.
  destruct (in_dict_hashable _ Hl) as (known & Hk & Hi).
  destruct (template_choice_hashable _ _ Hl Ht)
    as (replace & t & Hr & Hs & Hinv & Hkeep).
  exists t. split; [|by split].
  unfold post_process, dict_get. cbn [mbind result_bind].
  rewrite Hk. cbn [mbind result_bind]. rewrite Hi. cbn [mbind result_bind].
  rewrite Hr. cbn [mbind result_bind]. rewrite Hs. cbn [mbind result_bind].
  unfold IntentResult_init. by rewrite Hc, He, Hb, validate_str_str.
Qed.

Lemma post_process_ok_hashable m r :
  post_process (JDict m) = Ok r →
  hashable (reported_label m) = true
  ∧ (truthy (reported_template m) = false
     ∨ hashable (reported_template m) = true).
Proof.
  unfold reported_label, reported_template, post_process, dict_get.
  cbn [mbind result_bind]. intros Hp.
  destruct (default (JStr "general_qa") (m !! "intent")) as [| | | |s|l|d] eqn:El;
    try (by cbn [in_dict mbind result_bind] in Hp).
  all: split; [reflexivity|].
  all: destruct (in_dict _ _) as [known|]; cbn [mbind result_bind] in Hp;
    [|discriminate Hp].
  all: destruct (if known then _ else _) as [intent_enum|];
    cbn [mbind result_bind] in Hp; [|discriminate Hp].
  all: destruct (truthy (default JNull (m !! "suggested_prompt_template")))
    eqn:Etr; [right|by left].
  all: destruct (default JNull (m !! "suggested_prompt_template"))
    as [| | | |s'|l'|d']; try reflexivity.
  all: exfalso; cbn [negb eq_str not_in_set mbind result_bind] in Hp;
    discriminate Hp.
Qed.

Lemma post_process_rejected m :
  hashable (reported_label m) = false
  ∨ (truthy (reported_template m) = true
     ∧ hashable (reported_template m) = false)
  ∨ validate_float (reported_confidence m) = None
  ∨ validate_dict (reported_entities m) = None
  ∨ validate_bool (reported_flag m) = None →
  ∃ err, post_process (JDict m) = Raise err.
Proof.
  intros Hbad. destruct (post_process (JDict m)) as [r|err] eqn:Hp; [|by eauto].
  exfalso. destruct (post_process_ok_hashable _ _ Hp) as [Hl Ht].
  apply post_process_inv in Hp as (Hc & He & Hb & _).
  unfold reported_confidence, reported_entities, reported_flag in Hbad.
  destruct Hbad as [?|[[? ?]|[?|[?|?]]]]; try congruence.
  destruct Ht; congruence.
Qed.

Lemma value2member_inv s i :
  _value2member_map_ !! s = Some i → s = IntentType_value i.
Proof.
  revert s i.
  change (map_Forall (λ s i, s = IntentType_value i) _value2member_map_).
  apply (bool_decide_unpack _). vm_compute. exact I.
Qed.

Lemma template_map_labels s t :
  template_map !! s = Some t → is_Some (_value2member_map_ !! s).
Proof.
  revert s t.
  change (map_Forall (λ s _, is_Some (_value2member_map_ !! s)) template_map).
  apply (bool_decide_unpack _). vm_compute. exact I.
Qed.

Lemma label_of_category i :
  intent_of_label (JStr (IntentType_value i)) = i
  ∧ table_lookup (JStr (IntentType_value i)) = table_entry i.
Proof.
  split; [|reflexivity]. unfold intent_of_label.
  assert (Hv : _value2member_map_ !! IntentType_value i = Some i)
    by (destruct i; vm_compute; reflexivity).
  by rewrite Hv.
Qed.

Lemma label_outside_categories label :
  (∀ i, label ≠ JStr (IntentType_value i)) →
  intent_of_label label = GENERAL_QA ∧ table_lookup label = "default_v1".
Proof.
  intros Hout. destruct label as [| | | |s| |]; try (split; reflexivity).
  assert (Hnone : _value2member_map_ !! s = None).
  { destruct (_value2member_map_ !! s) as [i|] eqn:E; [|done].
    apply value2member_inv in E as ->. by destruct (Hout i). }
  unfold intent_of_label, table_lookup. rewrite Hnone. split; [reflexivity|].
  destruct (template_map !! s) as [t|] eqn:E; [|reflexivity].
  apply template_map_labels in E as [i Hi]. congruence.
Qed.

End intent_accepted.

Section intent_claims.
Import IntentService Claims Samples.

Lemma value2member_value i : _value2member_map_ !! IntentType_value i = Some i.
Proof. destruct i; vm_compute; reflexivity. Qed.

Lemma classify_post_ok `{Runtime} self query parsed r :
  chain self query = Ok parsed → post_process parsed = Ok r →
  classify self query = ([EIntentChain query], Ok r).
Proof. intros Hc Hp. rewrite classify_eq, Hc. cbn. by rewrite Hp. Qed.

Lemma classify_post_raise `{Runtime} self query parsed e :
  chain self query = Ok parsed → post_process parsed = Raise e →
  classify self query =
    ([EIntentChain query; EPrint ("Intent classification error: " +:+ exn_str e)],
     Ok fallback_result).
Proof. intros Hc Hp. rewrite classify_eq, Hc. cbn. by rewrite Hp. Qed.

(** C1, refuted as worded: a classifier that reports confidence 0.69 and
    no need for clarification is passed through as it is, so the result has
    a confidence below 0.7 and [requires_clarification = false]. *)
Lemma clarification_not_forced_below_threshold :
  ¬ clarification_forced_below_threshold.
Proof.
  intros Hclaim.
  specialize (Hclaim strict_runtime (answering unsure_fields) "what is this?"
    {| intent := GENERAL_QA; confidence := 0.69%float; entities := ∅;
       suggested_prompt_template := "general_qa_v1";
       requires_clarification := false |}).
  cbn in Hclaim. discriminate Hclaim; vm_compute; reflexivity.
Qed.

(** C1, amended: [classify] never derives the flag from the confidence.
    Let the classifier answer an object whose [requires_clarification] is
    the boolean [b] ([False] when the field is absent).  When the object
    passes post-processing, that is, the intent label and the suggested
    template id are hashable and the confidence and the entities validate,
    the result is returned with nothing printed, and it carries
    [requires_clarification = b] and the reported confidence, whatever
    that confidence is.  In every other case the result is the safe
    default, whose flag is [False] and whose confidence is 0.5. *)
Theorem classify_clarification_as_reported `{Runtime} self query m (b : bool) :
  chain self query = Ok (JDict m) →
  reported_flag m = JBool b →
  (∀ c e,
     hashable (reported_label m) = true →
     truthy (reported_template m) = false
     ∨ hashable (reported_template m) = true →
     validate_float (reported_confidence m) = Some c →
     validate_dict (reported_entities m) = Some e →
     ∃ r, classify self query = ([EIntentChain query], Ok r)
          ∧ requires_clarification r = b
          ∧ confidence r = c
          ∧ entities r = e
          ∧ intent r = intent_of_label (reported_label m))
  ∧ (hashable (reported_label m) = false
     ∨ (truthy (reported_template m) = true
        ∧ hashable (reported_template m) = false)
     ∨ validate_float (reported_confidence m) = None
     ∨ validate_dict (reported_entities m) = None →
     ∃ err,
       classify self query =
         ([EIntentChain query;
           EPrint ("Intent classification error: " +:+ exn_str err)],
          Ok fallback_result)
       ∧ requires_clarification fallback_result = false
       ∧ confidence fallback_result = 0.5%float).
Proof.
  intros Hc Hb. split.
  - intros c e Hl Ht Hconf Hents.
    assert (Hflag : validate_bool (reported_flag m) = Some b)
      by (by rewrite Hb, validate_bool_bool).
    destruct (post_process_accepted m c e b Hl Ht Hconf Hents Hflag)
      as (t & Hp & _).
    eexists. split; [exact (classify_post_ok _ _ _ _ Hc Hp)|]. done.
  - intros Hbad.
    destruct (post_process_rejected m) as [err Hp].
    { destruct Hbad as [?|[?|[?|?]]]; eauto 6. }
    exists err. split; [exact (classify_post_raise _ _ _ _ Hc Hp)|]. done.
Qed.

Lemma classify_clarification_as_reported_witness :
  (∃ r, classify (answering vague_fields) "can you help?"
          = ([EIntentChain "can you help?"], Ok r)
        ∧ requires_clarification r = true
        ∧ confidence r = 0.4%float
        ∧ entities r = ∅
        ∧ intent r = intent_of_label (reported_label vague_fields))
  ∧ (∃ r, classify (answering unsure_fields) "what is this?"
            = ([EIntentChain "what is this?"], Ok r)
          ∧ requires_clarification r = false
          ∧ confidence r = 0.69%float
          ∧ entities r = ∅
          ∧ intent r = intent_of_label (reported_label unsure_fields)).
Proof.
  split.
  - apply (proj1 (classify_clarification_as_reported (H := strict_runtime)
                    (answering vague_fields) "can you help?" vague_fields true
                    eq_refl eq_refl) 0.4%float ∅);
      [reflexivity | right; reflexivity | reflexivity | reflexivity].
  - apply (proj1 (classify_clarification_as_reported (H := strict_runtime)
                    (answering unsure_fields) "what is this?" unsure_fields false
                    eq_refl eq_refl) 0.69%float ∅);
      [reflexivity | right; reflexivity | reflexivity | reflexivity].
Defined.

(** C6: [classify] never raises.  When the chain (model call and JSON
    parsing) fails, or when the post-processing of its output fails, the
    result is the fixed safe default (general_qa, confidence 0.5, no
    entities, general_qa_v1, no clarification), and all that is left of
    the failure is one printed line. *)
Theorem classify_never_raises `{Runtime} self query :
  (∃ r, outcome (classify self query) = Ok r)
  ∧ (∀ e, chain self query = Raise e →
       classify self query =
         ([EIntentChain query;
           EPrint ("Intent classification error: " +:+ exn_str e)],
          Ok fallback_result))
  ∧ (∀ parsed e, chain self query = Ok parsed → post_process parsed = Raise e →
       classify self query =
         ([EIntentChain query;
           EPrint ("Intent classification error: " +:+ exn_str e)],
          Ok fallback_result))
  ∧ fallback_result =
      {| intent := GENERAL_QA; confidence := 0.5%float; entities := ∅;
         suggested_prompt_template := "general_qa_v1";
         requires_clarification := false |}.
Proof.
  split; [apply classify_total|]. split; [|split; [|reflexivity]].
  - intros e He. by rewrite classify_eq, He.
  - intros parsed e. apply classify_post_raise.
Qed.

Lemma classify_never_raises_witness :
  classify (failing (Exn "APIConnectionError" "Connection error.")) "hi" =
    ([EIntentChain "hi";
      EPrint "Intent classification error: Connection error."],
     Ok fallback_result)
  ∧ classify (answering {[ "intent" := JList [] ]}) "hi" =
    ([EIntentChain "hi";
      EPrint "Intent classification error: unhashable type: 'list'"],
     Ok fallback_result).
Proof.
  split.
  - exact (proj1 (proj2 (classify_never_raises
             (failing (Exn "APIConnectionError" "Connection error.")) "hi"))
             (Exn "APIConnectionError" "Connection error.") eq_refl).
  - exact (proj1 (proj2 (proj2 (classify_never_raises
             (answering {[ "intent" := JList [] ]}) "hi")))
             (JDict {[ "intent" := JList [] ]})
             (unhashable (JList [])) eq_refl eq_refl).
Defined.

(** C7, refuted as worded: for a label outside the closed set the
    returned category falls back to general_qa, but the template is looked
    up under the label itself and comes out as default_v1, not as the
    table entry general_qa_v1 of the returned category. *)
Lemma template_does_not_follow_category : ¬ template_follows_category.
Proof.
  intros Hclaim.
  specialize (Hclaim strict_runtime (answering unknown_label_fields) "help me"
    unknown_label_fields
    {| intent := GENERAL_QA; confidence := 0.95%float; entities := ∅;
       suggested_prompt_template := "default_v1";
       requires_clarification := false |} eq_refl).
  cbn in Hclaim. discriminate Hclaim.
  - intros s [= <-]. apply (bool_decide_unpack _). vm_compute. exact I.
  - vm_compute. reflexivity.
Qed.

(** C7, amended: let the classifier answer an object whose suggested
    template id is missing, the placeholder or otherwise not a string of
    the allow-list.  When the object passes post-processing (label and
    template id hashable, confidence, entities and flag valid) the result
    is returned with nothing printed and carries the template id looked up
    in the fixed table under the label the classifier reported
    ([general_qa] when absent): an id of the allow-list, never the raw
    string.  For a label that is one of the eight categories this is the
    table entry of the returned category; for any other label the
    returned category is [general_qa] while the template is [default_v1].
    In every other case the result is the safe default, with
    [general_qa_v1]. *)
Theorem classify_template_from_label `{Runtime} self query m :
  chain self query = Ok (JDict m) →
  invalid_template_id (reported_template m) →
  (∀ c e b,
     hashable (reported_label m) = true →
     truthy (reported_template m) = false
     ∨ hashable (reported_template m) = true →
     validate_float (reported_confidence m) = Some c →
     validate_dict (reported_entities m) = Some e →
     validate_bool (reported_flag m) = Some b →
     classify self query =
       ([EIntentChain query],
        Ok {| intent := intent_of_label (reported_label m);
              confidence := c;
              entities := e;
              suggested_prompt_template := table_lookup (reported_label m);
              requires_clarification := b |})
     ∧ _match_template (reported_label m)
       = Ok (table_lookup (reported_label m))
     ∧ table_lookup (reported_label m) ∈ allowed_template_ids
     ∧ (∀ s, reported_template m = JStr s →
             table_lookup (reported_label m) ≠ s)
     ∧ (∀ i, reported_label m = JStr (IntentType_value i) →
             intent_of_label (reported_label m) = i
             ∧ table_lookup (reported_label m) = table_entry i)
     ∧ ((∀ i, reported_label m ≠ JStr (IntentType_value i)) →
        intent_of_label (reported_label m) = GENERAL_QA
        ∧ table_lookup (reported_label m) = "default_v1"))
  ∧ (hashable (reported_label m) = false
     ∨ (truthy (reported_template m) = true
        ∧ hashable (reported_template m) = false)
     ∨ validate_float (reported_confidence m) = None
     ∨ validate_dict (reported_entities m) = None
     ∨ validate_bool (reported_flag m) = None →
     ∃ err,
       classify self query =
         ([EIntentChain query;
           EPrint ("Intent classification error: " +:+ exn_str err)],
          Ok fallback_result)
       ∧ suggested_prompt_template fallback_result = "general_qa_v1")
  ∧ table_entry <$> IntentType_members =
      ["code_search_v1"; "code_explain_v1"; "code_review_v1"; "bug_fix_v1";
       "refactor_v1"; "general_qa_v1"; "casual_chat_v1"; "default_v1"].
Proof.
  intros Hc Hinv. split; [|split; [|reflexivity]].
  - intros c e b Hl Ht Hconf Hents Hflag.
    destruct (post_process_accepted m c e b Hl Ht Hconf Hents Hflag)
      as (t & Hp & Ht' & _).
    rewrite (Ht' Hinv) in Hp.
    pose proof (_match_template_hashable _ Hl) as Hm.
    pose proof (_match_template_allowed _ _ Hm) as Hin.
    split; [exact (classify_post_ok _ _ _ _ Hc Hp)|].
    split; [exact Hm|]. split; [exact Hin|]. split; [|split].
    + intros s Hs Heq. apply (Hinv s Hs). by rewrite <- Heq.
    + intros i ->. apply label_of_category.
    + apply label_outside_categories.
  - intros Hbad. destruct (post_process_rejected m Hbad) as [err Hp].
    exists err. split; [exact (classify_post_raise _ _ _ _ Hc Hp)|]. done.
Qed.

Lemma classify_template_from_label_witness :
  classify (answering bug_fix_fields) "fix it" =
    ([EIntentChain "fix it"],
     Ok {| intent := BUG_FIX; confidence := 0.95%float; entities := ∅;
           suggested_prompt_template := "bug_fix_v1";
           requires_clarification := false |})
  ∧ classify (answering unknown_label_fields) "help me" =
      ([EIntentChain "help me"],
       Ok {| intent := GENERAL_QA; confidence := 0.95%float; entities := ∅;
             suggested_prompt_template := "default_v1";
             requires_clarification := false |}).
Proof.
  split.
  - refine (proj1 (proj1 (classify_template_from_label (H := strict_runtime)
                            (answering bug_fix_fields) "fix it" bug_fix_fields
                            eq_refl _) 0.95%float ∅ false _ _ _ _ _)).
    + intros s Hs. vm_compute in Hs. injection Hs as <-.
      apply (bool_decide_unpack _). vm_compute. exact I.
    + reflexivity.
    + right. reflexivity.
    + reflexivity.
    + reflexivity.
    + reflexivity.
  - refine (proj1 (proj1 (classify_template_from_label (H := strict_runtime)
                            (answering unknown_label_fields) "help me"
                            unknown_label_fields eq_refl _)
                     0.95%float ∅ false _ _ _ _ _)).
    + intros s Hs. vm_compute in Hs. injection Hs as <-.
      apply (bool_decide_unpack _). vm_compute. exact I.
    + reflexivity.
    + right. reflexivity.
    + reflexivity.
    + reflexivity.
    + reflexivity.
Defined.

End intent_claims.

(** * Hybrid retrieval *)

Section retrieval_facts.
Import RetrievalService.

Lemma rerank_fold docs : ∀ seen acc,
  (foldl rerank_step (seen, acc) docs).2 =
    acc ++ filter (λ d, page_content d ∉ seen) (first_occurrence_wins docs).
Proof.
  induction docs as [|d docs IH]; intros seen acc; cbn [foldl first_occurrence_wins].
  { by rewrite filter_nil, app_nil_r. }
  unfold rerank_step at 2. cbn [fst snd].
  destruct (decide (page_content d ∉ seen)) as [Hnew|Hold].
  - rewrite bool_decide_eq_true_2 by done. rewrite IH.
    rewrite filter_cons_True by done. rewrite <- app_assoc. cbn [app].
    do 2 f_equal. rewrite list_filter_filter. apply list_filter_iff.
    intros d'. set_solver.
  - rewrite bool_decide_eq_false_2 by done. rewrite IH.
    rewrite filter_cons_False by done. f_equal.
    rewrite list_filter_filter. apply list_filter_iff.
    intros d'. split; [|naive_solver]. intros Hd'. split; [done|].
    intros Heq. rewrite Heq in Hd'. done.
Qed.

(** The loop of [_rerank] computes the merge of the specification. *)
Lemma _rerank_first_occurrence_wins docs :
  _rerank docs = first_occurrence_wins docs.
Proof.
  unfold _rerank. rewrite rerank_fold. cbn [app].
  induction (first_occurrence_wins docs) as [|d l IH]; [done|].
  rewrite filter_cons_True by set_solver. by rewrite IH.
Qed.

Lemma first_occurrence_wins_sublist docs :
  first_occurrence_wins docs `sublist_of` docs.
Proof.
  induction docs as [|d docs IH]; cbn; [done|].
  apply sublist_skip. etrans; [apply sublist_filter|done].
Qed.

Lemma first_occurrence_wins_contents docs c :
  c ∈ page_content <$> first_occurrence_wins docs ↔ c ∈ page_content <$> docs.
Proof.
  induction docs as [|d docs IH]; cbn; [done|].
  rewrite !elem_of_cons, <- IH, !list_elem_of_fmap.
  setoid_rewrite list_elem_of_filter.
  destruct (decide (c = page_content d)); naive_solver.
Qed.

Lemma first_occurrence_wins_NoDup docs :
  NoDup (page_content <$> first_occurrence_wins docs).
Proof.
  induction docs as [|d docs IH]; cbn; [constructor|].
  apply NoDup_cons. split.
  - rewrite list_elem_of_fmap. intros (d' & Heq & Hin).
    apply list_elem_of_filter in Hin as [Hne _]. congruence.
  - refine (sublist_NoDup _ _ IH _). apply fmap_sublist, sublist_filter.
Qed.

(** Every document kept is the first one of the flattened list with its
    content. *)
Lemma first_occurrence_wins_first docs d :
  d ∈ first_occurrence_wins docs →
  ∃ before after, docs = before ++ d :: after
                  ∧ page_content d ∉ page_content <$> before.
Proof.
  revert d. induction docs as [|d0 docs IH]; intros d; cbn; [by intros ?%elem_of_nil|].
  rewrite elem_of_cons. intros [->|Hin].
  - exists [], docs. split; [done|]. cbn. apply not_elem_of_nil.
  - apply list_elem_of_filter in Hin as [Hne Hin].
    destruct (IH d Hin) as (before & after & -> & Hnot).
    exists (d0 :: before), after. split; [done|]. cbn.
    rewrite not_elem_of_cons. done.
Qed.

Lemma extend_fold results : ∀ acc,
  foldl extend_step acc results =
    acc ++ mjoin ((λ res, match res with Ok docs => docs | Raise _ => [] end)
                  <$> results).
Proof.
  induction results as [|res results IH]; intros acc; cbn.
  { by rewrite app_nil_r. }
  rewrite IH. destruct res; cbn; [by rewrite app_assoc | done].
Qed.

Lemma _aget_relevant_documents_eq self query :
  _aget_relevant_documents self query =
    (imap (λ i _, ESource i query) (retrievers self),
     Ok (first_occurrence_wins (successful_docs (retrievers self) query))).
Proof.
  unfold _aget_relevant_documents, gather, mbind, W_bind, bind, ret.
  rewrite app_nil_r, extend_fold, _rerank_first_occurrence_wins. cbn [app].
  unfold successful_docs. by rewrite <- list_fmap_compose.
Qed.

End retrieval_facts.

Section retrieval_claims.
Import RetrievalService RetrievalClaims.

Lemma elem_of_successful_docs rs query d :
  d ∈ successful_docs rs query ↔
  ∃ r docs, r ∈ rs ∧ r query = Ok docs ∧ d ∈ docs.
Proof.
  unfold successful_docs. rewrite list_elem_of_join. split.
  - intros (l & Hd & (r & -> & Hr)%list_elem_of_fmap).
    destruct (r query) as [docs|e] eqn:E; [eauto 6|by apply elem_of_nil in Hd].
  - intros (r & docs & Hr & Hq & Hd). exists docs. split; [done|].
    apply list_elem_of_fmap. exists r. by rewrite Hq.
Qed.

Lemma successful_docs_cons r rs query :
  successful_docs (r :: rs) query =
    match r query with Ok docs => docs | Raise _ => [] end
    ++ successful_docs rs query.
Proof. reflexivity. Qed.

Lemma successful_docs_surviving rs query :
  successful_docs (surviving rs query) query = successful_docs rs query.
Proof.
  unfold surviving. induction rs as [|r rs IH]; [done|].
  rewrite filter_cons, (successful_docs_cons r rs).
  destruct (r query) as [docs|e] eqn:E; cbn [succeeded].
  - rewrite decide_True by done. rewrite successful_docs_cons, E.
    f_equal. exact IH.
  - rewrite decide_False by done. exact IH.
Qed.

(** C4: the merged result of [retrieve] is the flattening of the
    per-source results in the order in which the sources are registered,
    deduplicated by content with the first occurrence kept: it is a
    subsequence of the flattened list, every document in it is the first
    one with its content, every content survives, no two documents have
    equal content, and the weights play no part. *)
Theorem retrieve_merges_in_registration_order (self : service) (query : string) :
  ∃ merged,
    outcome (retrieve self query) = Ok merged
    ∧ merged = first_occurrence_wins
                 (successful_docs (retrievers (ensemble_retriever self)) query)
    ∧ merged `sublist_of`
        successful_docs (retrievers (ensemble_retriever self)) query
    ∧ (∀ d, d ∈ merged →
         ∃ before after,
           successful_docs (retrievers (ensemble_retriever self)) query
             = before ++ d :: after
           ∧ page_content d ∉ page_content <$> before)
    ∧ (∀ c, c ∈ page_content <$>
                  successful_docs (retrievers (ensemble_retriever self)) query →
            c ∈ page_content <$> merged)
    ∧ NoDup (page_content <$> merged)
    ∧ (∀ weights',
         retrieve
           {| ensemble_retriever :=
                {| retrievers := retrievers (ensemble_retriever self);
                   weights := weights' |} |} query
         = retrieve self query).
Proof.
  eexists. unfold retrieve. rewrite _aget_relevant_documents_eq.
  split; [reflexivity|]. split; [reflexivity|].
  split; [apply first_occurrence_wins_sublist|].
  split; [apply first_occurrence_wins_first|].
  split; [intros c; apply first_occurrence_wins_contents|].
  split; [apply first_occurrence_wins_NoDup|].
  intros weights'. by rewrite _aget_relevant_documents_eq.
Qed.

(** C5: [retrieve] does not raise, whichever sources fail: every source is
    invoked, and the result is the deduplicated union of what the
    successful sources returned, exactly as if the failed sources had not
    been configured. *)
Theorem retrieve_tolerates_failed_sources (self : service) (query : string) :
  ∃ merged,
    retrieve self query =
      (imap (λ i _, ESource i query) (retrievers (ensemble_retriever self)),
       Ok merged)
    ∧ NoDup (page_content <$> merged)
    ∧ (∀ d, d ∈ merged →
         ∃ r docs, r ∈ retrievers (ensemble_retriever self)
                   ∧ r query = Ok docs ∧ d ∈ docs)
    ∧ (∀ c, c ∈ page_content <$> merged ↔
         ∃ r docs, r ∈ retrievers (ensemble_retriever self)
                   ∧ r query = Ok docs ∧ c ∈ page_content <$> docs)
    ∧ outcome
        (retrieve
           {| ensemble_retriever :=
                {| retrievers :=
                     surviving (retrievers (ensemble_retriever self)) query;
                   weights := weights (ensemble_retriever self) |} |} query)
      = Ok merged.
Proof.
  eexists. unfold retrieve. rewrite !_aget_relevant_documents_eq.
  split; [reflexivity|]. split; [apply first_occurrence_wins_NoDup|].
  split; [|split].
  - intros d Hd. apply elem_of_successful_docs.
    eapply elem_of_sublist; [exact Hd | apply first_occurrence_wins_sublist].
  - intros c. rewrite first_occurrence_wins_contents, list_elem_of_fmap. split.
    + intros (d & -> & (r & docs & ? & ? & ?)%elem_of_successful_docs).
      exists r, docs. split_and!; [done..|]. by apply list_elem_of_fmap_2.
    + intros (r & docs & ? & ? & (d & -> & ?)%list_elem_of_fmap).
      exists d. split; [done|]. apply elem_of_successful_docs. eauto.
  - unfold outcome. cbn [snd retrievers ensemble_retriever].
    by rewrite successful_docs_surviving.
Qed.

(** One source of three down: the other two are merged, the duplicate of
    the third is dropped. *)
Example retrieve_sample :
  retrieve sample_service "lexer" =
    ([ESource 0 "lexer"; ESource 1 "lexer"; ESource 2 "lexer"],
     Ok [doc "def parse(x)" "a.py"; doc "class Lexer" "b.py";
         doc "import re" "d.py"]).
Proof. vm_compute. reflexivity. Qed.

End retrieval_claims.

(** * More facts about the monad *)

Section monad_facts2.
Context {T : Type} `{Trace T} {A B : Type}.

Lemma bind_eq (m : W T A) (k : A → W T B) a :
  outcome m = Ok a →
  m ≫= k = (trace m ++ trace (k a), outcome (k a)).
Proof.
  destruct m as [t r]. unfold outcome, trace at 1. cbn [fst snd].
  intros ->. unfold mbind, W_bind. by rewrite bind_ok.
Qed.

Lemma bind_eq_raise (m : W T A) (k : A → W T B) e :
  outcome m = Raise e → m ≫= k = (trace m, Raise e).
Proof.
  destruct m as [t r]. unfold outcome, trace. cbn [fst snd]. by intros ->.
Qed.

Lemma try_except_ok (m : W T A) (h : exn → W T A) a :
  outcome m = Ok a → try_except m h = (trace m, Ok a).
Proof.
  destruct m as [t r]. unfold outcome, trace. cbn [fst snd]. by intros ->.
Qed.

Lemma try_except_raise (m : W T A) (h : exn → W T A) e :
  outcome m = Raise e →
  try_except m h = (trace m ++ trace (h e), outcome (h e)).
Proof.
  destruct m as [t r]. unfold outcome, trace. cbn [fst snd]. intros ->.
  cbn. by destruct (h e).
Qed.

Lemma tell_bind (e : effect) (k : unit → W T B) :
  tell e ≫= k = (inject e :: trace (k tt), outcome (k tt)).
Proof. unfold mbind, W_bind, tell. by rewrite bind_ok. Qed.

Lemma log_bind sid stp d (k : unit → W T B) :
  log sid stp d ≫= k = (inject (ELog sid stp d) :: trace (k tt), outcome (k tt)).
Proof. apply tell_bind. Qed.

Lemma print_bind line (k : unit → W T B) :
  print line ≫= k = (inject (EPrint line) :: trace (k tt), outcome (k tt)).
Proof. apply tell_bind. Qed.

Lemma lift_bind (r : result A) (k : A → W T B) :
  lift r ≫= k = match r with Ok a => k a | Raise e => ([], Raise e) end.
Proof.
  unfold mbind, W_bind, lift. destruct r; [|done].
  rewrite bind_ok. by destruct (k a).
Qed.

End monad_facts2.

Lemma yield_bind {B} ev d (k : unit → Gen B) :
  yield ev d ≫= k = (Yield (mkSse ev d) :: trace (k tt), outcome (k tt)).
Proof. unfold mbind, W_bind, yield. by rewrite bind_ok. Qed.

Lemma yields_app t1 t2 : yields (t1 ++ t2) = yields t1 ++ yields t2.
Proof. apply omap_app. Qed.

Lemma effects_app t1 t2 : effects (t1 ++ t2) = effects t1 ++ effects t2.
Proof. apply omap_app. Qed.

Lemma yields_did e t : yields (Did e :: t) = yields t.
Proof. reflexivity. Qed.

Lemma yields_yield ev t : yields (Yield ev :: t) = ev :: yields t.
Proof. reflexivity. Qed.

Lemma effects_did e t : effects (Did e :: t) = e :: effects t.
Proof. reflexivity. Qed.

Lemma effects_yield ev t : effects (Yield ev :: t) = effects t.
Proof. reflexivity. Qed.

Lemma yields_nil : yields [] = [].
Proof. reflexivity. Qed.

Lemma effects_nil : effects [] = [].
Proof. reflexivity. Qed.

Lemma yields_await (t : list effect) : yields (Did <$> t) = [].
Proof. induction t; [done|]. cbn. done. Qed.

Lemma effects_await (t : list effect) : effects (Did <$> t) = t.
Proof. induction t as [|e t IH]; [done|]. cbn. by f_equal. Qed.

Lemma trace_await {A} (m : Co A) : trace (await m) = Did <$> trace m.
Proof. done. Qed.

Lemma outcome_await {A} (m : Co A) : outcome (await m) = outcome m.
Proof. done. Qed.

Lemma trace_pair {T A} (t : list T) (r : result A) : trace (t, r) = t.
Proof. reflexivity. Qed.

Lemma outcome_pair {T A} (t : list T) (r : result A) : outcome (t, r) = r.
Proof. reflexivity. Qed.

Create Rewrite HintDb stream.
#[local] Hint Rewrite yields_app yields_did yields_yield yields_nil yields_await
  effects_app effects_did effects_yield effects_nil effects_await
  @trace_pair @outcome_pair @trace_await @outcome_await : stream.

(** * The service entry points *)

Section service_facts.
Import IntentService RAGService ServiceClaims StreamShape.
Context `{Runtime}.

Lemma select_prompt_eq template_id :
  select_prompt template_id = Ok (selected_template template_id).
Proof. reflexivity. Qed.

Lemma classify_trace_no_source self query :
  Forall (λ e, is_source_call e = false) (trace (classify self query)).
Proof.
  rewrite classify_eq. destruct (chain self query ≫= post_process);
    repeat constructor.
Qed.

(** ** [chat] *)

Lemma chat_retrieval_outcome self query sid ir :
  outcome (chat_retrieval self query sid ir) = Ok (retrieved self query ir).
Proof.
  unfold chat_retrieval, retrieved.
  destruct (bool_decide (intent ir ≠ CASUAL_CHAT)); [|by rewrite log_bind].
  destruct (retrieval_service self query) as [t [docs|e]] eqn:E.
  - rewrite (bind_eq _ _ docs) by done. unfold log_retrieval_success.
    by rewrite log_bind.
  - rewrite (bind_eq_raise _ _ e) by done. unfold try_except.
    by rewrite print_bind, log_bind.
Qed.

Lemma chat_retrieval_skipped self query sid ir :
  intent ir = CASUAL_CHAT →
  chat_retrieval self query sid ir =
    ([ELog sid "RETRIEVAL_SKIPPED" (dict [("reason", JStr "casual_chat intent")])],
     Ok []).
Proof.
  intros Hc. unfold chat_retrieval.
  rewrite bool_decide_eq_false_2 by (by intros ?). by rewrite log_bind.
Qed.

Lemma chat_generation_eq self query sid ir docs :
  chat_generation self query sid ir docs =
    match llm_ainvoke self (selected_template (suggested_prompt_template ir))
            (_format_docs docs) query with
    | Ok text =>
        (generation_prefix false query sid ir docs
         ++ [ELog sid "LLM_OUTPUT" (dict [("response", JStr text)])],
         Ok {| res_session_id := sid;
               res_response := text;
               res_intent := IntentResult_dict ir;
               res_citations := citation_of <$> docs;
               res_metadata :=
                 {[ "template_used" := JStr (suggested_prompt_template ir) ]} |})
    | Raise e => (generation_prefix false query sid ir docs, Raise e)
    end.
Proof.
  unfold chat_generation, generation_prefix.
  rewrite select_prompt_eq, lift_bind, log_bind.
  unfold log_llm_input at 1. rewrite log_bind, tell_bind, lift_bind.
  destruct (llm_ainvoke self _ _ _) as [text|e]; [|done].
  by rewrite log_bind.
Qed.

Lemma chat_eq self query sid ir :
  outcome (classify (intent_service self) query) = Ok ir →
  chat self query sid =
    (ELog sid "START_REQUEST" (dict [("query", JStr query)])
     :: trace (classify (intent_service self) query)
     ++ ELog sid "INTENT_CLASSIFIED" (IntentResult_dict ir)
     :: trace (chat_retrieval self query sid ir)
     ++ trace (chat_generation self query sid ir (retrieved self query ir)),
     outcome (chat_generation self query sid ir (retrieved self query ir))).
Proof.
  intros Hc. unfold chat. rewrite log_bind.
  rewrite (bind_eq _ _ ir Hc), log_bind.
  by rewrite (bind_eq _ _ _ (chat_retrieval_outcome self query sid ir)).
Qed.

End service_facts.

Section stream_facts.
Import IntentService RAGService ServiceClaims StreamShape.
Context `{Runtime}.

Lemma stream_chunks_eq chunks : ∀ acc,
  stream_chunks chunks acc =
    ((λ c, Yield (token_event c)) <$> chunks,
     Ok (foldl (λ a c, a +:+ c) acc chunks)).
Proof.
  induction chunks as [|c chunks IH]; intros acc; cbn [stream_chunks]; [done|].
  by rewrite yield_bind, IH.
Qed.

(** The [try] block of the retrieval step and its handler. *)
Lemma stream_retrieval_eq self query sid ir :
  stream_retrieval self query sid ir =
    if bool_decide (intent ir ≠ CASUAL_CHAT)
    then match outcome (retrieval_service self query) with
         | Ok docs =>
             ((Did <$> trace (retrieval_service self query))
              ++ trace (log_retrieval_success (T:=step) sid docs),
              Ok docs)
         | Raise e =>
             ((Did <$> trace (retrieval_service self query))
              ++ [Did (EPrint ("Retrieval failed: " +:+ exn_str e));
                  Did (ELog sid "RETRIEVAL_FAILED" (dict [("error", JStr (exn_str e))]));
                  Yield (error_event e)],
              Ok [])
         end
    else ([Did (ELog sid "RETRIEVAL_SKIPPED"
                  (dict [("reason", JStr "casual_chat intent")]))],
          Ok []).
Proof.
  unfold stream_retrieval.
  destruct (bool_decide (intent ir ≠ CASUAL_CHAT)); [|by rewrite log_bind].
  destruct (outcome (retrieval_service self query)) as [docs|e] eqn:E.
  - rewrite (try_except_ok _ _ docs).
    + by rewrite (bind_eq _ _ docs) by done.
    + rewrite (bind_eq _ _ docs) by done. unfold log_retrieval_success.
      by rewrite log_bind.
  - rewrite (try_except_raise _ _ e).
    + rewrite (bind_eq_raise _ _ e) by done.
      by rewrite print_bind, log_bind, yield_bind.
    + by rewrite (bind_eq_raise _ _ e) by done.
Qed.

Lemma stream_retrieval_outcome self query sid ir :
  outcome (stream_retrieval self query sid ir) = Ok (retrieved self query ir).
Proof.
  rewrite stream_retrieval_eq. unfold retrieved.
  destruct (bool_decide (intent ir ≠ CASUAL_CHAT)); [|done].
  by destruct (outcome (retrieval_service self query)).
Qed.

Lemma stream_retrieval_yields self query sid ir :
  yields (trace (stream_retrieval self query sid ir)) =
    retrieval_error_events self query ir.
Proof.
  rewrite stream_retrieval_eq. unfold retrieval_error_events.
  destruct (bool_decide (intent ir ≠ CASUAL_CHAT)); [|done].
  destruct (outcome (retrieval_service self query)); unfold trace at 1;
    cbn [fst snd]; by rewrite yields_app, yields_await.
Qed.

Lemma stream_retrieval_effects self query sid ir :
  Forall (λ e, is_source_call e = false) (trace (retrieval_service self query)) ∨
  intent ir = CASUAL_CHAT →
  Forall (λ e, is_source_call e = false)
    (effects (trace (stream_retrieval self query sid ir))).
Proof.
  rewrite stream_retrieval_eq. intros Hq.
  destruct (bool_decide (intent ir ≠ CASUAL_CHAT)) eqn:Hb.
  - destruct Hq as [Hq|Hq]; [|by apply bool_decide_eq_true_1 in Hb].
    destruct (outcome (retrieval_service self query)); unfold trace at 1;
      cbn [fst snd]; rewrite effects_app, effects_await;
      (apply Forall_app; split; [done|repeat constructor]).
  - repeat constructor.
Qed.

Lemma stream_generation_eq self query sid ir docs :
  stream_generation self query sid ir docs =
    (Did (ELog sid "PROMPT_SELECTED"
            (dict [("template_id", JStr (suggested_prompt_template ir))]))
     :: Yield generating_event
     :: trace (log_llm_input (T:=step) sid (suggested_prompt_template ir)
                 (_format_docs docs) query)
     ++ Did (EGenerate true (selected_template (suggested_prompt_template ir))
               (_format_docs docs) query)
     :: ((λ c, Yield (token_event c)) <$>
           (llm_astream self (selected_template (suggested_prompt_template ir))
              (_format_docs docs) query).1)
     ++ match (llm_astream self (selected_template (suggested_prompt_template ir))
                 (_format_docs docs) query).2 with
        | None =>
            [Did (ELog sid "LLM_OUTPUT_STREAM_COMPLETE"
                    (dict [("response_length",
                            JInt (Z.of_nat (String.length
                              (foldl (λ a c, a +:+ c) ""
                                 (llm_astream self
                                    (selected_template (suggested_prompt_template ir))
                                    (_format_docs docs) query).1))))]));
             Yield (done_event sid docs)]
        | Some _ => []
        end,
     match (llm_astream self (selected_template (suggested_prompt_template ir))
              (_format_docs docs) query).2 with
     | None => Ok tt
     | Some e => Raise e
     end).
Proof.
  unfold stream_generation.
  rewrite select_prompt_eq, lift_bind, log_bind, yield_bind.
  unfold log_llm_input at 1. rewrite log_bind, tell_bind.
  destruct (llm_astream self _ _ _) as [chunks failure]. cbn [fst snd].
  rewrite (bind_eq _ _ _ (f_equal snd (stream_chunks_eq chunks ""))).
  rewrite stream_chunks_eq. unfold trace at 4. cbn [fst snd].
  destruct failure as [e|].
  - rewrite (bind_eq_raise (raise e) _ e) by done. done.
  - rewrite (bind_eq (ret tt) _ tt) by done. rewrite log_bind. done.
Qed.

Lemma yields_tokens chunks :
  yields ((λ c, Yield (token_event c)) <$> chunks) = token_event <$> chunks.
Proof. induction chunks as [|c chunks IH]; [done|]. cbn. by f_equal. Qed.

Lemma effects_tokens chunks :
  effects ((λ c, Yield (token_event c)) <$> chunks) = [].
Proof. induction chunks as [|c chunks IH]; [done|]. cbn. done. Qed.

Lemma stream_generation_yields self query sid ir docs :
  yields (trace (stream_generation self query sid ir docs)) =
    generating_event
    :: (token_event <$>
          (llm_astream self (selected_template (suggested_prompt_template ir))
             (_format_docs docs) query).1)
    ++ match (llm_astream self (selected_template (suggested_prompt_template ir))
                (_format_docs docs) query).2 with
       | None => [done_event sid docs]
       | Some _ => []
       end.
Proof.
  rewrite stream_generation_eq. unfold trace at 1. cbn [fst snd].
  unfold log_llm_input, log, tell, trace, inject, step_trace. cbn [fst snd].
  autorewrite with stream. rewrite yields_tokens. cbn [app]. do 2 f_equal.
  destruct (llm_astream self _ _ _).2; by autorewrite with stream.
Qed.

Lemma stream_generation_effects self query sid ir docs :
  ∃ rest,
    effects (trace (stream_generation self query sid ir docs)) =
      generation_prefix true query sid ir docs ++ rest
    ∧ Forall (λ e, is_source_call e = false) rest.
Proof.
  rewrite stream_generation_eq. unfold trace at 1. cbn [fst snd].
  unfold generation_prefix, log_llm_input, log, tell, trace, inject,
    step_trace, effect_trace. cbn [fst snd].
  autorewrite with stream. rewrite effects_tokens. cbn [app].
  destruct (llm_astream self _ _ _).2.
  - exists []. split; [by autorewrite with stream|constructor].
  - eexists [_]. split; [by autorewrite with stream|repeat constructor].
Qed.

End stream_facts.

Section stream_whole.
Import IntentService RAGService ServiceClaims StreamShape.
Context `{Runtime}.

Lemma chat_stream_eq self query sid ir :
  outcome (classify (intent_service self) query) = Ok ir →
  chat_stream self query sid =
    (Did (ELog sid "START_REQUEST_STREAM" (dict [("query", JStr query)]))
     :: Yield (mkSse "status" (dict [("stage", JStr "intent_classify")]))
     :: (Did <$> trace (classify (intent_service self) query))
     ++ Did (ELog sid "INTENT_CLASSIFIED" (IntentResult_dict ir))
     :: (if requires_clarification ir then [Yield clarification_event] else [])
     ++ Yield (mkSse "status" (dict [("stage", JStr "retrieving")]))
     :: trace (stream_retrieval self query sid ir)
     ++ Yield (retrieval_event (retrieved self query ir))
     :: trace (stream_generation self query sid ir (retrieved self query ir)),
     outcome (stream_generation self query sid ir (retrieved self query ir))).
Proof.
  intros Hc. unfold chat_stream. rewrite log_bind, yield_bind.
  rewrite (bind_eq (await _) _ ir) by done. rewrite log_bind.
  assert (Hclar :
    (if requires_clarification ir
     then yield "clarification"
            (dict [("message", JStr "Clarification needed");
                   ("suggestions", JList [])])
     else ret tt)
    = ((if requires_clarification ir then [Yield clarification_event] else []),
       Ok tt)) by (by destruct (requires_clarification ir)).
  rewrite Hclar, (bind_eq _ _ tt) by done. rewrite yield_bind.
  rewrite (bind_eq _ _ _ (stream_retrieval_outcome self query sid ir)).
  rewrite yield_bind. reflexivity.
Qed.

Lemma chat_stream_yields self query sid ir :
  outcome (classify (intent_service self) query) = Ok ir →
  yields (trace (chat_stream self query sid)) = stream_events self query sid ir.
Proof.
  intros Hc. rewrite (chat_stream_eq _ _ _ _ Hc). unfold trace at 1.
  cbn [fst snd]. autorewrite with stream.
  rewrite stream_retrieval_yields, stream_generation_yields.
  unfold stream_events, before_generation, generation_events, streamed.
  destruct (requires_clarification ir); autorewrite with stream;
    cbn [app]; rewrite <- ?app_assoc; reflexivity.
Qed.

Lemma chat_stream_outcome self query sid ir :
  outcome (classify (intent_service self) query) = Ok ir →
  outcome (chat_stream self query sid) =
    match (streamed self query ir).2 with
    | None => Ok tt
    | Some e => Raise e
    end.
Proof.
  intros Hc. rewrite (chat_stream_eq _ _ _ _ Hc). unfold outcome at 1.
  cbn [snd]. by rewrite stream_generation_eq.
Qed.

End stream_whole.

(** * The streaming pipeline *)

Section pipeline_stream_facts.
Import RAGPipeline ServiceClaims StreamShape PipelineShape.

Lemma yield_tokens_eq tokens :
  yield_tokens tokens = ((λ c, Yield (token_event c)) <$> tokens, Ok tt).
Proof.
  induction tokens as [|c tokens IH]; cbn [yield_tokens]; [done|].
  by rewrite yield_bind, IH.
Qed.


End pipeline_stream_facts.

(** * Orderings of event lists *)

Section order_facts.
Import ServiceClaims.






End order_facts.

Section stream_order.
Import IntentService RAGService ServiceClaims StreamShape.
Context `{Runtime}.

Lemma before_generation_kinds self query ir :
  Forall (λ x, event x ≠ "token" ∧ event x ≠ "done")
    (before_generation self query ir).
Proof.
  unfold before_generation, retrieval_error_events.
  destruct (requires_clarification ir), (bool_decide (intent ir ≠ CASUAL_CHAT)),
    (outcome (retrieval_service self query)); cbn [app];
    repeat (constructor; [by split|]); constructor.
Qed.



End stream_order.

Section pipeline_order.
Import RAGPipeline ServiceClaims StreamShape PipelineShape.



End pipeline_order.

Section stream_failures.
Import IntentService RAGService RAGPipeline ServiceClaims StreamShape
  PipelineShape.
Context `{Runtime}.






End stream_failures.

Section pipeline_failures.
Import RAGPipeline ServiceClaims StreamShape PipelineShape.



End pipeline_failures.

Section stream_claim.
Import IntentService RAGService RAGPipeline ServiceClaims StreamShape
  PipelineShape Samples.



End stream_claim.

Section stream_witness.
Import IntentService RAGService RAGPipeline ServiceClaims StreamShape
  PipelineShape Samples.


End stream_witness.

(** * Casual chat *)

Section casual_chat.
Import IntentService RAGService ServiceClaims StreamShape Samples.
Context `{Runtime}.

Lemma retrieved_casual self query ir :
  intent ir = CASUAL_CHAT → retrieved self query ir = [].
Proof.
  intros Hc. unfold retrieved. by rewrite bool_decide_eq_false_2 by (by intros ?).
Qed.

Lemma generation_prefix_no_source streaming query sid ir docs :
  Forall (λ e, is_source_call e = false)
    (generation_prefix streaming query sid ir docs).
Proof. repeat constructor. Qed.

Lemma chat_generation_no_source self query sid ir docs :
  Forall (λ e, is_source_call e = false)
    (trace (chat_generation self query sid ir docs)).
Proof.
  rewrite chat_generation_eq. destruct (llm_ainvoke self _ _ _); cbn [trace fst].
  - apply Forall_app. split; [apply generation_prefix_no_source|by repeat constructor].
  - apply generation_prefix_no_source.
Qed.

Lemma chat_casual_eq self query sid ir :
  outcome (classify (intent_service self) query) = Ok ir →
  intent ir = CASUAL_CHAT →
  chat self query sid =
    (ELog sid "START_REQUEST" (dict [("query", JStr query)])
     :: trace (classify (intent_service self) query)
     ++ ELog sid "INTENT_CLASSIFIED" (IntentResult_dict ir)
     :: ELog sid "RETRIEVAL_SKIPPED" (dict [("reason", JStr "casual_chat intent")])
     :: trace (chat_generation self query sid ir []),
     outcome (chat_generation self query sid ir [])).
Proof.
  intros Hc Hcas. rewrite (chat_eq _ _ _ _ Hc).
  by rewrite chat_retrieval_skipped, retrieved_casual.
Qed.

Lemma chat_stream_casual_eq self query sid ir :
  outcome (classify (intent_service self) query) = Ok ir →
  intent ir = CASUAL_CHAT →
  chat_stream self query sid =
    (Did (ELog sid "START_REQUEST_STREAM" (dict [("query", JStr query)]))
     :: Yield (mkSse "status" (dict [("stage", JStr "intent_classify")]))
     :: (Did <$> trace (classify (intent_service self) query))
     ++ Did (ELog sid "INTENT_CLASSIFIED" (IntentResult_dict ir))
     :: (if requires_clarification ir then [Yield clarification_event] else [])
     ++ Yield (mkSse "status" (dict [("stage", JStr "retrieving")]))
     :: Did (ELog sid "RETRIEVAL_SKIPPED"
               (dict [("reason", JStr "casual_chat intent")]))
     :: Yield (retrieval_event [])
     :: trace (stream_generation self query sid ir []),
     outcome (stream_generation self query sid ir [])).
Proof.
  intros Hc Hcas. rewrite (chat_stream_eq _ _ _ _ Hc).
  rewrite stream_retrieval_eq, retrieved_casual by done.
  by rewrite bool_decide_eq_false_2 by (by intros ?).
Qed.

End casual_chat.

Section casual_claim.
Import IntentService RAGService ServiceClaims StreamShape Samples.

Lemma stream_events_done `{Runtime} self query sid ir ev :
  ev ∈ stream_events self query sid ir → event ev = "done" →
  ev = done_event sid (retrieved self query ir).
Proof.
  revert ev.
  apply (proj1 (Forall_forall
    (λ ev, event ev = "done" → ev = done_event sid (retrieved self query ir))
    (stream_events self query sid ir))).
  unfold stream_events, generation_events.
  apply Forall_app. split.
  { eapply Forall_impl; [apply before_generation_kinds|].
    intros ev [_ Hnd] Hd. by destruct Hnd. }
  constructor; [by intros [=]|]. apply Forall_app. split.
  { apply Forall_fmap, Forall_true. by intros c [=]. }
  destruct (streamed self query ir).2; by repeat constructor.
Qed.

(** C8: for a request classified as casual chat, retrieval is skipped
    altogether: neither [chat] nor [chat_stream] invokes a document source
    (whatever retrieval service is plugged in, the run is the same), the
    citations returned by [chat] are empty, and so are those of the [done]
    event of [chat_stream]. *)
Theorem casual_chat_skips_retrieval `{Runtime} (self : service)
    (query sid : string) (ir : IntentResult) :
  outcome (classify (intent_service self) query) = Ok ir →
  intent ir = CASUAL_CHAT →
  Forall (λ e, is_source_call e = false) (trace (chat self query sid))
  ∧ (∀ res, outcome (chat self query sid) = Ok res → res_citations res = [])
  ∧ Forall (λ e, is_source_call e = false)
      (effects (trace (chat_stream self query sid)))
  ∧ (∀ ev, ev ∈ yields (trace (chat_stream self query sid)) →
           event ev = "done" →
           data ev = dict [("session_id", JStr sid); ("citations", JList [])])
  ∧ (∀ retrieval,
       chat (with_retrieval self retrieval) query sid = chat self query sid
       ∧ chat_stream (with_retrieval self retrieval) query sid
         = chat_stream self query sid).
Proof.
  intros Hc Hcas. split; [|split; [|split; [|split]]].
  - rewrite (chat_casual_eq _ _ _ _ Hc Hcas). cbn [trace fst].
    constructor; [done|]. apply Forall_app. split.
    { apply classify_trace_no_source. }
    do 2 (constructor; [done|]). apply chat_generation_no_source.
  - intros res. rewrite (chat_casual_eq _ _ _ _ Hc Hcas). cbn [outcome snd].
    rewrite chat_generation_eq. destruct (llm_ainvoke self _ _ _); [|done].
    cbn [outcome snd]. by intros [= <-].
  - rewrite (chat_stream_casual_eq _ _ _ _ Hc Hcas). cbn [trace fst].
    destruct (stream_generation_effects self query sid ir []) as (rest & Hg & Hrest).
    autorewrite with stream. rewrite Hg.
    constructor; [done|]. apply Forall_app. split.
    { apply classify_trace_no_source. }
    constructor; [done|]. apply Forall_app. split.
    { destruct (requires_clarification ir); constructor. }
    constructor; [done|]. apply Forall_app. split; [|done].
    apply generation_prefix_no_source.
  - intros ev. rewrite (chat_stream_yields _ _ _ _ Hc). intros Hin Hev.
    rewrite (stream_events_done _ _ _ _ _ Hin Hev).
    by rewrite retrieved_casual.
  - intros retrieval. split.
    + rewrite (chat_casual_eq (with_retrieval self retrieval) _ _ ir) by done.
      by rewrite (chat_casual_eq self _ _ ir).
    + rewrite (chat_stream_casual_eq (with_retrieval self retrieval) _ _ ir)
        by done.
      by rewrite (chat_stream_casual_eq self _ _ ir).
Qed.

Lemma casual_chat_skips_retrieval_witness :
  Forall (λ e, is_source_call e = false)
    (trace (chat (sample_service greeting_fields) "hi" "s-1"))
  ∧ (∀ res, outcome (chat (sample_service greeting_fields) "hi" "s-1") = Ok res →
            res_citations res = []).
Proof.
  pose proof (casual_chat_skips_retrieval (sample_service greeting_fields)
                "hi" "s-1" greeting_result) as Hw.
  destruct Hw as (Hsrc & Hcit & _); [vm_compute; reflexivity | reflexivity |].
  split; [exact Hsrc | exact Hcit].
Defined.

(** For contrast: any other intent does reach the two document sources. *)
Example explain_reaches_sources :
  filter (λ e, is_source_call e = true)
    (trace (chat (sample_service explain_fields) "What does this function do?" "s-1"))
  = [ESource 0 "What does this function do?";
     ESource 1 "What does this function do?"].
Proof. vm_compute. reflexivity. Qed.

End casual_claim.

(** * Citations *)

Section string_facts.

Lemma length_append (a b : string) :
  String.length (a +:+ b) = String.length a + String.length b.
Proof.
  induction a as [|c a IH]; [done|].
  change (String c a +:+ b) with (String c (a +:+ b)). cbn. f_equal. exact IH.
Qed.

Lemma length_slice_to (n : nat) (s : string) :
  String.length (slice_to n s) = n `min` String.length s.
Proof.
  unfold slice_to. revert n.
  induction s as [|c s IH]; intros [|n]; cbn; try done. f_equal. apply IH.
Qed.

Lemma slice_to_prefix (n : nat) (s : string) :
  ∃ rest, s = slice_to n s +:+ rest.
Proof.
  unfold slice_to. revert n.
  induction s as [|c s IH]; intros [|n]; cbn.
  - by exists "".
  - by exists "".
  - by exists (String c s).
  - destruct (IH n) as [rest Hrest]. exists rest.
    change (String c ?x +:+ rest) with (String c (x +:+ rest)).
    f_equal. exact Hrest.
Qed.

End string_facts.

Section citation_claim.
Import IntentService RAGService RAGPipeline ServiceClaims StreamShape
  PipelineShape CitationClaims Samples.

(** C9, refuted as worded: the [content] of a citation is the first 100
    characters of the document followed by three dots, 103 characters for
    a document of 122. *)
Lemma preview_exceeds_100 : ¬ preview_within_100.
Proof.
  intros Hclaim. specialize (Hclaim long_document).
  vm_compute in Hclaim. lia.
Qed.

Example long_preview :
  String.length (page_content long_document) = 122
  ∧ String.length (cite_content (citation_of long_document)) = 103.
Proof. split; vm_compute; reflexivity. Qed.

Lemma chat_citations `{Runtime} self query sid ir res :
  outcome (classify (intent_service self) query) = Ok ir →
  outcome (chat self query sid) = Ok res →
  res_citations res = citation_of <$> retrieved self query ir.
Proof.
  intros Hc. rewrite (chat_eq _ _ _ _ Hc). cbn [outcome snd].
  rewrite chat_generation_eq. destruct (llm_ainvoke self _ _ _); [|done].
  cbn [outcome snd]. by intros [= <-].
Qed.

Lemma _extract_citations_eq ctx :
  _extract_citations ctx = citation_json <$> context_documents ctx.
Proof.
  unfold _extract_citations, context_documents.
  by destruct (ctx_retrieval_results ctx) as [[|r rs]|].
Qed.

(** C9, amended: a citation is made of a retrieved document alone: its
    source, the first 100 characters of its content followed by three
    dots (so at most 103 characters), and its score (0.0 when it has
    none).  The response of [chat] and the [done] event of [chat_stream]
    carry one citation per document of the final retrieved set, in
    retrieval order, and none when that set is empty; so does
    [_extract_citations] for the documents of the pipeline context. *)
Theorem citations_follow_retrieved_documents :
  (∀ d : Document,
     cite_source (citation_of d) = default JNull (metadata d !! "source")
     ∧ cite_content (citation_of d) = slice_to 100 (page_content d) +:+ "..."
     ∧ String.length (cite_content (citation_of d))
       = (100 `min` String.length (page_content d)) + 3
     ∧ (∃ rest, page_content d = slice_to 100 (page_content d) +:+ rest)
     ∧ cite_relevance (citation_of d)
       = default (JFloat 0.0%float) (metadata d !! "score"))
  ∧ (∀ (R : Runtime) (self : RAGService.service) (query sid : string) ir,
       outcome (classify (intent_service self) query) = Ok ir →
       (∀ res, outcome (chat self query sid) = Ok res →
          res_citations res = citation_of <$> retrieved self query ir
          ∧ length (res_citations res) = length (retrieved self query ir))
       ∧ (∀ ev, ev ∈ yields (trace (chat_stream self query sid)) →
            event ev = "done" →
            data ev =
              dict [("session_id", JStr sid);
                    ("citations",
                     JList (Citation_json <$>
                              (citation_of <$> retrieved self query ir)))]))
  ∧ (∀ ctx : PipelineContext,
       _extract_citations ctx = citation_json <$> context_documents ctx
       ∧ length (_extract_citations ctx) = length (context_documents ctx))
  ∧ (∀ r : RetrievedDocument,
       citation_json r =
         dict [("source", default JNull (doc_metadata r !! "source"));
               ("content", JStr (slice_to 100 (content r) +:+ "..."));
               ("relevance", JFloat (score r))]).
Proof.
  split; [|split; [|split]].
  - intros d. split_and!; try reflexivity.
    + cbn. rewrite length_append, length_slice_to. reflexivity.
    + apply slice_to_prefix.
  - intros R self query sid ir Hc. split.
    + intros res Hres. rewrite (chat_citations _ _ _ _ _ Hc Hres).
      by rewrite length_fmap.
    + intros ev. rewrite (chat_stream_yields _ _ _ _ Hc). intros Hin Hev.
      by rewrite (stream_events_done _ _ _ _ _ Hin Hev).
  - intros ctx. rewrite _extract_citations_eq. by rewrite length_fmap.
  - reflexivity.
Qed.

Lemma citations_follow_retrieved_documents_witness :
  ∃ res, outcome (chat (sample_service explain_fields)
                    "What does this function do?" "s-1") = Ok res
         ∧ res_citations res
           = citation_of <$> retrieved (sample_service explain_fields)
                               "What does this function do?" explain_result
         ∧ length (res_citations res) = 10.
Proof.
  destruct (proj1 (proj2 citations_follow_retrieved_documents) strict_runtime
              (sample_service explain_fields) "What does this function do?"
              "s-1" explain_result) as [Hchat _]; [vm_compute; reflexivity|].
  eexists. split; [vm_compute; reflexivity|].
  match goal with
  | |- res_citations ?r = _ ∧ _ =>
      destruct (Hchat r) as [Hc Hl]; [vm_compute; reflexivity|]
  end.
  split; [exact Hc|]. rewrite Hl. vm_compute. reflexivity.
Defined.

End citation_claim.

(** * Prompt templates *)

Section template_claim.
Import IntentService RAGService Claims ServiceClaims StreamShape Samples.

Lemma selected_template_unmapped tid :
  tid ∉ dom prompt_templates → selected_template tid = default_v1.
Proof.
  intros Hd. apply not_elem_of_dom in Hd. unfold selected_template.
  by rewrite Hd.
Qed.

Lemma generate_in_prefix `{Runtime} streaming query sid ir docs :
  EGenerate streaming (selected_template (suggested_prompt_template ir))
    (_format_docs docs) query
  ∈ generation_prefix streaming query sid ir docs.
Proof.
  unfold generation_prefix. apply elem_of_cons. right.
  apply elem_of_app. right. apply elem_of_cons. by left.
Qed.

Lemma prompt_selected_in_prefix `{Runtime} streaming query sid ir docs :
  ELog sid "PROMPT_SELECTED"
    (dict [("template_id", JStr (suggested_prompt_template ir))])
  ∈ generation_prefix streaming query sid ir docs.
Proof. unfold generation_prefix. apply elem_of_cons. by left. Qed.

Lemma generation_prefix_in_chat `{Runtime} self query sid ir e :
  outcome (classify (intent_service self) query) = Ok ir →
  e ∈ generation_prefix false query sid ir (retrieved self query ir) →
  e ∈ trace (chat self query sid).
Proof.
  intros Hc He. rewrite (chat_eq _ _ _ _ Hc). cbn [trace fst].
  apply elem_of_cons. right. apply elem_of_app. right.
  apply elem_of_cons. right. apply elem_of_app. right.
  rewrite chat_generation_eq. destruct (llm_ainvoke self _ _ _); cbn [trace fst].
  - apply elem_of_app. by left.
  - done.
Qed.

Lemma generation_prefix_in_chat_stream `{Runtime} self query sid ir e :
  outcome (classify (intent_service self) query) = Ok ir →
  e ∈ generation_prefix true query sid ir (retrieved self query ir) →
  e ∈ effects (trace (chat_stream self query sid)).
Proof.
  intros Hc He. rewrite (chat_stream_eq _ _ _ _ Hc). cbn [trace fst].
  destruct (stream_generation_effects self query sid ir (retrieved self query ir))
    as (rest & Hg & _).
  autorewrite with stream. rewrite Hg.
  apply elem_of_cons. right. apply elem_of_app. right.
  apply elem_of_cons. right. apply elem_of_app. right.
  apply elem_of_app. right. apply elem_of_app. left. done.
Qed.

(** C10: the allow-list of the intent service has eight template ids,
    the template mapping of the service five of them.  For every other
    suggested id, bug_fix_v1, code_review_v1 and refactor_v1 among them,
    prompt selection hands out the default_v1 template, and both [chat]
    and [chat_stream] run generation with it, without a word: the log
    entry and the response metadata still name the suggested id. *)
Theorem unmapped_templates_fall_back_to_default :
  size allowed_template_ids = 8
  ∧ dom prompt_templates =
      {[ "default_v1"; "code_search_v1"; "code_explain_v1"; "general_qa_v1";
         "casual_chat_v1" ]}
  ∧ dom prompt_templates ⊆ allowed_template_ids
  ∧ (∀ tid, tid ∈ ["bug_fix_v1"; "code_review_v1"; "refactor_v1"] →
       tid ∈ allowed_template_ids ∧ tid ∉ dom prompt_templates)
  ∧ (∀ tid, tid ∉ dom prompt_templates → select_prompt tid = Ok default_v1)
  ∧ (∀ (R : Runtime) (self : service) (query sid : string) ir,
       outcome (classify (intent_service self) query) = Ok ir →
       suggested_prompt_template ir ∉ dom prompt_templates →
       EGenerate false default_v1 (_format_docs (retrieved self query ir)) query
         ∈ trace (chat self query sid)
       ∧ ELog sid "PROMPT_SELECTED"
           (dict [("template_id", JStr (suggested_prompt_template ir))])
         ∈ trace (chat self query sid)
       ∧ (∀ res, outcome (chat self query sid) = Ok res →
            res_metadata res
              = {[ "template_used" := JStr (suggested_prompt_template ir) ]})
       ∧ EGenerate true default_v1 (_format_docs (retrieved self query ir)) query
         ∈ effects (trace (chat_stream self query sid))).
Proof.
  split; [vm_compute; reflexivity|].
  split; [apply (bool_decide_unpack _); vm_compute; exact I|].
  split; [apply (bool_decide_unpack _); vm_compute; exact I|].
  split.
  { intros tid Hin. repeat (apply elem_of_cons in Hin as [->|Hin]);
      [..|by apply elem_of_nil in Hin];
      split; apply (bool_decide_unpack _); vm_compute; exact I. }
  split.
  { intros tid Hd. by rewrite select_prompt_eq, selected_template_unmapped. }
  intros R self query sid ir Hc Hd.
  rewrite <- (selected_template_unmapped _ Hd). split_and!.
  - apply (generation_prefix_in_chat _ _ _ _ _ Hc), generate_in_prefix.
  - apply (generation_prefix_in_chat _ _ _ _ _ Hc), prompt_selected_in_prefix.
  - intros res. rewrite (chat_eq _ _ _ _ Hc). cbn [outcome snd].
    rewrite chat_generation_eq. destruct (llm_ainvoke self _ _ _); [|done].
    cbn [outcome snd]. by intros [= <-].
  - apply (generation_prefix_in_chat_stream _ _ _ _ _ Hc), generate_in_prefix.
Qed.

Lemma unmapped_templates_fall_back_to_default_witness :
  EGenerate false default_v1
    (_format_docs
       (retrieved (sample_service bug_fix_fields) "fix the crash" bug_fix_result))
    "fix the crash"
  ∈ trace (chat (sample_service bug_fix_fields) "fix the crash" "s-1").
Proof.
  apply (proj2 (proj2 (proj2 (proj2 (proj2
           unmapped_templates_fall_back_to_default))))
           strict_runtime (sample_service bug_fix_fields) "fix the crash" "s-1"
           bug_fix_result).
  - vm_compute. reflexivity.
  - apply (bool_decide_unpack _). vm_compute. exact I.
Defined.

End template_claim.

(** * The short circuit on clarification *)

Section clarification_claim.
Import IntentService RAGService RAGPipeline Claims ServiceClaims StreamShape
  ClarificationClaims Samples.

Lemma run_before_stage ms stage : ∀ i ctx,
  Forall (λ e, effect_stage e = Some stage) (trace (run_before ms i stage ctx)).
Proof.
  induction ms as [|m ms IH]; intros i ctx; cbn [run_before]; [constructor|].
  destruct (before_stage m) as [hook|].
  - rewrite tell_bind. destruct (hook stage ctx) as [ctx'|e].
    + rewrite (bind_eq _ _ ctx') by done. cbn. constructor; [done|]. apply IH.
    + rewrite (bind_eq_raise _ _ e) by done. cbn. by repeat constructor.
  - rewrite (bind_eq (ret ctx) _ ctx) by done. apply IH.
Qed.

Lemma run_after_stage ms stage : ∀ i ctx,
  Forall (λ e, effect_stage e = Some stage) (trace (run_after ms i stage ctx)).
Proof.
  induction ms as [|m ms IH]; intros i ctx; cbn [run_after]; [constructor|].
  destruct (after_stage m) as [hook|].
  - rewrite tell_bind. destruct (hook stage ctx) as [ctx'|e].
    + rewrite (bind_eq _ _ ctx') by done. cbn. constructor; [done|]. apply IH.
    + rewrite (bind_eq_raise _ _ e) by done. cbn. by repeat constructor.
  - rewrite (bind_eq (ret ctx) _ ctx) by done. apply IH.
Qed.

Lemma _execute_stage_trace self stage ctx :
  Forall (λ e, effect_stage e = Some stage) (trace (_execute_stage self stage ctx)).
Proof.
  unfold _execute_stage. destruct (nodes self !! stage) as [node|]; [|constructor].
  pose proof (run_before_stage (middlewares self) stage 0 ctx) as Hb.
  destruct (run_before (middlewares self) 0 stage ctx) as [tb [ctx'|e]] eqn:E.
  2: { by rewrite (bind_eq_raise _ _ e). }
  rewrite (bind_eq _ _ ctx') by done. cbn [trace fst] in *.
  apply Forall_app. split; [done|]. rewrite tell_bind. cbn [fst].
  constructor; [done|]. rewrite lift_bind. destruct (node ctx'); [|constructor].
  apply run_after_stage.
Qed.

Lemma execute_clarification self query kw ctx0 ctx1 ctx2 :
  PipelineContext_init query kw = Ok ctx0 →
  outcome (_execute_stage self QUERY_PARSE ctx0) = Ok ctx1 →
  outcome (_execute_stage self INTENT_CLASSIFY ctx1) = Ok ctx2 →
  needs_clarification ctx2 = true →
  execute self query kw =
    (trace (_execute_stage self QUERY_PARSE ctx0)
     ++ trace (_execute_stage self INTENT_CLASSIFY ctx1),
     Ok (set_response ctx2 clarification_response)).
Proof.
  intros Hinit H1 H2 Hclar. unfold execute.
  rewrite Hinit, lift_bind, (bind_eq _ _ ctx1 H1), (bind_eq _ _ ctx2 H2), Hclar.
  cbn [trace outcome fst snd ret]. by rewrite !app_nil_r.
Qed.

(** C3, refuted as worded on the service: [chat] has no check of
    [requires_clarification]; a request that needs clarification reaches
    both document sources and the generation chain. *)
Lemma chat_goes_on_after_clarification : ¬ chat_short_circuits_on_clarification.
Proof.
  intros Hclaim.
  specialize (Hclaim strict_runtime (sample_service vague_fields)
                "can you help?" "s-1" vague_result).
  assert (Hall : Forall (λ e, is_source_call e = false ∧ is_generate_call e = false)
            (trace (chat (sample_service vague_fields) "can you help?" "s-1")))
    by (apply Hclaim; vm_compute; reflexivity).
  rewrite Forall_forall in Hall.
  destruct (Hall (ESource 0 "can you help?")) as [Hsrc _]; [|discriminate Hsrc].
  apply list_elem_of_lookup. exists 3. vm_compute. reflexivity.
Qed.

End clarification_claim.

Section clarification_theorem.
Import IntentService RAGService RAGPipeline Claims ServiceClaims StreamShape
  ClarificationClaims Samples.

Lemma chat_retrieval_calls `{Runtime} self query sid ir e :
  intent ir ≠ CASUAL_CHAT →
  e ∈ trace (retrieval_service self query) →
  e ∈ trace (chat_retrieval self query sid ir).
Proof.
  intros Hnc He. unfold chat_retrieval. rewrite bool_decide_eq_true_2 by done.
  destruct (outcome (retrieval_service self query)) as [docs|err] eqn:E.
  - rewrite (try_except_ok _ _ docs).
    + rewrite (bind_eq _ _ docs) by done. cbn [trace fst].
      apply elem_of_app. by left.
    + rewrite (bind_eq _ _ docs) by done. unfold log_retrieval_success.
      by rewrite log_bind.
  - rewrite (try_except_raise _ _ err).
    + rewrite (bind_eq_raise _ _ err) by done. cbn [trace fst].
      apply elem_of_app. by left.
    + by rewrite (bind_eq_raise _ _ err) by done.
Qed.

(** C3, amended: in [RAGPipeline.execute], once the intent stage has left
    a context that requires clarification, the run returns that context
    with the clarification response set; its trace is that of the
    query-parse and intent stages and no node of a later stage has been
    run.  [RAGService.chat] has no such check: whatever the flag, it goes
    on to retrieval (unless the intent is casual chat) and to generation. *)
Theorem clarification_short_circuit :
  (∀ (self : pipeline) (query : string) (kw : kwargs) ctx0 ctx1 ctx2,
     PipelineContext_init query kw = Ok ctx0 →
     outcome (_execute_stage self QUERY_PARSE ctx0) = Ok ctx1 →
     outcome (_execute_stage self INTENT_CLASSIFY ctx1) = Ok ctx2 →
     needs_clarification ctx2 = true →
     outcome (execute self query kw)
       = Ok (set_response ctx2
               "I need more information to understand your question...")
     ∧ trace (execute self query kw)
       = trace (_execute_stage self QUERY_PARSE ctx0)
         ++ trace (_execute_stage self INTENT_CLASSIFY ctx1)
     ∧ Forall (λ e, effect_stage e = Some QUERY_PARSE
                    ∨ effect_stage e = Some INTENT_CLASSIFY)
         (trace (execute self query kw))
     ∧ (∀ stage, stage ∈ later_stages →
                 ENode stage ∉ trace (execute self query kw)))
  ∧ (∀ (R : Runtime) (self : RAGService.service) (query sid : string) ir,
       outcome (classify (intent_service self) query) = Ok ir →
       EGenerate false (selected_template (suggested_prompt_template ir))
         (_format_docs (retrieved self query ir)) query
         ∈ trace (chat self query sid)
       ∧ (intent ir ≠ CASUAL_CHAT →
          ∀ e, e ∈ trace (retrieval_service self query) →
               e ∈ trace (chat self query sid))).
Proof.
  split.
  - intros self query kw ctx0 ctx1 ctx2 Hinit H1 H2 Hclar.
    rewrite (execute_clarification _ _ _ _ _ _ Hinit H1 H2 Hclar).
    cbn [trace outcome fst snd].
    assert (Hall : Forall (λ e, effect_stage e = Some QUERY_PARSE
                                ∨ effect_stage e = Some INTENT_CLASSIFY)
              (trace (_execute_stage self QUERY_PARSE ctx0)
               ++ trace (_execute_stage self INTENT_CLASSIFY ctx1))).
    { apply Forall_app. split.
      - eapply Forall_impl; [apply _execute_stage_trace|]. by left.
      - eapply Forall_impl; [apply _execute_stage_trace|]. by right. }
    split_and!; [done..|].
    intros stage Hlater Hin. rewrite Forall_forall in Hall.
    destruct (Hall _ Hin) as [Hs|Hs]; cbn in Hs; injection Hs as ->;
      unfold later_stages in Hlater;
      repeat (apply elem_of_cons in Hlater as [Hlater|Hlater];
              [discriminate Hlater|]);
      by apply elem_of_nil in Hlater.
  - intros R self query sid ir Hc. split.
    + apply (generation_prefix_in_chat _ _ _ _ _ Hc), generate_in_prefix.
    + intros Hnc e He. rewrite (chat_eq _ _ _ _ Hc). cbn [trace fst].
      apply elem_of_cons. right. apply elem_of_app. right.
      apply elem_of_cons. right. apply elem_of_app. left.
      by apply chat_retrieval_calls.
Qed.

Lemma clarification_short_circuit_witness :
  outcome (execute (guarded_pipeline vague_result) "can you help?" sample_kwargs)
    = Ok {| ctx_query := "can you help?";
            ctx_session_id := "s-1";
            ctx_user_id := None;
            ctx_intent := Some vague_result;
            ctx_retrieval_results := None;
            ctx_context := None;
            ctx_prompt := None;
            ctx_response :=
              Some "I need more information to understand your question...";
            ctx_metadata := ∅ |}
  ∧ trace (execute (guarded_pipeline vague_result) "can you help?" sample_kwargs)
    = [ENode INTENT_CLASSIFY].
Proof.
  destruct (proj1 clarification_short_circuit (guarded_pipeline vague_result)
              "can you help?" sample_kwargs
              {| ctx_query := "can you help?"; ctx_session_id := "s-1";
                 ctx_user_id := None; ctx_intent := None;
                 ctx_retrieval_results := None; ctx_context := None;
                 ctx_prompt := None; ctx_response := None;
                 ctx_metadata := ∅ |}
              {| ctx_query := "can you help?"; ctx_session_id := "s-1";
                 ctx_user_id := None; ctx_intent := None;
                 ctx_retrieval_results := None; ctx_context := None;
                 ctx_prompt := None; ctx_response := None;
                 ctx_metadata := ∅ |}
              {| ctx_query := "can you help?"; ctx_session_id := "s-1";
                 ctx_user_id := None; ctx_intent := Some vague_result;
                 ctx_retrieval_results := None; ctx_context := None;
                 ctx_prompt := None; ctx_response := None;
                 ctx_metadata := ∅ |})
    as (Hout & Htrace & _); try (vm_compute; reflexivity).
  split; [exact Hout|]. rewrite Htrace. vm_compute. reflexivity.
Defined.

End clarification_theorem.

(** * More on hybrid retrieval *)

Section retrieval_extras.
Import RetrievalService SyncRetrieval RetrievalClaims.

Lemma filter_other_contents (d : Document) (docs : list Document) :
  page_content d ∉ page_content <$> docs →
  filter (λ d', page_content d' ≠ page_content d) docs = docs.
Proof.
  induction docs as [|d' docs IH]; [done|].
  rewrite fmap_cons. intros [Hne Hd]%not_elem_of_cons.
  rewrite filter_cons_True by congruence. f_equal. by apply IH.
Qed.

Lemma first_occurrence_wins_distinct (docs : list Document) :
  NoDup (page_content <$> docs) → first_occurrence_wins docs = docs.
Proof.
  induction docs as [|d docs IH]; [done|]. cbn [first_occurrence_wins].
  rewrite fmap_cons. intros [Hd Hnd]%NoDup_cons.
  rewrite (IH Hnd). f_equal. by apply filter_other_contents.
Qed.

(** X1: deduplication is idempotent and never makes the list longer: a
    merged result fed to [_rerank] again comes back as it is. *)
Theorem _rerank_idempotent (docs : list Document) :
  _rerank (_rerank docs) = _rerank docs
  ∧ length (_rerank docs) ≤ length docs.
Proof.
  rewrite !_rerank_first_occurrence_wins. split.
  - apply first_occurrence_wins_distinct, first_occurrence_wins_NoDup.
  - apply sublist_length, first_occurrence_wins_sublist.
Qed.

(** X2: [_rerank] hands a list back unchanged exactly when no two of its
    documents have the same content. *)
Theorem _rerank_unchanged_iff_distinct (docs : list Document) :
  _rerank docs = docs ↔ NoDup (page_content <$> docs).
Proof.
  rewrite _rerank_first_occurrence_wins. split.
  - intros <-. apply first_occurrence_wins_NoDup.
  - apply first_occurrence_wins_distinct.
Qed.

Lemma invoke_all_eq rs query : ∀ i all_docs,
  invoke_all rs i query all_docs =
    (imap (λ j _, ESource (i + j) query) rs,
     Ok (all_docs ++ successful_docs rs query)).
Proof.
  induction rs as [|r rs IH]; intros i all_docs; cbn [invoke_all].
  { unfold successful_docs. cbn. by rewrite app_nil_r. }
  rewrite successful_docs_cons, imap_cons, Nat.add_0_r.
  destruct (r query) as [docs|e].
  - rewrite (bind_eq _ _ (all_docs ++ docs)) by done.
    rewrite IH. cbn. rewrite <- app_assoc. do 2 f_equal.
    apply imap_ext. intros j r' _. cbn. f_equal. lia.
  - rewrite (bind_eq _ _ all_docs) by done.
    rewrite IH. cbn. do 2 f_equal.
    apply imap_ext. intros j r' _. cbn. f_equal. lia.
Qed.

(** X3: the synchronous path of the ensemble retriever (a loop with a
    [try]/[except] around each retriever) does what the asynchronous path
    (gather, then keep the lists) does: the same invocations in the same
    order and the same merged result, a failing retriever being skipped. *)
Theorem sync_retrieval_agrees (self : EnsembleRetriever) (query : string) :
  _get_relevant_documents self query = _aget_relevant_documents self query.
Proof.
  unfold _get_relevant_documents.
  rewrite _aget_relevant_documents_eq, invoke_all_eq.
  unfold mbind, W_bind. rewrite bind_ok. cbn [ret fst snd app].
  by rewrite app_nil_r, _rerank_first_occurrence_wins.
Qed.

End retrieval_extras.

Section mock_retrievers.
Import RetrievalService RetrievalClaims.

Lemma vector_content_inj query :
  Inj (=) (=) (λ i : nat,
    "Vector result for " +:+ query +:+ ": This is relevant content chunk " +:+ pretty i).
Proof.
  intros i j Heq. do 3 apply (inj (String.app _)) in Heq.
  by apply (inj pretty).
Qed.

Lemma keyword_content_inj query :
  Inj (=) (=) (λ i : nat,
    "Keyword result for " +:+ query +:+ ": Function definition and usage " +:+ pretty i).
Proof.
  intros i j Heq. do 3 apply (inj (String.app _)) in Heq.
  by apply (inj pretty).
Qed.

Lemma mock_vector_docs k query :
  ∃ docs, MockVectorRetriever k query = Ok docs
          ∧ length docs = k
          ∧ page_content <$> docs =
              (λ i : nat, "Vector result for " +:+ query +:+
                          ": This is relevant content chunk " +:+ pretty i)
              <$> seq 0 k.
Proof.
  eexists. split; [reflexivity|]. split.
  - by rewrite length_fmap, length_seq.
  - by rewrite <- list_fmap_compose.
Qed.

Lemma mock_keyword_docs k query :
  ∃ docs, MockKeywordRetriever k query = Ok docs
          ∧ length docs = k
          ∧ page_content <$> docs =
              (λ i : nat, "Keyword result for " +:+ query +:+
                          ": Function definition and usage " +:+ pretty i)
              <$> seq 0 k.
Proof.
  eexists. split; [reflexivity|]. split.
  - by rewrite length_fmap, length_seq.
  - by rewrite <- list_fmap_compose.
Qed.

Lemma mock_docs_distinct (kv kk : nat) (query : string) :
  ∃ vdocs kdocs,
    MockVectorRetriever kv query = Ok vdocs
    ∧ MockKeywordRetriever kk query = Ok kdocs
    ∧ length vdocs = kv ∧ length kdocs = kk
    ∧ NoDup (page_content <$> (vdocs ++ kdocs)).
Proof.
  destruct (mock_vector_docs kv query) as (vdocs & Hv & Hlv & Hcv).
  destruct (mock_keyword_docs kk query) as (kdocs & Hk & Hlk & Hck).
  exists vdocs, kdocs. split_and!; try done.
  rewrite fmap_app, Hcv, Hck. apply NoDup_app. split_and!.
  - apply (NoDup_fmap_2 _ (Inj0 := vector_content_inj query)), NoDup_seq.
  - intros c (i & -> & _)%list_elem_of_fmap (j & Heq & _)%list_elem_of_fmap.
    change ("Keyword result for " +:+ ?a)
      with (String "K" ("eyword result for " +:+ a)) in Heq.
    change ("Vector result for " +:+ ?a)
      with (String "V" ("ector result for " +:+ a)) in Heq.
    discriminate Heq.
  - apply (NoDup_fmap_2 _ (Inj0 := keyword_content_inj query)), NoDup_seq.
Qed.

Lemma ensemble_of_two (r1 r2 : BaseRetriever) (ws : list float) (query : string)
    (docs1 docs2 : list Document) :
  r1 query = Ok docs1 → r2 query = Ok docs2 →
  NoDup (page_content <$> (docs1 ++ docs2)) →
  _aget_relevant_documents {| retrievers := [r1; r2]; weights := ws |} query
  = ([ESource 0 query; ESource 1 query], Ok (docs1 ++ docs2)).
Proof.
  intros H1 H2 Hnd. rewrite _aget_relevant_documents_eq. cbn [retrievers imap].
  rewrite !successful_docs_cons, H1, H2. unfold successful_docs at 1.
  cbn [fmap list_fmap mjoin list_join]. rewrite app_nil_r.
  by rewrite first_occurrence_wins_distinct.
Qed.

(** X4: for every query and every [k], the two mock retrievers return
    [k] documents each, all with different contents, also across the two;
    so the ensemble over them drops nothing: the result is the vector
    documents followed by the keyword documents, ten for the service as
    it is constructed. *)
Theorem mock_retrieval_keeps_every_document (kv kk : nat) (query : string) :
  ∃ vdocs kdocs,
    MockVectorRetriever kv query = Ok vdocs
    ∧ MockKeywordRetriever kk query = Ok kdocs
    ∧ length vdocs = kv ∧ length kdocs = kk
    ∧ NoDup (page_content <$> (vdocs ++ kdocs))
    ∧ _aget_relevant_documents
        {| retrievers := [MockVectorRetriever kv; MockKeywordRetriever kk];
           weights := [0.7%float; 0.3%float] |} query
      = ([ESource 0 query; ESource 1 query], Ok (vdocs ++ kdocs))
    ∧ (kv = 5 → kk = 5 →
       retrieve __init__ query
         = ([ESource 0 query; ESource 1 query], Ok (vdocs ++ kdocs))
       ∧ length (vdocs ++ kdocs) = 10).
Proof.
  destruct (mock_docs_distinct kv kk query)
    as (vdocs & kdocs & Hv & Hk & Hlv & Hlk & Hnd).
  exists vdocs, kdocs.
  pose proof (ensemble_of_two _ _ [0.7%float; 0.3%float] query _ _ Hv Hk Hnd)
    as Hens.
  split_and!; try done.
  intros -> ->. split; [exact Hens|]. by rewrite length_app, Hlv, Hlk.
Qed.

Lemma three_keys_source (a b c : json) :
  (list_to_map [("source", a); ("type", b); ("score", c)] : gmap string json)
    !! "source" = Some a.
Proof. vm_compute. reflexivity. Qed.

Lemma three_keys_score (a b c : json) :
  (list_to_map [("source", a); ("type", b); ("score", c)] : gmap string json)
    !! "score" = Some c.
Proof. vm_compute. reflexivity. Qed.

Lemma mock_vector_metadata k query docs :
  MockVectorRetriever k query = Ok docs →
  Forall (λ d, ∃ s f, metadata d !! "source" = Some (JStr s)
                      ∧ metadata d !! "score" = Some (JFloat f)) docs.
Proof.
  intros [= <-]. apply Forall_fmap, Forall_true. intros i. cbv [compose metadata].
  eexists _, _. split; [apply three_keys_source | apply three_keys_score].
Qed.

Lemma mock_keyword_metadata k query docs :
  MockKeywordRetriever k query = Ok docs →
  Forall (λ d, ∃ s f, metadata d !! "source" = Some (JStr s)
                      ∧ metadata d !! "score" = Some (JFloat f)) docs.
Proof.
  intros [= <-]. apply Forall_fmap, Forall_true. intros i. cbv [compose metadata].
  eexists _, _. split; [apply three_keys_source | apply three_keys_score].
Qed.

Lemma mock_retrieval_keeps_every_document_witness :
  ∃ docs, retrieve __init__ "lexer" = ([ESource 0 "lexer"; ESource 1 "lexer"], Ok docs)
          ∧ length docs = 10.
Proof.
  destruct (mock_retrieval_keeps_every_document 5 5 "lexer")
    as (vdocs & kdocs & _ & _ & _ & _ & _ & _ & Hdef).
  destruct (Hdef eq_refl eq_refl) as [Hr Hl].
  exists (vdocs ++ kdocs). split; [exact Hr | exact Hl].
Defined.

End mock_retrievers.

Section intent_extras.
Import IntentService Claims.
Context `{Runtime}.

Lemma post_process_dict parsed r :
  post_process parsed = Ok r → ∃ m, parsed = JDict m.
Proof. destruct parsed; try done. eauto. Qed.

(** X5: whatever the chain returns or raises, the template id of the
    result of [classify] is one of the eight ids of the allow-list. *)
Theorem classify_template_always_allowed self query :
  ∃ r, outcome (classify self query) = Ok r
       ∧ suggested_prompt_template r ∈ allowed_template_ids.
Proof.
  assert (Hfb : suggested_prompt_template fallback_result ∈ allowed_template_ids)
    by (apply (bool_decide_unpack _); vm_compute; exact I).
  rewrite classify_eq. destruct (chain self query) as [parsed|e]; cbn; [|eauto].
  destruct (post_process parsed) as [r|e] eqn:Hp; cbn; [|eauto].
  exists r. split; [done|].
  destruct (post_process_dict _ _ Hp) as [m ->].
  apply post_process_inv in Hp as (_ & _ & _ & _ & Hrec & Hkeep).
  destruct (default JNull (m !! "suggested_prompt_template")) as [| | | |s| |] eqn:E;
    try (by eapply _match_template_allowed, Hrec; intros ? [=]).
  destruct (decide (s ∈ allowed_template_ids)) as [Hs|Hs].
  - by rewrite (Hkeep s eq_refl Hs).
  - eapply _match_template_allowed, Hrec. by intros ? [= <-].
Qed.

Lemma table_entry_general_qa :
  default "default_v1" (template_map !! "general_qa") = table_entry GENERAL_QA.
Proof. reflexivity. Qed.

(** X6: field by field.  When the chain returns an object whose present
    fields are well typed (a category of the closed set, a float, an
    object, an allow-listed template id, a boolean), [classify] returns
    each present field as it is and fills each absent one with its
    default: general_qa, 0.0, no entities, the table entry of the
    category, false.  Nothing is printed. *)
Theorem classify_fills_missing_fields self query (m : gmap string json)
    (oi : option IntentType) (oc : option float) (oe : option (gmap string json))
    (ot : option string) (ob : option bool) :
  chain self query = Ok (JDict m) →
  m !! "intent" = (λ i, JStr (IntentType_value i)) <$> oi →
  m !! "confidence" = JFloat <$> oc →
  m !! "entities" = JDict <$> oe →
  m !! "suggested_prompt_template" = JStr <$> ot →
  m !! "requires_clarification" = JBool <$> ob →
  (∀ t, ot = Some t → t ∈ allowed_template_ids) →
  classify self query =
    ([EIntentChain query],
     Ok {| intent := default GENERAL_QA oi;
           confidence := default 0.0%float oc;
           entities := default ∅ oe;
           suggested_prompt_template :=
             default (table_entry (default GENERAL_QA oi)) ot;
           requires_clarification := default false ob |}).
Proof.
  intros Hc Hi Hconf He Ht Hb Hallowed.
  apply (classify_post_ok _ _ _ _ Hc).
  unfold post_process, dict_get. cbn [mbind result_bind].
  rewrite Hi, Hconf, He, Ht, Hb.
  assert (Hlabel :
    (in_dict (default (JStr "general_qa")
                ((λ i, JStr (IntentType_value i)) <$> oi)) _value2member_map_
     ≫= λ known : bool,
       if known
       then IntentType_call (default (JStr "general_qa")
                               ((λ i, JStr (IntentType_value i)) <$> oi))
       else Ok GENERAL_QA) = Ok (default GENERAL_QA oi)).
  { destruct oi as [i|]; [|reflexivity]. cbn [fmap option_fmap option_map default from_option id].
    unfold in_dict, IntentType_call. rewrite value2member_value.
    rewrite bool_decide_eq_true_2 by eauto. reflexivity. }
  assert (Hmatch :
    _match_template (default (JStr "general_qa")
                       ((λ i, JStr (IntentType_value i)) <$> oi))
    = Ok (table_entry (default GENERAL_QA oi))).
  { destruct oi as [i|]; reflexivity. }
  destruct (in_dict _ _) as [known|e] eqn:Hk; cbn [mbind result_bind] in *;
    [|discriminate Hlabel].
  rewrite Hlabel. cbn [mbind result_bind].
  assert (Htpl :
    ((if negb (truthy (default JNull (JStr <$> ot))) then Ok true
      else if eq_str (default JNull (JStr <$> ot)) "template_id" then Ok true
      else not_in_set (default JNull (JStr <$> ot)) allowed_template_ids)
     ≫= λ replace : bool,
       if replace
       then _match_template (default (JStr "general_qa")
                               ((λ i, JStr (IntentType_value i)) <$> oi))
            ≫= λ t : string, Ok (JStr t)
       else Ok (default JNull (JStr <$> ot)))
    = Ok (JStr (default (table_entry (default GENERAL_QA oi)) ot))).
  { destruct ot as [t|]; cbn [fmap option_fmap option_map default from_option id].
    - specialize (Hallowed t eq_refl). cbn [truthy eq_str not_in_set].
      rewrite (bool_decide_eq_false_2 (t = ""))
        by (intros ->; by destruct empty_not_allowed).
      rewrite (bool_decide_eq_false_2 (t = "template_id"))
        by (intros ->; by destruct placeholder_not_allowed).
      rewrite bool_decide_eq_true_2 by done. reflexivity.
    - cbn [truthy negb mbind result_bind]. rewrite Hmatch. reflexivity. }
  destruct (if negb (truthy (default JNull (JStr <$> ot))) then _ else _)
    as [replace|e]; cbn [mbind result_bind] in *; [|discriminate Htpl].
  destruct (if replace then _ else _) as [tpl|e];
    cbn [mbind result_bind] in *; [|discriminate Htpl].
  injection Htpl as ->.
  unfold IntentResult_init.
  destruct oc, oe, ob; cbn [fmap option_fmap option_map default from_option id];
    rewrite validate_float_float, validate_dict_dict, validate_str_str,
      validate_bool_bool; reflexivity.
Qed.

(** X7: when the chain returns JSON that is not an object (a list, a
    string, a number, null), [classify] returns the safe default and
    prints that the value has no attribute [get]. *)
Theorem classify_rejects_non_object self query parsed :
  chain self query = Ok parsed →
  (∀ m, parsed ≠ JDict m) →
  classify self query =
    ([EIntentChain query;
      EPrint ("Intent classification error: '" +:+ type_name parsed +:+
              "' object has no attribute 'get'")],
     Ok fallback_result).
Proof.
  intros Hc Hnd. rewrite (classify_post_raise _ _ parsed
    (Exn "AttributeError"
       ("'" +:+ type_name parsed +:+ "' object has no attribute 'get'")) Hc);
    [done|].
  destruct parsed as [| | | | | |m]; try done. by destruct (Hnd m).
Qed.

End intent_extras.

Section intent_extras_witnesses.
Import IntentService Claims.

Lemma classify_fills_missing_fields_witness :
  classify (answering {[ "intent" := JStr "bug_fix"; "note" := JInt 1 ]}) "fix it" =
    ([EIntentChain "fix it"],
     Ok {| intent := BUG_FIX; confidence := 0.0%float; entities := ∅;
           suggested_prompt_template := "bug_fix_v1";
           requires_clarification := false |}).
Proof.
  apply (classify_fills_missing_fields
           (answering {[ "intent" := JStr "bug_fix"; "note" := JInt 1 ]}) "fix it"
           {[ "intent" := JStr "bug_fix"; "note" := JInt 1 ]}
           (Some BUG_FIX) None None None None);
    try (vm_compute; reflexivity).
  intros t [=].
Defined.

Lemma classify_rejects_non_object_witness :
  classify {| chain := λ _, Ok (JList [JStr "bug_fix"]) |} "fix it" =
    ([EIntentChain "fix it";
      EPrint "Intent classification error: 'list' object has no attribute 'get'"],
     Ok fallback_result).
Proof.
  apply (classify_rejects_non_object
           {| chain := λ _, Ok (JList [JStr "bug_fix"]) |} "fix it"
           (JList [JStr "bug_fix"])); [reflexivity|].
  intros m [=].
Defined.

End intent_extras_witnesses.

(** * More on the RAG service *)

Section service_extras.
Import IntentService RAGService Claims ServiceClaims StreamShape
  ClarificationClaims Samples.
Context `{Runtime}.

(** X8: [chat] raises exactly when the generation call raises, and then
    with that exception; a failure of the intent classifier or of the
    retrieval service never surfaces.  When generation answers, the
    result carries the answer, the session id it was given, the intent,
    one citation per retrieved document and the suggested template id. *)
Theorem chat_raises_only_from_generation (self : service) (query sid : string) :
  ∃ ir,
    outcome (classify (intent_service self) query) = Ok ir
    ∧ outcome (chat self query sid) =
        (llm_ainvoke self (selected_template (suggested_prompt_template ir))
           (_format_docs (retrieved self query ir)) query
         ≫= λ text,
           Ok {| res_session_id := sid;
                 res_response := text;
                 res_intent := IntentResult_dict ir;
                 res_citations := citation_of <$> retrieved self query ir;
                 res_metadata :=
                   {[ "template_used" := JStr (suggested_prompt_template ir) ]} |})
    ∧ (∀ e, outcome (chat self query sid) = Raise e ↔
            llm_ainvoke self (selected_template (suggested_prompt_template ir))
              (_format_docs (retrieved self query ir)) query = Raise e).
Proof.
  destruct (classify_total (intent_service self) query) as [ir Hc]. exists ir.
  split; [exact Hc|]. rewrite (chat_eq _ _ _ _ Hc), outcome_pair.
  rewrite chat_generation_eq.
  destruct (llm_ainvoke self _ _ query) as [text|e']; cbn;
    (split; [done|]); intros e0; split; congruence.
Qed.

Lemma retrieved_failed self query ir e :
  intent ir ≠ CASUAL_CHAT →
  outcome (retrieval_service self query) = Raise e →
  retrieved self query ir = [].
Proof.
  intros Hnc He. unfold retrieved. rewrite bool_decide_eq_true_2 by done.
  by rewrite He.
Qed.

Lemma chat_retrieval_failed self query sid ir e :
  intent ir ≠ CASUAL_CHAT →
  outcome (retrieval_service self query) = Raise e →
  chat_retrieval self query sid ir =
    (trace (retrieval_service self query)
     ++ [EPrint ("Retrieval failed: " +:+ exn_str e);
         ELog sid "RETRIEVAL_FAILED" (dict [("error", JStr (exn_str e))])],
     Ok []).
Proof.
  intros Hnc He. unfold chat_retrieval. rewrite bool_decide_eq_true_2 by done.
  rewrite (try_except_raise _ _ e) by (by rewrite (bind_eq_raise _ _ e)).
  rewrite (bind_eq_raise _ _ e) by done. reflexivity.
Qed.

(** X9: when the retrieval service raises on a request that is not casual
    chat, [chat] prints the failure, logs RETRIEVAL_FAILED and goes on:
    generation is called with an empty context, and the result, if
    generation answers, has no citations. *)
Theorem chat_survives_retrieval_failure (self : service) (query sid : string)
    (ir : IntentResult) (e : exn) :
  outcome (classify (intent_service self) query) = Ok ir →
  intent ir ≠ CASUAL_CHAT →
  outcome (retrieval_service self query) = Raise e →
  chat self query sid =
    (ELog sid "START_REQUEST" (dict [("query", JStr query)])
     :: trace (classify (intent_service self) query)
     ++ ELog sid "INTENT_CLASSIFIED" (IntentResult_dict ir)
     :: trace (retrieval_service self query)
     ++ EPrint ("Retrieval failed: " +:+ exn_str e)
     :: ELog sid "RETRIEVAL_FAILED" (dict [("error", JStr (exn_str e))])
     :: trace (chat_generation self query sid ir []),
     outcome (chat_generation self query sid ir []))
  ∧ EGenerate false (selected_template (suggested_prompt_template ir)) "" query
      ∈ trace (chat self query sid)
  ∧ (∀ res, outcome (chat self query sid) = Ok res → res_citations res = []).
Proof.
  intros Hc Hnc He.
  assert (Heq : chat self query sid =
    (ELog sid "START_REQUEST" (dict [("query", JStr query)])
     :: trace (classify (intent_service self) query)
     ++ ELog sid "INTENT_CLASSIFIED" (IntentResult_dict ir)
     :: trace (retrieval_service self query)
     ++ EPrint ("Retrieval failed: " +:+ exn_str e)
     :: ELog sid "RETRIEVAL_FAILED" (dict [("error", JStr (exn_str e))])
     :: trace (chat_generation self query sid ir []),
     outcome (chat_generation self query sid ir []))).
  { rewrite (chat_eq _ _ _ _ Hc), (retrieved_failed _ _ _ _ Hnc He).
    rewrite (chat_retrieval_failed _ _ _ _ _ Hnc He), trace_pair.
    by rewrite <- app_assoc. }
  split; [exact Heq|]. rewrite Heq, trace_pair, outcome_pair. split.
  - apply elem_of_cons. right. apply elem_of_app. right.
    apply elem_of_cons. right. apply elem_of_app. right.
    do 2 (apply elem_of_cons; right).
    rewrite chat_generation_eq.
    pose proof (generate_in_prefix false query sid ir []) as Hg.
    change (_format_docs []) with "" in Hg.
    destruct (llm_ainvoke self _ _ query); rewrite trace_pair;
      [apply elem_of_app; by left | done].
  - intros res. rewrite chat_generation_eq.
    destruct (llm_ainvoke self _ _ query); rewrite outcome_pair; [|done].
    by intros [= <-].
Qed.

End service_extras.

Section service_extras_witnesses.
Import IntentService RAGService Claims ServiceClaims StreamShape Samples.

Lemma chat_survives_retrieval_failure_witness :
  EGenerate false code_explain_v1 "" "What does this function do?"
    ∈ trace (chat (degraded_service explain_fields)
               "What does this function do?" "s-1")
  ∧ (∀ res, outcome (chat (degraded_service explain_fields)
                       "What does this function do?" "s-1") = Ok res →
            res_citations res = []).
Proof.
  refine (proj2 (chat_survives_retrieval_failure (H := strict_runtime)
           (degraded_service explain_fields)
           "What does this function do?" "s-1" explain_result
           (Exn "ConnectionError" "vector store unreachable") _ _ _)).
  - vm_compute. reflexivity.
  - discriminate.
  - reflexivity.
Defined.

End service_extras_witnesses.

(** * More on streaming and on the generation call *)

Section generation_extras.
Import IntentService RAGService Claims ServiceClaims StreamShape
  ClarificationClaims Samples.
Context `{Runtime}.

Lemma filter_nothing {A} (P : A → Prop) `{∀ x, Decision (P x)} (l : list A) :
  Forall (λ x, ¬ P x) l → filter P l = [].
Proof.
  induction 1 as [|x l Hx _ IH]; [done|]. by rewrite filter_cons_False.
Qed.

Lemma filter_everything {A} (P : A → Prop) `{∀ x, Decision (P x)} (l : list A) :
  Forall P l → filter P l = l.
Proof.
  induction 1 as [|x l Hx _ IH]; [done|]. rewrite filter_cons_True by done.
  by f_equal.
Qed.

Lemma no_model_call_not (l : list effect) :
  Forall (λ e, is_model_call e = false) l →
  Forall (λ e, ¬ is_model_call e = true) l.
Proof. intros Hl. eapply Forall_impl; [exact Hl|]. intros e ->. discriminate. Qed.

Lemma classify_model_calls self query :
  filter (λ e, is_model_call e = true) (trace (classify self query))
  = [EIntentChain query].
Proof.
  rewrite classify_eq. destruct (chain self query ≫= post_process);
    rewrite trace_pair; rewrite filter_cons_True by reflexivity;
    [reflexivity|].
  by rewrite filter_cons_False by (cbn; discriminate).
Qed.

Lemma chat_retrieval_no_model_call self query sid ir :
  Forall (λ e, is_model_call e = false) (trace (retrieval_service self query)) →
  Forall (λ e, is_model_call e = false)
    (trace (chat_retrieval self query sid ir)).
Proof.
  intros Hr. unfold chat_retrieval.
  destruct (bool_decide (intent ir ≠ CASUAL_CHAT)); [|repeat constructor].
  destruct (outcome (retrieval_service self query)) as [docs|e] eqn:E.
  - rewrite (try_except_ok _ _ docs).
    + rewrite (bind_eq _ _ docs) by done. rewrite trace_pair.
      apply Forall_app. split; [done|]. repeat constructor.
    + rewrite (bind_eq _ _ docs) by done. unfold log_retrieval_success.
      by rewrite log_bind.
  - rewrite (try_except_raise _ _ e) by (by rewrite (bind_eq_raise _ _ e)).
    rewrite (bind_eq_raise _ _ e) by done. rewrite trace_pair.
    apply Forall_app. split; [done|]. repeat constructor.
Qed.

Lemma stream_retrieval_no_model_call self query sid ir :
  Forall (λ e, is_model_call e = false) (trace (retrieval_service self query)) →
  Forall (λ e, is_model_call e = false)
    (effects (trace (stream_retrieval self query sid ir))).
Proof.
  intros Hr. rewrite stream_retrieval_eq.
  destruct (bool_decide (intent ir ≠ CASUAL_CHAT)); [|repeat constructor].
  destruct (outcome (retrieval_service self query)) as [docs|e];
    rewrite trace_pair, effects_app, effects_await;
    (apply Forall_app; split; [done|]); repeat constructor.
Qed.

Lemma generation_prefix_one_call streaming query sid ir docs :
  filter (λ e, is_model_call e = true)
    (generation_prefix streaming query sid ir docs)
  = [EGenerate streaming (selected_template (suggested_prompt_template ir))
       (_format_docs docs) query].
Proof.
  unfold generation_prefix, log_llm_input, log, tell, trace, inject, effect_trace.
  cbn [fst app].
  rewrite !filter_cons_False by (cbn; discriminate).
  by rewrite filter_cons_True.
Qed.

Lemma stream_generation_effects_eq self query sid ir docs :
  effects (trace (stream_generation self query sid ir docs)) =
    generation_prefix true query sid ir docs
    ++ match (llm_astream self (selected_template (suggested_prompt_template ir))
                (_format_docs docs) query).2 with
       | None =>
           [ELog sid "LLM_OUTPUT_STREAM_COMPLETE"
              (dict [("response_length",
                      JInt (Z.of_nat (String.length
                        (foldl (λ a c, a +:+ c) ""
                           (llm_astream self
                              (selected_template (suggested_prompt_template ir))
                              (_format_docs docs) query).1))))])]
       | Some _ => []
       end.
Proof.
  rewrite stream_generation_eq. unfold trace at 1. cbn [fst snd].
  unfold generation_prefix, log_llm_input, log, tell, trace, inject,
    step_trace, effect_trace. cbn [fst snd].
  autorewrite with stream. rewrite effects_tokens. cbn [app].
  destruct (llm_astream self _ _ _).2; by autorewrite with stream.
Qed.

(** X10: a request makes two model calls and no more: the intent chain
    is invoked once, then the generation chain once.  When the retrieval
    service itself calls no model, the run of [chat] and the run of
    [chat_stream] each hold exactly these two calls, in this order, and
    the generation call is the same in both: the same template, the same
    context and the question; it differs in the streaming mode only. *)
Theorem two_model_calls_per_request (self : service) (query sid : string) :
  Forall (λ e, is_model_call e = false) (trace (retrieval_service self query)) →
  ∃ ir,
    outcome (classify (intent_service self) query) = Ok ir
    ∧ filter (λ e, is_model_call e = true) (trace (chat self query sid))
      = [EIntentChain query;
         EGenerate false (selected_template (suggested_prompt_template ir))
           (_format_docs (retrieved self query ir)) query]
    ∧ filter (λ e, is_model_call e = true)
        (effects (trace (chat_stream self query sid)))
      = [EIntentChain query;
         EGenerate true (selected_template (suggested_prompt_template ir))
           (_format_docs (retrieved self query ir)) query].
Proof.
  intros Hr.
  destruct (classify_total (intent_service self) query) as [ir Hc]. exists ir.
  split; [exact Hc|]. split.
  - rewrite (chat_eq _ _ _ _ Hc), trace_pair.
    rewrite filter_cons_False by (cbn; discriminate).
    rewrite filter_app, classify_model_calls. cbn [app]. f_equal.
    rewrite filter_cons_False by (cbn; discriminate).
    rewrite filter_app,
      (filter_nothing _ _
         (no_model_call_not _ (chat_retrieval_no_model_call _ _ sid ir Hr))).
    cbn [app]. rewrite chat_generation_eq.
    destruct (llm_ainvoke self _ _ query); rewrite trace_pair.
    + rewrite filter_app, generation_prefix_one_call.
      by rewrite filter_cons_False by (cbn; discriminate).
    + apply generation_prefix_one_call.
  - rewrite (chat_stream_eq _ _ _ _ Hc), trace_pair. autorewrite with stream.
    rewrite filter_cons_False by (cbn; discriminate).
    rewrite filter_app, classify_model_calls. cbn [app]. f_equal.
    rewrite filter_cons_False by (cbn; discriminate).
    rewrite filter_app.
    assert (Hclar : effects (if requires_clarification ir
                             then [Yield clarification_event] else []) = [])
      by (by destruct (requires_clarification ir)).
    rewrite Hclar. cbn [app filter list_filter].
    rewrite filter_app,
      (filter_nothing _ _
         (no_model_call_not _ (stream_retrieval_no_model_call _ _ sid ir Hr))).
    cbn [app]. rewrite stream_generation_effects_eq, filter_app.
    rewrite generation_prefix_one_call.
    destruct (llm_astream self _ _ query).2; [done|].
    by rewrite filter_cons_False by (cbn; discriminate).
Qed.

End generation_extras.

Section stream_extras.
Import IntentService RAGService Claims ServiceClaims StreamShape
  ClarificationClaims Samples.
Context `{Runtime}.

Lemma length_foldl_append (chunks : list string) : ∀ acc : string,
  String.length (foldl (λ a c, a +:+ c) acc chunks)
  = String.length acc + sum_list (String.length <$> chunks).
Proof.
  induction chunks as [|c chunks IH]; intros acc; cbn; [lia|].
  rewrite IH, length_append. lia.
Qed.

Lemma before_generation_no_token self query ir :
  Forall (λ ev, ¬ event ev = "token") (before_generation self query ir).
Proof.
  eapply Forall_impl; [apply before_generation_kinds|]. by intros ev [? ?].
Qed.

Lemma token_events_all (chunks : list string) :
  Forall (λ ev, event ev = "token") (token_event <$> chunks).
Proof. apply Forall_fmap, Forall_true. by intros c. Qed.

(** X11: when the model's stream breaks after some chunks, [chat_stream]
    raises the model's exception; the consumer has by then received every
    event up to the status event of generation and one token event per
    chunk delivered, in order, and receives no done event. *)
Theorem stream_failure_keeps_delivered_tokens (self : service)
    (query sid : string) (ir : IntentResult) (chunks : list string) (e : exn) :
  outcome (classify (intent_service self) query) = Ok ir →
  streamed self query ir = (chunks, Some e) →
  outcome (chat_stream self query sid) = Raise e
  ∧ yields (trace (chat_stream self query sid))
    = before_generation self query ir
      ++ generating_event :: (token_event <$> chunks)
  ∧ Forall (λ ev, event ev ≠ "done") (yields (trace (chat_stream self query sid))).
Proof.
  intros Hc Hs.
  rewrite (chat_stream_outcome _ _ _ _ Hc), (chat_stream_yields _ _ _ _ Hc).
  unfold stream_events, generation_events. rewrite Hs. cbn [fst snd].
  rewrite app_nil_r. split; [done|]. split; [done|].
  apply Forall_app. split.
  - eapply Forall_impl; [apply before_generation_kinds|]. by intros ev [? ?].
  - constructor; [done|]. apply Forall_fmap, Forall_true. by intros c.
Qed.

(** X12: when the model's stream ends normally, [chat_stream] returns; the
    token events are one per chunk, in the order of the chunks, the last
    event is done, and the length logged as [response_length] is the total
    length of the chunks. *)
Theorem stream_accounts_for_every_chunk (self : service)
    (query sid : string) (ir : IntentResult) (chunks : list string) :
  outcome (classify (intent_service self) query) = Ok ir →
  streamed self query ir = (chunks, None) →
  outcome (chat_stream self query sid) = Ok tt
  ∧ filter (λ ev, event ev = "token") (yields (trace (chat_stream self query sid)))
    = token_event <$> chunks
  ∧ last (yields (trace (chat_stream self query sid)))
    = Some (done_event sid (retrieved self query ir))
  ∧ ELog sid "LLM_OUTPUT_STREAM_COMPLETE"
      (dict [("response_length",
              JInt (Z.of_nat (sum_list (String.length <$> chunks))))])
    ∈ effects (trace (chat_stream self query sid)).
Proof.
  intros Hc Hs. split; [|split; [|split]].
  - rewrite (chat_stream_outcome _ _ _ _ Hc), Hs. done.
  - rewrite (chat_stream_yields _ _ _ _ Hc).
    unfold stream_events, generation_events. rewrite Hs. cbn [fst snd].
    rewrite filter_app, (filter_nothing _ _ (before_generation_no_token _ _ _)).
    cbn [app]. rewrite filter_cons_False by (cbn; discriminate).
    rewrite filter_app, (filter_everything _ _ (token_events_all chunks)).
    rewrite filter_cons_False by (cbn; discriminate). by rewrite app_nil_r.
  - rewrite (chat_stream_yields _ _ _ _ Hc).
    unfold stream_events, generation_events. rewrite Hs. cbn [fst snd].
    change (?a ++ ?g :: ?t ++ [?d]) with (a ++ (g :: t) ++ [d]).
    by rewrite app_assoc, last_snoc.
  - rewrite (chat_stream_eq _ _ _ _ Hc), trace_pair. autorewrite with stream.
    rewrite stream_generation_effects_eq.
    unfold streamed in Hs. rewrite Hs. cbn [fst snd].
    rewrite length_foldl_append. cbn [String.length Nat.add].
    apply elem_of_cons. right. apply elem_of_app. right.
    apply elem_of_cons. right. apply elem_of_app. right.
    apply elem_of_app. right. apply elem_of_app. right.
    apply list_elem_of_singleton. reflexivity.
Qed.

(** X13: in [chat_stream] a clarification is advisory.  There is one
    clarification event, right after the first status event, exactly when
    the classifier asked for clarification; in both cases the stream goes
    on with the retrieving status, the retrieval event and the generating
    status, and the run ends as generation ends. *)
Theorem stream_clarification_is_advisory (self : service) (query sid : string)
    (ir : IntentResult) :
  outcome (classify (intent_service self) query) = Ok ir →
  yields (trace (chat_stream self query sid))
  = mkSse "status" (dict [("stage", JStr "intent_classify")])
    :: (if requires_clarification ir then [clarification_event] else [])
    ++ mkSse "status" (dict [("stage", JStr "retrieving")])
    :: retrieval_error_events self query ir
    ++ retrieval_event (retrieved self query ir)
    :: generating_event
    :: generation_events self query sid ir
  ∧ filter (λ ev, event ev = "clarification")
      (yields (trace (chat_stream self query sid)))
    = (if requires_clarification ir then [clarification_event] else [])
  ∧ outcome (chat_stream self query sid)
    = match (streamed self query ir).2 with
      | None => Ok tt
      | Some e => Raise e
      end.
Proof.
  intros Hc.
  rewrite (chat_stream_outcome _ _ _ _ Hc), (chat_stream_yields _ _ _ _ Hc).
  unfold stream_events, before_generation. split; [|split; [|done]].
  - cbn [app]. rewrite <- !app_assoc. cbn [app]. rewrite <- ?app_assoc.
    reflexivity.
  - rewrite filter_app.
    assert (Hgen : filter (λ ev, event ev = "clarification")
                     (generating_event :: generation_events self query sid ir) = []).
    { apply filter_nothing. constructor; [cbn; discriminate|].
      unfold generation_events. apply Forall_app. split.
      - apply Forall_fmap, Forall_true. intros c. cbn. discriminate.
      - destruct (streamed self query ir).2; repeat constructor. cbn. discriminate. }
    rewrite Hgen, app_nil_r.
    rewrite filter_cons_False by (cbn; discriminate). rewrite filter_app.
    assert (Hret : filter (λ ev, event ev = "clarification")
                     (mkSse "status" (dict [("stage", JStr "retrieving")])
                      :: retrieval_error_events self query ir
                      ++ [retrieval_event (retrieved self query ir)]) = []).
    { apply filter_nothing. constructor; [cbn; discriminate|].
      unfold retrieval_error_events.
      destruct (bool_decide (intent ir ≠ CASUAL_CHAT));
        [destruct (outcome (retrieval_service self query))|];
        repeat constructor; cbn; discriminate. }
    rewrite Hret, app_nil_r.
    destruct (requires_clarification ir); [|done].
    by rewrite filter_cons_True.
Qed.

End stream_extras.

Section stream_extras_witnesses.
Import IntentService RAGService Claims ServiceClaims StreamShape
  ClarificationClaims Samples.

Lemma two_model_calls_per_request_witness :
  ∃ ir,
    outcome (classify (intent_service (sample_service explain_fields))
               "What does this function do?") = Ok ir
    ∧ filter (λ e, is_model_call e = true)
        (trace (chat (sample_service explain_fields)
                  "What does this function do?" "s-1"))
      = [EIntentChain "What does this function do?";
         EGenerate false (selected_template (suggested_prompt_template ir))
           (_format_docs (H := strict_runtime)
              (retrieved (sample_service explain_fields)
                 "What does this function do?" ir))
           "What does this function do?"]
    ∧ filter (λ e, is_model_call e = true)
        (effects (trace (chat_stream (sample_service explain_fields)
                           "What does this function do?" "s-1")))
      = [EIntentChain "What does this function do?";
         EGenerate true (selected_template (suggested_prompt_template ir))
           (_format_docs (H := strict_runtime)
              (retrieved (sample_service explain_fields)
                 "What does this function do?" ir))
           "What does this function do?"].
Proof.
  apply (two_model_calls_per_request (H := strict_runtime)
           (sample_service explain_fields) "What does this function do?" "s-1").
  repeat constructor.
Defined.

Lemma stream_failure_keeps_delivered_tokens_witness :
  outcome (chat_stream
             (RAGService.__init__ (λ _, Ok (JDict explain_fields))
                (λ _ _ _, Ok "It parses the input.")
                (λ _ _ _, (["It "; "parses "], Some (Exn "APIError" "stream reset"))))
             "What does this function do?" "s-1")
  = Raise (Exn "APIError" "stream reset")
  ∧ filter (λ ev, event ev = "token")
      (yields (trace (chat_stream
             (RAGService.__init__ (λ _, Ok (JDict explain_fields))
                (λ _ _ _, Ok "It parses the input.")
                (λ _ _ _, (["It "; "parses "], Some (Exn "APIError" "stream reset"))))
             "What does this function do?" "s-1")))
    = [token_event "It "; token_event "parses "].
Proof.
  destruct (stream_failure_keeps_delivered_tokens (H := strict_runtime)
              (RAGService.__init__ (λ _, Ok (JDict explain_fields))
                 (λ _ _ _, Ok "It parses the input.")
                 (λ _ _ _, (["It "; "parses "], Some (Exn "APIError" "stream reset"))))
              "What does this function do?" "s-1" explain_result
              ["It "; "parses "] (Exn "APIError" "stream reset"))
    as (Hout & Hev & _).
  - vm_compute. reflexivity.
  - reflexivity.
  - split; [exact Hout|]. rewrite Hev. vm_compute. reflexivity.
Defined.

Lemma stream_accounts_for_every_chunk_witness :
  ELog "s-1" "LLM_OUTPUT_STREAM_COMPLETE" (dict [("response_length", JInt 20)])
    ∈ effects (trace (chat_stream (sample_service explain_fields)
                        "What does this function do?" "s-1")).
Proof.
  refine (proj2 (proj2 (proj2
    (stream_accounts_for_every_chunk (H := strict_runtime)
       (sample_service explain_fields) "What does this function do?" "s-1"
       explain_result answer_chunks _ _)))).
  - vm_compute. reflexivity.
  - reflexivity.
Defined.

Lemma stream_clarification_is_advisory_witness :
  filter (λ ev, event ev = "clarification")
    (yields (trace (chat_stream (sample_service vague_fields)
                      "can you help?" "s-1")))
  = [clarification_event]
  ∧ outcome (chat_stream (sample_service vague_fields) "can you help?" "s-1")
    = Ok tt.
Proof.
  refine (proj2
    (stream_clarification_is_advisory (H := strict_runtime)
       (sample_service vague_fields) "can you help?" "s-1" vague_result _)).
  vm_compute. reflexivity.
Defined.

End stream_extras_witnesses.

(** * More on the pipeline *)

Section pipeline_extras.
Import IntentService RAGPipeline StageCalls ServiceClaims StreamShape
  PipelineShape ClarificationClaims Samples.

Lemma run_before_calls ms stage : ∀ i ctx,
  trace (run_before ms i stage ctx) `prefix_of` before_calls ms i stage
  ∧ (∀ ctx', outcome (run_before ms i stage ctx) = Ok ctx' →
             trace (run_before ms i stage ctx) = before_calls ms i stage).
Proof.
  induction ms as [|m ms IH]; intros i ctx; cbn [run_before before_calls];
    [done|].
  destruct (before_stage m) as [hook|].
  - rewrite tell_bind. destruct (hook stage ctx) as [ctx1|e].
    + rewrite (bind_eq _ _ ctx1) by done. rewrite trace_pair, outcome_pair.
      cbn [trace fst app]. destruct (IH (S i) ctx1) as [Hp Hok]. split.
      * by apply prefix_cons.
      * intros ctx' Hctx. f_equal. by eapply Hok.
    + rewrite (bind_eq_raise _ _ e) by done. rewrite trace_pair, outcome_pair.
      cbn [trace fst app]. split; [|done]. apply prefix_cons, prefix_nil.
  - rewrite (bind_eq (ret ctx) _ ctx) by done. rewrite trace_pair, outcome_pair.
    cbn [ret trace fst app]. apply IH.
Qed.

Lemma run_after_calls ms stage : ∀ i ctx,
  trace (run_after ms i stage ctx) `prefix_of` after_calls ms i stage
  ∧ (∀ ctx', outcome (run_after ms i stage ctx) = Ok ctx' →
             trace (run_after ms i stage ctx) = after_calls ms i stage).
Proof.
  induction ms as [|m ms IH]; intros i ctx; cbn [run_after after_calls];
    [done|].
  destruct (after_stage m) as [hook|].
  - rewrite tell_bind. destruct (hook stage ctx) as [ctx1|e].
    + rewrite (bind_eq _ _ ctx1) by done. rewrite trace_pair, outcome_pair.
      cbn [trace fst app]. destruct (IH (S i) ctx1) as [Hp Hok]. split.
      * by apply prefix_cons.
      * intros ctx' Hctx. f_equal. by eapply Hok.
    + rewrite (bind_eq_raise _ _ e) by done. rewrite trace_pair, outcome_pair.
      cbn [trace fst app]. split; [|done]. apply prefix_cons, prefix_nil.
  - rewrite (bind_eq (ret ctx) _ ctx) by done. rewrite trace_pair, outcome_pair.
    cbn [ret trace fst app]. apply IH.
Qed.

Lemma _execute_stage_registered self stage node ctx :
  nodes self !! stage = Some node →
  _execute_stage self stage ctx =
    match outcome (run_before (middlewares self) 0 stage ctx) with
    | Raise e => (trace (run_before (middlewares self) 0 stage ctx), Raise e)
    | Ok ctx1 =>
        match node ctx1 with
        | Raise e =>
            (trace (run_before (middlewares self) 0 stage ctx) ++ [ENode stage],
             Raise e)
        | Ok ctx2 =>
            (trace (run_before (middlewares self) 0 stage ctx)
             ++ ENode stage :: trace (run_after (middlewares self) 0 stage ctx2),
             outcome (run_after (middlewares self) 0 stage ctx2))
        end
    end.
Proof.
  intros Hn. unfold _execute_stage. rewrite Hn.
  destruct (outcome (run_before (middlewares self) 0 stage ctx)) as [ctx1|e] eqn:E.
  - rewrite (bind_eq _ _ ctx1 E), tell_bind, lift_bind.
    by destruct (node ctx1).
  - by rewrite (bind_eq_raise _ _ e E).
Qed.

Lemma _execute_stage_unregistered self stage ctx :
  nodes self !! stage = None → _execute_stage self stage ctx = ([], Ok ctx).
Proof. intros Hn. unfold _execute_stage. unfold Node in *. by rewrite Hn. Qed.

Lemma _execute_stage_calls (self : pipeline) (stage : PipelineStage)
    (ctx : PipelineContext) :
  trace (_execute_stage self stage ctx) `prefix_of` stage_calls self stage
  ∧ (∀ ctx', outcome (_execute_stage self stage ctx) = Ok ctx' →
             trace (_execute_stage self stage ctx) = stage_calls self stage).
Proof.
  unfold stage_calls. destruct (nodes self !! stage) as [node|] eqn:Hn.
  2: { by rewrite (_execute_stage_unregistered _ _ _ Hn). }
  rewrite (_execute_stage_registered _ _ _ _ Hn).
  destruct (run_before_calls (middlewares self) stage 0 ctx) as [Hbp Hbok].
  destruct (outcome (run_before (middlewares self) 0 stage ctx)) as [ctx1|e].
  2: { rewrite trace_pair, outcome_pair. split; [|done]. by apply prefix_app_r. }
  rewrite (Hbok ctx1 eq_refl). destruct (node ctx1) as [ctx2|e].
  2: { rewrite trace_pair, outcome_pair. split; [|done].
       apply prefix_app, prefix_cons, prefix_nil. }
  rewrite trace_pair, outcome_pair.
  destruct (run_after_calls (middlewares self) stage 0 ctx2) as [Hap Haok].
  split.
  - by apply prefix_app, prefix_cons.
  - intros ctx' Hctx. by rewrite (Haok ctx' Hctx).
Qed.

(** X14: the calls of one stage.  A stage without a registered node does
    nothing and hands the context back.  Otherwise the before hooks are
    called in the order the middlewares were added, then the node, then
    the after hooks in the same order; a middleware without the hook is
    skipped.  What a stage has called when it stops is always a prefix of
    that list, and the whole list when the stage returns. *)
Theorem _execute_stage_call_order (self : pipeline) (stage : PipelineStage)
    (ctx : PipelineContext) :
  trace (_execute_stage self stage ctx) `prefix_of` stage_calls self stage
  ∧ (∀ ctx', outcome (_execute_stage self stage ctx) = Ok ctx' →
             trace (_execute_stage self stage ctx) = stage_calls self stage)
  ∧ (nodes self !! stage = None → _execute_stage self stage ctx = ([], Ok ctx))
  ∧ (∀ node, nodes self !! stage = Some node →
       stage_calls self stage =
         before_calls (middlewares self) 0 stage
         ++ ENode stage :: after_calls (middlewares self) 0 stage).
Proof.
  destruct (_execute_stage_calls self stage ctx) as [Hp Hok].
  split; [exact Hp|]. split; [exact Hok|]. split.
  - apply _execute_stage_unregistered.
  - intros node Hn. unfold stage_calls. unfold Node in *. by rewrite Hn.
Qed.

Lemma before_calls_kind ms stage : ∀ i,
  Forall (λ e, ∃ j, e = EBefore j stage) (before_calls ms i stage).
Proof.
  induction ms as [|m ms IH]; intros i; cbn [before_calls]; [constructor|].
  apply Forall_app. split; [|apply IH].
  destruct (before_stage m); repeat constructor. by exists i.
Qed.

(** X15: a failure stops the stage where it happens.  When a before hook
    raises, the stage raises that exception and the node is not run;
    when the node raises, the stage raises that exception after the
    before hooks and the node, and no after hook is called. *)
Theorem stage_failure_stops_the_stage (self : pipeline) (stage : PipelineStage)
    (node : Node) (ctx : PipelineContext) :
  nodes self !! stage = Some node →
  (∀ e, outcome (run_before (middlewares self) 0 stage ctx) = Raise e →
        outcome (_execute_stage self stage ctx) = Raise e
        ∧ (ENode stage ∉ trace (_execute_stage self stage ctx))
        ∧ Forall (λ e', ∃ j, e' = EBefore j stage)
            (trace (_execute_stage self stage ctx)))
  ∧ (∀ ctx1 e, outcome (run_before (middlewares self) 0 stage ctx) = Ok ctx1 →
        node ctx1 = Raise e →
        _execute_stage self stage ctx =
          (before_calls (middlewares self) 0 stage ++ [ENode stage], Raise e)).
Proof.
  intros Hn. rewrite (_execute_stage_registered _ _ _ _ Hn).
  destruct (run_before_calls (middlewares self) stage 0 ctx) as [Hbp Hbok].
  split.
  - intros e He. rewrite He, trace_pair, outcome_pair.
    assert (Hk : Forall (λ e', ∃ j, e' = EBefore j stage)
                   (trace (run_before (middlewares self) 0 stage ctx))).
    { destruct Hbp as [rest Hrest].
      pose proof (before_calls_kind (middlewares self) stage 0) as Hall.
      rewrite Hrest in Hall. by apply Forall_app in Hall as [? _]. }
    split; [done|]. split; [|done].
    intros Hin. rewrite Forall_forall in Hk. by destruct (Hk _ Hin) as [j [=]].
  - intros ctx1 e Hb Hnode. rewrite Hb, Hnode. by rewrite (Hbok ctx1 Hb).
Qed.

End pipeline_extras.

Section schedule_extras.
Import IntentService RAGPipeline StageCalls ServiceClaims StreamShape
  PipelineShape ClarificationClaims Samples.

Lemma stage_bind_prefix {B} self s ctx (k : PipelineContext → Co B) sched :
  (∀ ctx', trace (k ctx') `prefix_of` sched) →
  trace (_execute_stage self s ctx ≫= k) `prefix_of` stage_calls self s ++ sched.
Proof.
  intros Hk. destruct (_execute_stage_calls self s ctx) as [Hp Hok].
  destruct (outcome (_execute_stage self s ctx)) as [ctx'|e] eqn:E.
  - rewrite (bind_eq _ _ ctx' E), trace_pair, (Hok ctx' eq_refl).
    apply prefix_app, Hk.
  - rewrite (bind_eq_raise _ _ e E), trace_pair. by apply prefix_app_r.
Qed.

Lemma stage_bind_ok {B} self s ctx (k : PipelineContext → Co B) r :
  outcome (_execute_stage self s ctx ≫= k) = Ok r →
  ∃ ctx', trace (_execute_stage self s ctx ≫= k)
          = stage_calls self s ++ trace (k ctx')
          ∧ outcome (k ctx') = Ok r.
Proof.
  destruct (_execute_stage_calls self s ctx) as [_ Hok].
  destruct (outcome (_execute_stage self s ctx)) as [ctx'|e] eqn:E.
  - rewrite (bind_eq _ _ ctx' E), trace_pair, outcome_pair, (Hok ctx' eq_refl).
    intros Hr. by exists ctx'.
  - by rewrite (bind_eq_raise _ _ e E), outcome_pair.
Qed.

(** X16: [execute] follows a fixed schedule.  Whatever the query, the
    nodes and the hooks do, the calls it has made are a prefix of the
    calls of the eight stages in pipeline order, where a stage without a
    node contributes nothing; when it returns it has made all of them, or
    those of query parsing and intent classification alone, and then the
    response is the request for clarification. *)
Theorem execute_follows_the_schedule (self : pipeline) (query : string)
    (kw : kwargs) :
  trace (execute self query kw) `prefix_of` schedule self all_stages
  ∧ (∀ ctx, outcome (execute self query kw) = Ok ctx →
       trace (execute self query kw) = schedule self all_stages
       ∨ (ctx_response ctx = Some clarification_response
          ∧ trace (execute self query kw)
            = schedule self [QUERY_PARSE; INTENT_CLASSIFY])).
Proof.
  unfold execute, schedule, all_stages.
  cbn [fmap list_fmap mjoin list_join].
  destruct (PipelineContext_init query kw) as [ctx0|e]; rewrite lift_bind.
  2: { split; [apply prefix_nil|]. intros ctx [=]. }
  split.
  - apply stage_bind_prefix. intros ctx1.
    apply stage_bind_prefix. intros ctx2.
    destruct (needs_clarification ctx2); [apply prefix_nil|].
    do 6 (apply stage_bind_prefix; intros ?). apply prefix_nil.
  - intros ctx Hok.
    apply stage_bind_ok in Hok as (ctx1 & -> & Hok). cbv beta in Hok |- *.
    apply stage_bind_ok in Hok as (ctx2 & -> & Hok). cbv beta in Hok |- *.
    destruct (needs_clarification ctx2).
    + right. injection Hok as <-. split; reflexivity.
    + left.
      do 6 (apply stage_bind_ok in Hok as (? & -> & Hok); cbv beta in Hok |- *).
      reflexivity.
Qed.

(** X17: [execute_stream] stops at a clarification.  When the intent
    stage leaves [requires_clarification] set, the stream is the status
    event followed by the clarification event and nothing else; it ends
    normally, and no stage but intent classification has been run. *)
Theorem execute_stream_stops_at_clarification (self : pipeline)
    (query : string) (kw : kwargs) (ctx0 ctx1 : PipelineContext) :
  PipelineContext_init query kw = Ok ctx0 →
  outcome (_execute_stage self INTENT_CLASSIFY ctx0) = Ok ctx1 →
  needs_clarification ctx1 = true →
  outcome (execute_stream self query kw) = Ok tt
  ∧ yields (trace (execute_stream self query kw))
    = [mkSse "status" (dict [("stage", JStr "intent_classify")]);
       clarification_event]
  ∧ effects (trace (execute_stream self query kw))
    = stage_calls self INTENT_CLASSIFY.
Proof.
  intros Hinit Hs Hclar. unfold execute_stream.
  rewrite Hinit, lift_bind, yield_bind.
  rewrite (bind_eq (await _) _ ctx1) by done. rewrite Hclar.
  destruct (_execute_stage_calls self INTENT_CLASSIFY ctx0) as [_ Hok].
  autorewrite with stream. rewrite (Hok ctx1 Hs).
  unfold yield. autorewrite with stream. rewrite app_nil_r. done.
Qed.

Lemma stage_effect_kind self stage ctx (P : effect → Prop) :
  (∀ e, effect_stage e = Some stage → P e) →
  Forall P (trace (_execute_stage self stage ctx)).
Proof.
  intros HP. eapply Forall_impl; [apply _execute_stage_trace|]. done.
Qed.

(** X18: [execute_stream] runs the intent and the retrieval stage and no
    other: the node registered for generation is never called.  The token
    events do not depend on the query or on what was retrieved: there are
    none, one empty token, or the five words of the placeholder text. *)
Theorem execute_stream_never_generates (self : pipeline) (query : string)
    (kw : kwargs) :
  Forall (λ e, effect_stage e = Some INTENT_CLASSIFY
               ∨ effect_stage e = Some RETRIEVE)
    (effects (trace (execute_stream self query kw)))
  ∧ (ENode GENERATE ∉ effects (trace (execute_stream self query kw)))
  ∧ ∃ tokens,
      filter (λ ev, event ev = "token")
        (yields (trace (execute_stream self query kw)))
      = token_event <$> tokens
      ∧ (tokens = [] ∨ tokens = [""]
         ∨ tokens = ["This "; "is "; "a "; "streaming "; "response."]).
Proof.
  assert (Hmain :
    Forall (λ e, effect_stage e = Some INTENT_CLASSIFY
                 ∨ effect_stage e = Some RETRIEVE)
      (effects (trace (execute_stream self query kw)))
    ∧ ∃ tokens,
        filter (λ ev, event ev = "token")
          (yields (trace (execute_stream self query kw)))
        = token_event <$> tokens
        ∧ (tokens = [] ∨ tokens = [""]
           ∨ tokens = ["This "; "is "; "a "; "streaming "; "response."])).
  { unfold execute_stream.
    destruct (PipelineContext_init query kw) as [ctx0|e]; rewrite lift_bind.
    2: { split; [constructor|]. exists []. split; [done|by left]. }
    rewrite yield_bind.
    pose proof (stage_effect_kind self INTENT_CLASSIFY ctx0
      (λ e, effect_stage e = Some INTENT_CLASSIFY ∨ effect_stage e = Some RETRIEVE)
      (λ e He, or_introl He)) as H1.
    destruct (outcome (_execute_stage self INTENT_CLASSIFY ctx0)) as [ctx1|e] eqn:E1.
    2: { rewrite (bind_eq_raise (await _) _ e) by done.
         autorewrite with stream. split; [done|].
         exists []. split; [done|by left]. }
    rewrite (bind_eq (await _) _ ctx1) by done.
    destruct (needs_clarification ctx1).
    { unfold yield. autorewrite with stream. rewrite app_nil_r.
      split; [done|]. exists []. split; [done|by left]. }
    rewrite yield_bind.
    pose proof (stage_effect_kind self RETRIEVE ctx1
      (λ e, effect_stage e = Some INTENT_CLASSIFY ∨ effect_stage e = Some RETRIEVE)
      (λ e He, or_intror He)) as H2.
    destruct (outcome (_execute_stage self RETRIEVE ctx1)) as [ctx2|e] eqn:E2.
    2: { rewrite (bind_eq_raise (await _) _ e) by done.
         autorewrite with stream. split; [by apply Forall_app|].
         exists []. split; [done|by left]. }
    rewrite (bind_eq (await _) _ ctx2) by done.
    rewrite yield_bind, yield_bind, yield_tokens_eq.
    rewrite (bind_eq (_, Ok tt) _ tt) by done.
    autorewrite with stream. rewrite effects_tokens, yields_tokens.
    unfold yield. autorewrite with stream. rewrite !app_nil_r.
    split; [by apply Forall_app|].
    exists (_execute_stream_stage self ctx2). split.
    - cbn [app]. rewrite !filter_cons_False by (cbn; discriminate).
      rewrite filter_app, (filter_everything _ _ (token_events_all _)).
      rewrite filter_cons_False by (cbn; discriminate). apply app_nil_r.
    - unfold _execute_stream_stage.
      destruct (nodes self !! GENERATE); [right; by right | right; by left]. }
  destruct Hmain as [Hk Ht]. split; [exact Hk|]. split; [|exact Ht].
  intros Hin. rewrite Forall_forall in Hk.
  destruct (Hk _ Hin) as [[=]|[=]].
Qed.

End schedule_extras.

Section pipeline_extras_witnesses.
Import IntentService RAGPipeline StageCalls ServiceClaims StreamShape
  PipelineShape ClarificationClaims Samples.

Lemma stage_failure_stops_the_stage_witness :
  _execute_stage (guarded_pipeline explain_result) RETRIEVE
    {| ctx_query := "q"; ctx_session_id := "s-1"; ctx_user_id := None;
       ctx_intent := None; ctx_retrieval_results := None; ctx_context := None;
       ctx_prompt := None; ctx_response := None; ctx_metadata := ∅ |}
  = ([ENode RETRIEVE], Raise (Exn "RuntimeError" "this stage must not run")).
Proof.
  refine (proj2 (stage_failure_stops_the_stage (guarded_pipeline explain_result)
                   RETRIEVE broken_node _ _) _ _ _ _); reflexivity.
Defined.

Lemma execute_stream_stops_at_clarification_witness :
  outcome (execute_stream (sample_pipeline vague_result) "can you help?"
             sample_kwargs) = Ok tt
  ∧ yields (trace (execute_stream (sample_pipeline vague_result) "can you help?"
                     sample_kwargs))
    = [mkSse "status" (dict [("stage", JStr "intent_classify")]);
       clarification_event]
  ∧ effects (trace (execute_stream (sample_pipeline vague_result)
                      "can you help?" sample_kwargs))
    = [ENode INTENT_CLASSIFY].
Proof.
  eapply (execute_stream_stops_at_clarification (sample_pipeline vague_result)
            "can you help?" sample_kwargs); reflexivity.
Defined.

End pipeline_extras_witnesses.

(** * The HTTP handlers *)

Section api_extras.
Import IntentService RAGService Claims ServiceClaims StreamShape Samples
  Schemas ChatAPI ReplyShape.
Context `{Runtime}.

Lemma IntentInfo_validate_dict (ir : IntentResult) :
  IntentInfo_validate (IntentResult_dict ir) =
    Some (Some {| info_intent := IntentType_value (intent ir);
                  info_confidence := confidence ir;
                  info_entities := entities ir;
                  info_requires_clarification := requires_clarification ir |}).
Proof.
  unfold IntentInfo_validate, IntentResult_dict.
  assert (Hk : ∀ a b c d e : json,
    let m : gmap string json :=
      list_to_map [("intent", a); ("confidence", b); ("entities", c);
                   ("suggested_prompt_template", d);
                   ("requires_clarification", e)] in
    m !! "intent" = Some a ∧ m !! "confidence" = Some b
    ∧ m !! "entities" = Some c ∧ m !! "requires_clarification" = Some e).
  { intros a b c d e. vm_compute. done. }
  destruct (Hk (JStr (IntentType_value (intent ir))) (JFloat (confidence ir))
              (JDict (entities ir)) (JStr (suggested_prompt_template ir))
              (JBool (requires_clarification ir))) as (-> & -> & -> & ->).
  cbn [mbind option_bind].
  by rewrite validate_str_str, validate_float_float, validate_dict_dict,
    validate_bool_bool.
Qed.

Lemma Citation_validate_ok (d : Document) (s : string) (f : float) :
  metadata d !! "source" = Some (JStr s) →
  metadata d !! "score" = Some (JFloat f) →
  Citation_validate (citation_of d) =
    Some {| schema_source := s;
            schema_content := slice_to 100 (page_content d) +:+ "...";
            schema_relevance := f |}.
Proof.
  intros Hs Hf. unfold Citation_validate, citation_of. cbn [cite_source
    cite_relevance cite_content]. rewrite Hs, Hf. cbn [default from_option id].
  by rewrite validate_str_str, validate_float_float.
Qed.

Lemma api_chat_outcome service request uuid4 ir :
  outcome (classify (intent_service service) (req_query request)) = Ok ir →
  outcome (ChatAPI.chat service request uuid4)
  = Ok (reply_of service request uuid4 ir).
Proof.
  intros Hc. unfold ChatAPI.chat, reply_of.
  assert (Hpass : ∀ (k : unit → Co reply),
            ((if req_stream request then ret tt else ret tt) ≫= k) = k tt).
  { intros k. destruct (req_stream request);
      rewrite (bind_eq (ret tt) _ tt) by done; by destruct (k tt). }
  rewrite Hpass.
  rewrite (chat_eq _ _ _ _ Hc), chat_generation_eq.
  destruct (llm_ainvoke service _ _ (req_query request)) as [text|e].
  - rewrite outcome_pair.
    rewrite (bind_eq _ _ _ (outcome_pair _ _)). rewrite lift_bind.
    unfold ChatResponse_init.
    cbn [res_intent res_citations res_session_id res_response res_metadata].
    rewrite IntentInfo_validate_dict.
    by destruct (mapM Citation_validate _).
  - rewrite outcome_pair.
    by rewrite (bind_eq_raise _ _ e (outcome_pair _ _)).
Qed.


(** X19: [POST /] always hands a reply to the framework.  It is the
    error 500 with the text of the exception when generation raises, the
    error 500 with the validation message when a citation does not fit the
    response model, and else the response with the answer, the session id
    (the one of the request, or the generated one when the request has
    none or an empty one), the intent and the citations.  Failures of the
    intent classifier or of retrieval never reach the client, and the
    [stream] flag of the request changes nothing. *)
Theorem api_chat_always_replies (service : RAGService.service)
    (request : ChatRequest) (uuid4 : string) :
  ∃ ir,
    outcome (classify (intent_service service) (req_query request)) = Ok ir
    ∧ outcome (ChatAPI.chat service request uuid4)
      = Ok (reply_of service request uuid4 ir)
    ∧ (req_session_id request = None ∨ req_session_id request = Some "" →
       session_id_of request uuid4 = uuid4)
    ∧ (∀ sid, req_session_id request = Some sid → sid ≠ "" →
       session_id_of request uuid4 = sid)
    ∧ (∀ flag,
         ChatAPI.chat service
           {| req_query := req_query request;
              req_session_id := req_session_id request;
              req_context := req_context request;
              req_stream := flag |} uuid4
         = ChatAPI.chat service request uuid4).
Proof.
  destruct (classify_total (intent_service service) (req_query request))
    as [ir Hc].
  exists ir. split; [exact Hc|]. split; [by apply api_chat_outcome|].
  split; [|split].
  - unfold session_id_of. by intros [->| ->].
  - intros sid Hs Hne. unfold session_id_of. rewrite Hs.
    by rewrite bool_decide_eq_false_2.
  - intros flag. unfold ChatAPI.chat, session_id_of. cbn [req_query
      req_session_id req_stream]. by destruct flag, (req_stream request).
Qed.

(** X20: over the retrieval service of the repository, [POST /] answers
    whenever the model does.  The response carries the model's answer and
    the session id, and ten citations, five from each mock retriever, or
    none when the intent is casual chat. *)
Theorem api_chat_over_mock_retrieval
    (intent_chain : string → result json)
    (ainvoke : ChatPromptTemplate → string → string → result string)
    (astream : ChatPromptTemplate → string → string → list string * option exn)
    (request : ChatRequest) (uuid4 text : string) :
  (∀ template context, ainvoke template context (req_query request) = Ok text) →
  ∃ ir r,
    outcome (classify (IntentService.mkService intent_chain) (req_query request))
      = Ok ir
    ∧ outcome (ChatAPI.chat (RAGService.__init__ intent_chain ainvoke astream)
                 request uuid4) = Ok (Responded r)
    ∧ resp_response r = text
    ∧ resp_session_id r = session_id_of request uuid4
    ∧ length (resp_citations r)
      = (if bool_decide (intent ir = CASUAL_CHAT) then 0 else 10).
Proof.
  intros Hllm.
  destruct (classify_total (IntentService.mkService intent_chain)
              (req_query request)) as [ir Hc].
  exists ir.
  rewrite (api_chat_outcome (RAGService.__init__ intent_chain ainvoke astream)
             request uuid4 ir Hc).
  unfold reply_of. cbn [llm_ainvoke RAGService.__init__]. rewrite Hllm.
  destruct (mock_docs_distinct 5 5 (req_query request))
    as (vdocs & kdocs & Hv & Hk & Hlv & Hlk & Hnd).
  assert (Hret : RetrievalService.retrieve RetrievalService.__init__
                   (req_query request)
                 = ([ESource 0 (req_query request); ESource 1 (req_query request)],
                    Ok (vdocs ++ kdocs)))
    by exact (ensemble_of_two _ _ [0.7%float; 0.3%float] (req_query request)
                _ _ Hv Hk Hnd).
  assert (Hlen : length (vdocs ++ kdocs) = 10)
    by (by rewrite length_app, Hlv, Hlk).
  assert (Hdocs : retrieved (RAGService.__init__ intent_chain ainvoke astream)
                    (req_query request) ir
                  = if bool_decide (intent ir = CASUAL_CHAT) then []
                    else vdocs ++ kdocs).
  { unfold retrieved. cbn [retrieval_service RAGService.__init__].
    rewrite Hret, outcome_pair.
    destruct (decide (intent ir = CASUAL_CHAT)) as [Hi|Hi].
    - rewrite bool_decide_eq_false_2 by (by intros []).
      by rewrite bool_decide_eq_true_2.
    - rewrite bool_decide_eq_true_2 by done. by rewrite bool_decide_eq_false_2. }
  rewrite Hdocs.
  assert (Hsome : is_Some (mapM Citation_validate
            (citation_of <$> (if bool_decide (intent ir = CASUAL_CHAT) then []
                              else vdocs ++ kdocs)))).
  { apply mapM_is_Some_2, Forall_fmap.
    destruct (bool_decide (intent ir = CASUAL_CHAT)); [constructor|].
    eapply Forall_impl.
    - apply Forall_app. split;
        [exact (mock_vector_metadata _ _ _ Hv)
        |exact (mock_keyword_metadata _ _ _ Hk)].
    - intros d (s & f & Hs & Hf). cbn.
      by rewrite (Citation_validate_ok d s f Hs Hf). }
  destruct Hsome as [cits Hcits]. rewrite Hcits.
  eexists. split; [exact Hc|]. split; [reflexivity|].
  cbn [resp_response resp_session_id resp_citations].
  split; [done|]. split; [done|].
  apply length_mapM in Hcits. rewrite <- Hcits, length_fmap.
  by destruct (bool_decide (intent ir = CASUAL_CHAT)).
Qed.

(** X21: a retrieved document without a [source] in its metadata makes
    [POST /] answer 500 where the response model does not take [None]
    for a [str], although retrieval and generation went well: the
    citation is built with [metadata.get("source")], which is [None]. *)
Theorem api_chat_rejects_missing_source (service : RAGService.service)
    (request : ChatRequest) (uuid4 : string) (ir : IntentResult)
    (d : Document) :
  outcome (classify (intent_service service) (req_query request)) = Ok ir →
  d ∈ retrieved service (req_query request) ir →
  metadata d !! "source" = None →
  validate_str JNull = None →
  ∃ detail,
    outcome (ChatAPI.chat service request uuid4) = Ok (HTTPException 500 detail)
    ∧ (∀ text,
         llm_ainvoke service (selected_template (suggested_prompt_template ir))
           (_format_docs (retrieved service (req_query request) ir))
           (req_query request) = Ok text →
         detail =
           validation_error_str
             [("intent", IntentResult_dict ir);
              ("citations",
               JList (Citation_json <$>
                        (citation_of <$>
                           retrieved service (req_query request) ir)))]).
Proof.
  intros Hc Hd Hsrc Hnone. rewrite (api_chat_outcome _ _ uuid4 _ Hc).
  unfold reply_of.
  assert (Hbad : mapM Citation_validate
                   (citation_of <$> retrieved service (req_query request) ir)
                 = None).
  { apply mapM_None_2, Exists_exists. exists (citation_of d). split.
    - apply list_elem_of_fmap. by exists d.
    - unfold Citation_validate, citation_of. cbn [cite_source].
      rewrite Hsrc. cbn [default from_option id]. by rewrite Hnone. }
  rewrite Hbad.
  destruct (llm_ainvoke service _ _ (req_query request)) as [text|e].
  - eexists. split; [reflexivity|]. by intros ? [= <-].
  - eexists. split; [reflexivity|]. by intros ? [=].
Qed.

(** X22: [POST /stream] hands the framework the event stream of
    [chat_stream] for the query and the session id of the request, or the
    generated one when the request has none or an empty one, as
    [text/event-stream].  The first event is the status of intent
    classification, and a done event, if the stream gets there, carries
    that session id and the citations of the retrieved documents. *)
Theorem api_stream_echoes_session (service : RAGService.service)
    (request : ChatRequest) (uuid4 : string) :
  (ChatAPI.chat_stream service request uuid4).2 = "text/event-stream"
  ∧ ∃ ir,
      outcome (classify (intent_service service) (req_query request)) = Ok ir
      ∧ yields (trace (ChatAPI.chat_stream service request uuid4).1)
        = stream_events service (req_query request)
            (session_id_of request uuid4) ir
      ∧ head (yields (trace (ChatAPI.chat_stream service request uuid4).1))
        = Some (mkSse "status" (dict [("stage", JStr "intent_classify")]))
      ∧ (∀ ev, ev ∈ yields (trace (ChatAPI.chat_stream service request uuid4).1) →
           event ev = "done" →
           ev = done_event (session_id_of request uuid4)
                  (retrieved service (req_query request) ir)).
Proof.
  split; [reflexivity|].
  destruct (classify_total (intent_service service) (req_query request))
    as [ir Hc].
  exists ir. split; [exact Hc|]. unfold ChatAPI.chat_stream. cbn [fst].
  rewrite (chat_stream_yields _ _ _ _ Hc). split; [reflexivity|].
  split; [reflexivity|]. intros ev. apply stream_events_done.
Qed.

End api_extras.

Section api_extras_witnesses.
Import IntentService RAGService Claims ServiceClaims StreamShape Samples
  Schemas ChatAPI ReplyShape.

Lemma api_chat_over_mock_retrieval_witness :
  ∃ ir r,
    outcome (classify (IntentService.mkService (λ _, Ok (JDict explain_fields)))
               "What does this function do?") = Ok ir
    ∧ outcome (ChatAPI.chat (sample_service explain_fields)
                 {| req_query := "What does this function do?";
                    req_session_id := None; req_context := None;
                    req_stream := false |} "generated-id") = Ok (Responded r)
    ∧ resp_response r = "It parses the input."
    ∧ resp_session_id r = "generated-id"
    ∧ length (resp_citations r)
      = (if bool_decide (intent ir = CASUAL_CHAT) then 0 else 10).
Proof.
  apply (api_chat_over_mock_retrieval (H := strict_runtime)
           (λ _, Ok (JDict explain_fields)) (λ _ _ _, Ok "It parses the input.")
           (λ _ _ _, (answer_chunks, None))
           {| req_query := "What does this function do?";
              req_session_id := None; req_context := None;
              req_stream := false |} "generated-id" "It parses the input.").
  reflexivity.
Defined.

Lemma api_chat_rejects_missing_source_witness :
  ∃ detail,
    outcome (ChatAPI.chat
               (with_retrieval (sample_service explain_fields)
                  (λ q, ([ESource 0 q],
                         Ok [{| page_content := "x = 1"; metadata := ∅ |}])))
               {| req_query := "What does this function do?";
                  req_session_id := Some "s-1"; req_context := None;
                  req_stream := false |} "generated-id")
    = Ok (HTTPException 500 detail).
Proof.
  destruct (api_chat_rejects_missing_source (H := strict_runtime)
              (with_retrieval (sample_service explain_fields)
                 (λ q, ([ESource 0 q],
                        Ok [{| page_content := "x = 1"; metadata := ∅ |}])))
              {| req_query := "What does this function do?";
                 req_session_id := Some "s-1"; req_context := None;
                 req_stream := false |} "generated-id" explain_result
              {| page_content := "x = 1"; metadata := ∅ |})
    as (detail & Hout & _).
  - vm_compute. reflexivity.
  - apply list_elem_of_singleton. reflexivity.
  - reflexivity.
  - reflexivity.
  - by exists detail.
Defined.

End api_extras_witnesses.

(** * The model wrapper, the prompt service and the framing of events *)

Section bailian_extras.
Import BailianLLM.

(** X23: the Bailian wrapper passes results through and never swallows
    a failure.  A failure whose text holds one of the two markers is
    logged once and raised as a [ValueError] with the advice text; any
    other is raised as it is and nothing is logged.  The advice text holds
    no marker, so a wrapped failure goes through a second wrapper
    unchanged.  The streaming wrapper delivers the chunks it was given
    and fails exactly when the parent's stream fails. *)
Theorem bailian_wrapper_keeps_failures {A} (super_result : result A)
    (chunks : list A) (failure : option exn) :
  (∀ r, super_result = Ok r → _agenerate super_result = ([], Ok r))
  ∧ (∀ e, super_result = Raise e →
       _agenerate super_result =
         if contains "No generation chunks were returned" (exn_str e)
            || contains "null value for 'choices'" (exn_str e)
         then (["Bailian API Error detected: " +:+ exn_str e],
               Raise (Exn "ValueError" invalid_response_message))
         else ([], Raise e))
  ∧ _agenerate (A:=A) (Raise (Exn "ValueError" invalid_response_message))
    = ([], Raise (Exn "ValueError" invalid_response_message))
  ∧ (_astream (chunks, failure)).2.1 = chunks
  ∧ ((_astream (chunks, failure)).2.2 = None ↔ failure = None)
  ∧ (∀ e, failure = Some e →
       ((_astream (chunks, failure)).1, (_astream (chunks, failure)).2.2)
       = (trace (_agenerate (A:=A) (Raise e)),
          match outcome (_agenerate (A:=A) (Raise e)) with
          | Raise e' => Some e'
          | Ok _ => None
          end)).
Proof.
  assert (Hraise : ∀ e,
    _agenerate (A:=A) (Raise e) =
      if contains "No generation chunks were returned" (exn_str e)
         || contains "null value for 'choices'" (exn_str e)
      then (["Bailian API Error detected: " +:+ exn_str e],
            Raise (Exn "ValueError" invalid_response_message))
      else ([], Raise e)).
  { intros e. unfold _agenerate, _handle_bailian_error, try_except, lift.
    by destruct (contains _ (exn_str e) || contains _ (exn_str e)). }
  split; [by intros r ->|]. split; [by intros e ->|].
  split; [rewrite Hraise; vm_compute; reflexivity|].
  split; [by destruct failure|]. split.
  - destruct failure as [e|]; [|done]. split; [|done].
    unfold _astream, _handle_bailian_error. cbn [snd fst].
    by destruct (contains _ (exn_str e) || contains _ (exn_str e)).
  - intros e ->. rewrite Hraise.
    unfold _astream, _handle_bailian_error. cbn [snd fst].
    by destruct (contains _ (exn_str e) || contains _ (exn_str e)).
Qed.

End bailian_extras.

Section prompt_extras.
Import PromptService.
Context `{Runtime}.

(** X24: the formatted history depends on the last five messages only:
    whatever comes before them, also a message without a role or a
    content, has no effect. *)
Theorem _format_history_reads_last_five (older recent : list (gmap string json)) :
  length recent = 5 →
  _format_history (older ++ recent) = _format_history recent.
Proof.
  intros Hlen. unfold _format_history.
  rewrite length_app, Hlen.
  replace (length older + 5 - 5) with (length older) by lia.
  by rewrite drop_app_length, Nat.sub_diag, drop_0.
Qed.

Lemma mapM_result_ok {A B} (f : A → result B) (l : list A) :
  Forall (λ x, ∃ y, f x = Ok y) l → ∃ k, mapM f l = Ok k.
Proof.
  induction 1 as [|x l [y Hy] _ [k IH]]; [by exists []|].
  exists (y :: k). cbn. rewrite Hy. cbn. by rewrite IH.
Qed.

(** X25: [optimize_for_token_limit] never shortens a prompt.  Whenever
    it returns, it returns the prompt it was given, whatever the limit;
    it returns whenever the tokenizer encodes every part. *)
Theorem optimize_for_token_limit_changes_nothing
    (prompt : list (string * string)) (max_tokens : Z)
    (encode : string → result (list Z)) :
  (∀ r, optimize_for_token_limit prompt max_tokens encode = Ok r → r = prompt)
  ∧ (∀ other_limit,
       optimize_for_token_limit prompt other_limit encode
       = optimize_for_token_limit prompt max_tokens encode)
  ∧ (Forall (λ p, ∃ tokens, encode p.2 = Ok tokens) prompt →
     optimize_for_token_limit prompt max_tokens encode = Ok prompt).
Proof.
  unfold optimize_for_token_limit. split; [|split].
  - intros r. destruct (mapM _ prompt) as [counts|e]; cbn; [|done].
    destruct (bool_decide _); congruence.
  - intros other. destruct (mapM _ prompt) as [counts|e]; cbn; [|done].
    by do 2 destruct (bool_decide _).
  - intros Hall.
    destruct (mapM_result_ok (λ p : string * string,
                tokens ← encode p.2; Ok (length tokens)) prompt) as [k Hk].
    { eapply Forall_impl; [exact Hall|]. intros p [tokens Ht].
      exists (length tokens). by rewrite Ht. }
    rewrite Hk. cbn. by destruct (bool_decide _).
Qed.

End prompt_extras.

Section framing_extras.
Import RAGService Framing.

Lemma append_cons (c : ascii) (a b : string) :
  String c a +:+ b = String c (a +:+ b).
Proof. reflexivity. Qed.

Lemma split_at_newline (a b x y : string) :
  no_newline a = true → no_newline b = true →
  a +:+ LF +:+ x = b +:+ LF +:+ y → a = b ∧ x = y.
Proof.
  change (LF +:+ x) with (String "010"%char x).
  change (LF +:+ y) with (String "010"%char y).
  revert b. induction a as [|c a IH]; intros [|c' b] Ha Hb Heq.
  - change (String "010"%char x = String "010"%char y) in Heq.
    injection Heq as ->. done.
  - exfalso. change (String "010"%char x = String c' (b +:+ String "010"%char y)) in Heq.
    injection Heq as <- _. cbn in Hb. discriminate Hb.
  - exfalso. change (String c (a +:+ String "010"%char x) = String "010"%char y) in Heq.
    injection Heq as -> _. cbn in Ha. discriminate Ha.
  - rewrite !append_cons in Heq. injection Heq as -> Heq.
    cbn in Ha, Hb. apply andb_prop in Ha as [_ Ha]. apply andb_prop in Hb as [_ Hb].
    destruct (IH b Ha Hb Heq) as [-> ->]. done.
Qed.

Lemma append_cancel_r (a b s : string) : a +:+ s = b +:+ s → a = b.
Proof.
  revert b. induction a as [|c a IH]; intros [|c' b] Heq; [done| | |].
  - exfalso. apply (f_equal String.length) in Heq.
    rewrite append_cons in Heq. cbn in Heq. rewrite !length_append in Heq.
    cbn in Heq. lia.
  - exfalso. apply (f_equal String.length) in Heq.
    rewrite append_cons in Heq. cbn in Heq. rewrite !length_append in Heq.
    cbn in Heq. lia.
  - rewrite !append_cons in Heq. injection Heq as -> Heq. f_equal. by apply IH.
Qed.

(** X26: the framing of events can be undone.  Two events whose names
    hold no line feed, as the six names the services use, have the same
    wire text only if they have the same name and the same serialised
    data. *)
Theorem _format_sse_injective (json_dumps : json → string) (ev1 ev2 : sse) :
  no_newline (event ev1) = true →
  no_newline (event ev2) = true →
  _format_sse json_dumps ev1 = _format_sse json_dumps ev2 →
  event ev1 = event ev2 ∧ json_dumps (data ev1) = json_dumps (data ev2).
Proof.
  intros H1 H2 Heq. unfold _format_sse in Heq.
  apply (inj (String.app "event: ")) in Heq.
  apply split_at_newline in Heq as [He Hd]; [|done..].
  split; [done|]. apply (inj (String.app "data: ")) in Hd.
  by apply append_cancel_r in Hd.
Qed.

Lemma event_kinds_no_newline :
  Forall (λ kind, no_newline kind = true) event_kinds.
Proof. repeat constructor. Qed.

End framing_extras.

Section preview_extras.
Import IntentService RAGService.
Context `{Runtime}.

(** X27: the LLM_INPUT log entry holds a bounded preview of the context:
    the context itself when it has at most 500 characters, else its first
    500 characters followed by three dots, so never more than 503. *)
Theorem llm_input_preview_bounded (sid template_id context_str query : string) :
  ∃ preview,
    log_llm_input (T:=effect) sid template_id context_str query =
      ([ELog sid "LLM_INPUT"
          (dict [("template_id", JStr template_id);
                 ("context_preview", JStr preview);
                 ("question", JStr query)])],
       Ok tt)
    ∧ String.length preview ≤ 503
    ∧ (String.length context_str ≤ 500 → preview = context_str)
    ∧ (500 < String.length context_str →
       preview = slice_to 500 context_str +:+ "..."
       ∧ String.length preview = 503).
Proof.
  unfold log_llm_input, log, tell. eexists. split; [reflexivity|].
  destruct (decide (500 < String.length context_str)) as [Hlong|Hshort].
  - rewrite bool_decide_eq_true_2 by done.
    rewrite length_append, length_slice_to.
    change (String.length "...") with 3. split; [lia|]. split; [lia|].
    intros _. split; [done|lia].
  - rewrite bool_decide_eq_false_2 by done. split; [lia|]. split; [done|lia].
Qed.

End preview_extras.

Section more_witnesses.
Import PromptService Framing RAGService StreamShape.

Lemma _format_history_reads_last_five_witness :
  _format_history (H := strict_runtime)
    ([∅] ++ replicate 5 {[ "role" := JStr "user"; "content" := JStr "hi" ]})
  = _format_history (H := strict_runtime)
      (replicate 5 {[ "role" := JStr "user"; "content" := JStr "hi" ]}).
Proof.
  apply (_format_history_reads_last_five (H := strict_runtime) [∅]
           (replicate 5 {[ "role" := JStr "user"; "content" := JStr "hi" ]})).
  reflexivity.
Defined.

Lemma _format_sse_injective_witness :
  event (token_event "a") = event (token_event "a")
  ∧ (λ _ : json, "{}") (data (token_event "a"))
    = (λ _ : json, "{}") (data (token_event "a")).
Proof.
  apply (_format_sse_injective (λ _, "{}") (token_event "a") (token_event "a"));
    reflexivity.
Defined.

End more_witnesses.

